(** * Flight-booking MCP server: result store, normalisation and filter engine

    A shallow embedding of [main.py]: the Python values the program handles
    (JSON data, paths), the builtins it calls on them, the file-backed
    [FlightSearchStorage], [FlightBookingServer._transform_flight_data] and
    the two tools [search_flights] and [filter_flights]; followed by the
    properties of the specification that were checked against them. *)

From Stdlib Require Import ZArith List Bool Ascii String Lia.
From Stdlib Require Import Floats.SpecFloat DecimalString OrderedTypeEx.
From stdpp Require Import base option list gmap strings fin_maps.

Import ListNotations.
Set Warnings "-register-all".

Local Open Scope string_scope.
Local Open Scope list_scope.
Local Open Scope Z_scope.

(** ** Exceptions and fallible computations *)

(** A raised exception: the class name and [str(e)]. *)
Record exn := Exn { exn_type : string; exn_msg : string }.

Inductive result (A : Type) : Type :=
| Ok (a : A)
| Raise (e : exn).
Arguments Ok {A} a.
Arguments Raise {A} e.

Definition bind {A B} (m : result A) (k : A -> result B) : result B :=
  match m with
  | Ok a => k a
  | Raise e => Raise e
  end.

Notation "x <- m ;; k" := (bind m (fun x => k))
  (at level 100, m at next level, right associativity).

Fixpoint mapM {A B} (f : A -> result B) (l : list A) : result (list B) :=
  match l with
  | [] => Ok []
  | x :: l' => y <- f x ;; ys <- mapM f l' ;; Ok (y :: ys)
  end.

(** ** Python values

    The data of the program is JSON: what the provider returns, what is
    written to and read back from the store, and the filter specification.
    A [dict] is kept in insertion order and looked up by its first
    matching key; the keys of a Python dict are distinct. *)

Inductive value : Type :=
| VNone
| VBool (b : bool)
| VInt (n : Z)
| VFloat (x : spec_float)
| VStr (s : string)
| VList (l : list value)
| VDict (d : list (string * value)).

Abbreviation dict := (list (string * value)).

(** What a tool returns may also hold a [pathlib.Path], kept as the parts
    joined by [/]. *)
Inductive pyobj : Type :=
| Json (v : value)
| Path (parts : list string).

Definition type_name (v : value) : string :=
  match v with
  | VNone => "NoneType"
  | VBool _ => "bool"
  | VInt _ => "int"
  | VFloat _ => "float"
  | VStr _ => "str"
  | VList _ => "list"
  | VDict _ => "dict"
  end.

Definition KeyError {A} (k : string) : result A :=
  Raise (Exn "KeyError" ("'" ++ k ++ "'")).
Definition TypeError {A} (msg : string) : result A :=
  Raise (Exn "TypeError" msg).
Definition AttributeError {A} (msg : string) : result A :=
  Raise (Exn "AttributeError" msg).
Definition ValueError {A} (msg : string) : result A :=
  Raise (Exn "ValueError" msg).
Definition OverflowError {A} (msg : string) : result A :=
  Raise (Exn "OverflowError" msg).

(** An integer in decimal, as exception messages print it. *)
Definition decimal (n : Z) : string := NilZero.string_of_int (Z.to_int n).

(** *** Dictionaries *)

Fixpoint dict_lookup (k : string) (d : dict) : option value :=
  match d with
  | [] => None
  | (k', v) :: d' => if String.eqb k k' then Some v else dict_lookup k d'
  end.

(** [k in d] *)
Definition dict_has (k : string) (d : dict) : bool :=
  match dict_lookup k d with Some _ => true | None => false end.

(** [d.get(k, default)] *)
Definition dict_get (d : dict) (k : string) (default : value) : value :=
  match dict_lookup k d with Some v => v | None => default end.

(** [d[k]] *)
Definition dict_item (d : dict) (k : string) : result value :=
  match dict_lookup k d with Some v => Ok v | None => KeyError k end.

(** [v.get(k, default)] on an arbitrary object: only a dict has [get]. *)
Definition py_get (v : value) (k : string) (default : value) : result value :=
  match v with
  | VDict d => Ok (dict_get d k default)
  | _ => AttributeError ("'" ++ type_name v ++ "' object has no attribute 'get'")
  end.

(** [v[k]] with a string key [k]. *)
Definition py_item (v : value) (k : string) : result value :=
  match v with
  | VDict d => dict_item d k
  | VList _ => TypeError "list indices must be integers or slices, not str"
  | VStr _ => TypeError "string indices must be integers, not 'str'"
  | _ => TypeError ("'" ++ type_name v ++ "' object is not subscriptable")
  end.

(** *** Numbers: [int], [bool] and binary64 [float] *)

Definition prec : Z := 53.
Definition emax : Z := 1024.

Definition float_inf : spec_float := S754_infinity false.

(** [float(n)] for an integer: round to nearest even. *)
Definition float_of_Z (n : Z) : result spec_float :=
  match binary_normalize prec emax n 0 false with
  | S754_infinity _ => OverflowError "int too large to convert to float"
  | x => Ok x
  end.

(** [int(x)] for a float: truncate towards zero. *)
Definition Z_of_float (x : spec_float) : result Z :=
  match x with
  | S754_nan => ValueError "cannot convert float NaN to integer"
  | S754_infinity _ => OverflowError "cannot convert float infinity to integer"
  | S754_zero _ => Ok 0
  | S754_finite s m e =>
      let a := if (0 <=? e) then Z.shiftl (Zpos m) e else Z.shiftr (Zpos m) (- e) in
      Ok (if s then - a else a)
  end.

Inductive num : Type :=
| NInt (n : Z)
| NFloat (x : spec_float).

Definition as_num (v : value) : option num :=
  match v with
  | VBool b => Some (NInt (if b then 1 else 0))
  | VInt n => Some (NInt n)
  | VFloat x => Some (NFloat x)
  | _ => None
  end.

(** An integer against a float, exactly (no conversion of the integer). *)
Definition compare_Z_float (a : Z) (y : spec_float) : option comparison :=
  match y with
  | S754_nan => None
  | S754_infinity s => Some (if s then Gt else Lt)
  | S754_zero _ => Some (a ?= 0)
  | S754_finite s m e =>
      let v := if s then Zneg m else Zpos m in
      if (0 <=? e) then Some (a ?= Z.shiftl v e)
      else Some (Z.shiftl a (- e) ?= v)
  end.

(** Three-way comparison of numbers; [None] when a NaN is involved. *)
Definition num_compare (a b : num) : option comparison :=
  match a, b with
  | NInt x, NInt y => Some (x ?= y)
  | NFloat x, NFloat y => SFcompare x y
  | NInt x, NFloat y => compare_Z_float x y
  | NFloat x, NInt y => option_map CompOpp (compare_Z_float y x)
  end.

(** The rich comparison operators. *)
Inductive cmpop := OpLt | OpLe | OpGt | OpGe.

Definition cmpop_symbol (op : cmpop) : string :=
  match op with OpLt => "<" | OpLe => "<=" | OpGt => ">" | OpGe => ">=" end.

Definition cmpop_holds (op : cmpop) (c : option comparison) : bool :=
  match op, c with
  | OpLt, Some Lt => true
  | OpLe, Some (Lt | Eq) => true
  | OpGt, Some Gt => true
  | OpGe, Some (Gt | Eq) => true
  | _, _ => false
  end.

(** [a == b].  Numbers compare by value across [bool], [int] and [float];
    lists elementwise; dicts by key, whatever the insertion order. *)
Fixpoint py_eq (a b : value) {struct a} : bool :=
  match a, b with
  | VNone, VNone => true
  | VStr s, VStr t => String.eqb s t
  | VList l1, VList l2 =>
      (fix all_eq (l1 l2 : list value) {struct l1} : bool :=
         match l1, l2 with
         | [], [] => true
         | x :: l1', y :: l2' => py_eq x y && all_eq l1' l2'
         | _, _ => false
         end) l1 l2
  | VDict d1, VDict d2 =>
      Nat.eqb (length d1) (length d2) &&
      (fix all_in (d : dict) {struct d} : bool :=
         match d with
         | [] => true
         | (k, v) :: d' =>
             match dict_lookup k d2 with
             | Some w => py_eq v w
             | None => false
             end && all_in d'
         end) d1
  | _, _ =>
      match as_num a, as_num b with
      | Some x, Some y =>
          match num_compare x y with Some Eq => true | _ => false end
      | _, _ => false
      end
  end.

(** [a op b] for [<], [<=], [>], [>=]: numbers, strings and lists are
    ordered, anything else is a [TypeError]. *)
Fixpoint py_compare (op : cmpop) (a b : value) {struct a} : result bool :=
  match a, b with
  | VStr s, VStr t => Ok (cmpop_holds op (Some (String.compare s t)))
  | VList l1, VList l2 =>
      (fix lex (l1 l2 : list value) {struct l1} : result bool :=
         match l1, l2 with
         | x :: l1', y :: l2' =>
             if py_eq x y then lex l1' l2' else py_compare op x y
         | _, _ =>
             Ok (cmpop_holds op (Some (Nat.compare (length l1) (length l2))))
         end) l1 l2
  | _, _ =>
      match as_num a, as_num b with
      | Some x, Some y => Ok (cmpop_holds op (num_compare x y))
      | _, _ =>
          TypeError ("'" ++ cmpop_symbol op ++ "' not supported between instances of '"
                     ++ type_name a ++ "' and '" ++ type_name b ++ "'")
      end
  end.

Definition py_lt := py_compare OpLt.
Definition py_le := py_compare OpLe.
Definition py_gt := py_compare OpGt.

(** Truth value of an object, as [if v:] and [not v] take it. *)
Definition py_truthy (v : value) : bool :=
  match v with
  | VNone => false
  | VBool b => b
  | VInt n => negb (n =? 0)
  | VFloat (S754_zero _) => false
  | VFloat _ => true
  | VStr EmptyString => false
  | VStr _ => true
  | VList [] => false
  | VList _ => true
  | VDict [] => false
  | VDict _ => true
  end.

Fixpoint chars (s : string) : list value :=
  match s with
  | EmptyString => []
  | String c s' => VStr (String c EmptyString) :: chars s'
  end.

(** The elements a [for] loop (or an unpacking) draws from an object. *)
Definition py_iter (v : value) : result (list value) :=
  match v with
  | VList l => Ok l
  | VStr s => Ok (chars s)
  | VDict d => Ok (map (fun kv => VStr (fst kv)) d)
  | _ => TypeError ("'" ++ type_name v ++ "' object is not iterable")
  end.

(** [len(v)] *)
Definition py_len (v : value) : result Z :=
  match v with
  | VList l => Ok (Z.of_nat (length l))
  | VStr s => Ok (Z.of_nat (String.length s))
  | VDict d => Ok (Z.of_nat (length d))
  | _ => TypeError ("object of type '" ++ type_name v ++ "' has no len()")
  end.

Definition py_hashable (v : value) : bool :=
  match v with
  | VList _ | VDict _ => false
  | _ => true
  end.

Definition unhashable {A} (v : value) : result A :=
  TypeError ("unhashable type: '" ++ type_name v ++ "'").

Fixpoint is_substring (s t : string) : bool :=
  String.prefix s t ||
  match t with
  | EmptyString => false
  | String _ t' => is_substring s t'
  end.

(** [x in c] *)
Definition py_contains (x c : value) : result bool :=
  match c with
  | VList l => Ok (existsb (py_eq x) l)
  | VStr t =>
      match x with
      | VStr s => Ok (is_substring s t)
      | _ => TypeError ("'in <string>' requires string as left operand, not "
                        ++ type_name x)
      end
  | VDict d =>
      match x with
      | VStr k => Ok (dict_has k d)
      | VList _ | VDict _ => unhashable x
      | _ => Ok false
      end
  | _ => TypeError ("argument of type '" ++ type_name c ++ "' is not iterable")
  end.

Definition dquote : string := String (ascii_of_nat 34) EmptyString.

(** [a + b] *)
Definition py_add (a b : value) : result value :=
  match a, b with
  | VList l1, VList l2 => Ok (VList (l1 ++ l2))
  | VList _, _ =>
      TypeError ("can only concatenate list (not " ++ dquote ++ type_name b
                 ++ dquote ++ ") to list")
  | VStr s, VStr t => Ok (VStr (s ++ t))
  | VStr _, _ =>
      TypeError ("can only concatenate str (not " ++ dquote ++ type_name b
                 ++ dquote ++ ") to str")
  | _, _ =>
      match as_num a, as_num b with
      | Some (NInt x), Some (NInt y) => Ok (VInt (x + y))
      | Some (NFloat x), Some (NFloat y) => Ok (VFloat (SFadd prec emax x y))
      | Some (NInt x), Some (NFloat y) =>
          x' <- float_of_Z x ;; Ok (VFloat (SFadd prec emax x' y))
      | Some (NFloat x), Some (NInt y) =>
          y' <- float_of_Z y ;; Ok (VFloat (SFadd prec emax x y'))
      | _, _ =>
          TypeError ("unsupported operand type(s) for +: '" ++ type_name a
                     ++ "' and '" ++ type_name b ++ "'")
      end
  end.

(** ** What the program takes from the Python runtime

    Parsing a number out of a string, the [repr] of an object and the ISO
    format of a [datetime] are the interpreter's; the program only passes
    values through them, so they are left as an interface. *)

(** A [datetime]: microseconds on the proleptic calendar, and the UTC
    offset when it is timezone-aware ([datetime.now()] is naive). *)
Record datetime := DateTime { dt_micros : Z; dt_offset : option Z }.

Definition naive (t : Z) : datetime := DateTime t None.

Class PyRuntime := {
  (** [float(s)] for a string *)
  float_of_string : string -> result spec_float;
  (** [int(s)] for a string *)
  int_of_string : string -> result Z;
  (** [repr(v)] *)
  repr_value : value -> string;
  (** [d.isoformat()] for a naive [d] *)
  isoformat : Z -> string;
  (** [datetime.fromisoformat(s)] *)
  fromisoformat : string -> result datetime;
  (** [Path.exists()] on a path the system refuses with an [OSError] other
      than "no such file" and "not a directory": [pathlib] lets the error
      pass up to Python 3.12 and answers [False] from 3.13 *)
  exists_reraises : bool
}.

Section Builtins.
Context {rt : PyRuntime}.

(** [float(v)] *)
Definition py_float (v : value) : result spec_float :=
  match v with
  | VBool b => float_of_Z (if b then 1 else 0)
  | VInt n => float_of_Z n
  | VFloat x => Ok x
  | VStr s => float_of_string s
  | _ => TypeError ("float() argument must be a string or a real number, not '"
                    ++ type_name v ++ "'")
  end.

(** [int(v)] *)
Definition py_int (v : value) : result Z :=
  match v with
  | VBool b => Ok (if b then 1 else 0)
  | VInt n => Ok n
  | VFloat x => Z_of_float x
  | VStr s => int_of_string s
  | _ => TypeError ("int() argument must be a string, a bytes-like object or a real number, not '"
                    ++ type_name v ++ "'")
  end.

(** [f"{v}"]: a string as it is, any other object by its [repr]. *)
Definition py_format (v : value) : string :=
  match v with
  | VStr s => s
  | _ => repr_value v
  end.

(** [datetime.fromisoformat(v)] on an arbitrary object. *)
Definition datetime_fromisoformat (v : value) : result datetime :=
  match v with
  | VStr s => fromisoformat s
  | _ => TypeError "fromisoformat: argument must be str"
  end.

End Builtins.

(** [a - b] on datetimes, as a [timedelta] in microseconds. *)
Definition datetime_sub (a b : datetime) : result Z :=
  match dt_offset a, dt_offset b with
  | None, None => Ok (dt_micros a - dt_micros b)
  | Some oa, Some ob => Ok ((dt_micros a - oa) - (dt_micros b - ob))
  | _, _ => TypeError "can't subtract offset-naive and offset-aware datetimes"
  end.

Definition float_of_exact (n : Z) : spec_float :=
  match n with
  | Z0 => S754_zero false
  | Zpos p => S754_finite false p 0
  | Zneg p => S754_finite true p 0
  end.

(** [td.total_seconds()]: the microseconds over [10**6], correctly rounded. *)
Definition total_seconds (td : Z) : spec_float :=
  SFdiv prec emax (float_of_exact td) (float_of_exact 1000000).

(** ** [list.sort(key=..., reverse=...)]

    The keys are computed first, one per element; the elements are then
    ordered by [<] on their keys the way CPython (up to 3.12) orders a list
    of fewer than 64 elements: the run the list begins with is found and,
    when it descends, turned around ([count_run]); every further element is
    then put into the run by binary insertion ([binarysort]).  A list of
    one element or none is left as it is and no keys are compared.  With
    [reverse] the list is reversed, sorted and reversed again.

    From 64 elements on CPython cuts the list into several such runs and
    merges them.  On keys that [<] orders consistently that returns the
    same list as the insertion does, the one sorted list that keeps equal
    keys in their order; with other keys (a NaN among numbers) a list of 64
    elements or more may come out in another order than the one computed
    here. *)

Section Sort.
Context {A K : Type}.
Variable lt : K -> K -> result bool.

(** The elements that go on descending strictly after [prev], and what
    follows them. *)
Fixpoint descending_run (prev : K * A) (l : list (K * A))
  : result (list (K * A) * list (K * A)) :=
  match l with
  | [] => Ok ([], [])
  | x :: l' =>
      b <- lt (fst x) (fst prev) ;;
      if b then (p <- descending_run x l' ;; Ok (x :: fst p, snd p))
      else Ok ([], l)
  end.

(** The elements that go on without descending after [prev], and what
    follows them. *)
Fixpoint ascending_run (prev : K * A) (l : list (K * A))
  : result (list (K * A) * list (K * A)) :=
  match l with
  | [] => Ok ([], [])
  | x :: l' =>
      b <- lt (fst x) (fst prev) ;;
      if b then Ok ([], l)
      else (p <- ascending_run x l' ;; Ok (x :: fst p, snd p))
  end.

(** [count_run] and the reversal of a descending run: the run the list
    begins with, in ascending order, and the rest of the list. *)
Definition count_run (l : list (K * A))
  : result (list (K * A) * list (K * A)) :=
  match l with
  | x :: y :: l' =>
      b <- lt (fst y) (fst x) ;;
      if b then (p <- descending_run y l' ;; Ok (rev (x :: y :: fst p), snd p))
      else (p <- ascending_run y l' ;; Ok (x :: y :: fst p, snd p))
  | _ => Ok (l, [])
  end.

(** The bisection of [binarysort]: [pivot] is compared with the middle
    element of [run] and goes on into the left half when it is below it,
    into the right half when it is not.  [fuel] bounds the halvings; the
    length of [run] is enough. *)
Fixpoint binary_insert (fuel : nat) (pivot : K * A) (run : list (K * A))
  : result (list (K * A)) :=
  match run, fuel with
  | [], _ => Ok [pivot]
  | _, O => Ok (run ++ [pivot])
  | _, S fuel' =>
      let half := Nat.div2 (length run) in
      match skipn half run with
      | middle :: above =>
          b <- lt (fst pivot) (fst middle) ;;
          if b then
            below <- binary_insert fuel' pivot (firstn half run) ;;
            Ok (below ++ middle :: above)
          else
            above' <- binary_insert fuel' pivot above ;;
            Ok (firstn half run ++ middle :: above')
      | [] => Ok (run ++ [pivot])
      end
  end.

(** [binarysort]: the elements of [rest], one after the other, into
    [run]. *)
Fixpoint binarysort (run rest : list (K * A)) : result (list (K * A)) :=
  match rest with
  | [] => Ok run
  | pivot :: rest' =>
      run' <- binary_insert (length run) pivot run ;;
      binarysort run' rest'
  end.

Definition sort_keyed (l : list (K * A)) : result (list (K * A)) :=
  p <- count_run l ;; binarysort (fst p) (snd p).

Definition list_sort (key : A -> result K) (reverse : bool) (l : list A)
  : result (list A) :=
  keys <- mapM key l ;;
  let keyed := combine keys l in
  r <- (if reverse
        then (s <- sort_keyed (rev keyed) ;; Ok (rev s))
        else sort_keyed keyed) ;;
  Ok (map snd r).

End Sort.

(** ** [class FlightSearchStorage]

    The storage directory holds one entry per search, and no directory
    below it.  An entry is a file holding a JSON document, which
    [json.load] gives back as it was dumped, a file holding text that
    [json.load] rejects, or an entry that [open] refuses: a directory of
    that name, a file the process may not open.  The directory is a finite
    map from name to entry. *)

Inductive file : Type :=
| JsonFile (doc : value)
| Corrupt (text : string)
| Locked (e : exn).

Abbreviation directory := (gmap string file).

Definition JSONDecodeError {A} : result A :=
  Raise (Exn "JSONDecodeError" "Expecting value: line 1 column 1 (char 0)").

(** [open(path, 'r')] on an entry that is there *)
Definition open_r (f : file) : result file :=
  match f with
  | Locked e => Raise e
  | _ => Ok f
  end.

(** [json.load(f)] *)
Definition json_load (f : file) : result value :=
  match f with
  | JsonFile doc => Ok doc
  | _ => JSONDecodeError
  end.

(** *** What the program takes from the operating system

    Where a path [temp_dir / name] leads is for the system to say: *)

Inductive resolution : Type :=
(** to a place in the storage directory itself, where the entry of that
    name is or can be created; *)
| Entry
(** nowhere: a directory on the way is missing or is a file (a name with a
    [/] in it), or the name holds a NUL byte.  [open] raises [e], a
    [FileNotFoundError], [NotADirectoryError] or [ValueError], and
    [Path.exists()] answers [False]; *)
| NoEntry (e : exn)
(** or the system refuses the path with another [OSError] [e], as it does a
    name that is too long: [open] raises [e], and so does [Path.exists()]
    where it lets such errors pass. *)
| Refused (e : exn).

Class FileSystem := {
  (** the answer of the system for a name below the storage directory *)
  resolve : string -> resolution;
  (** the [OSError] with which [Path.unlink()] is refused, if it is: a
      directory that may not be written to, a file that may not be
      removed *)
  unlink_error : string -> option exn
}.

(** The storage path before a call: a directory with its entries, nothing
    there under a parent in which it can be created, a file, nothing there
    and no parent, or any other state in which the system refuses [mkdir]
    with the [OSError] [e] (no permission, a parent that is a file, a
    read-only file system). *)
Inductive path_state : Type :=
| IsDirectory (content : directory)
| Missing
| IsFile
| NoParent
| Unavailable (e : exn).

(** [path.mkdir(exist_ok=True)]: the entries of the directory afterwards. *)
Definition mkdir_exist_ok (path : string) (st : path_state) : result directory :=
  match st with
  | IsDirectory content => Ok content
  | Missing => Ok ∅
  | IsFile =>
      Raise (Exn "FileExistsError" ("[Errno 17] File exists: '" ++ path ++ "'"))
  | NoParent =>
      Raise (Exn "FileNotFoundError"
               ("[Errno 2] No such file or directory: '" ++ path ++ "'"))
  | Unavailable e => Raise e
  end.

(** The process a tool runs in: [os.getenv] and the storage path. *)
Record process := {
  getenv : string -> option string;
  storage_path : path_state
}.

Module FlightSearchStorage.
Section Storage.
Context {rt : PyRuntime} {fs : FileSystem}.

(** [__init__]: [temp_dir] and the entries it holds, the directory being
    created when it is not there. *)
Definition __init__ (ps : process) : result (string * directory) :=
  match getenv ps "TEMP_FLIGHT_SEARCH_DIR" with
  | None => TypeError "expected str, bytes or os.PathLike object, not NoneType"
  | Some path => dir <- mkdir_exist_ok path (storage_path ps) ;; Ok (path, dir)
  end.

(** [f"search_{search_id}.json"] *)
Definition file_name (search_id : string) : string :=
  "search_" ++ search_id ++ ".json".

(** [open(file_path, 'w')]: the exception it raises, if any.  Nothing is
    written then. *)
Definition open_w (name : string) (dir : directory) : result unit :=
  match resolve name with
  | Entry =>
      match dir !! name with
      | Some (Locked e) => Raise e
      | _ => Ok tt
      end
  | NoEntry e | Refused e => Raise e
  end.

(** [save_search_results]; [now] is what [datetime.now()] returns. *)
Definition save_search_results (now : Z) (search_id : string) (results : value)
    (dir : directory) : result directory :=
  let name := file_name search_id in
  _ <- open_w name dir ;;
  Ok (<[name :=
          JsonFile (VDict [("timestamp", VStr (isoformat now));
                           ("results", results)])]> dir).

(** [file_path.exists()] *)
Definition path_exists (name : string) (dir : directory) : result bool :=
  match dir !! name with
  | Some _ => Ok true
  | None =>
      match resolve name with
      | Refused e => if exists_reraises then Raise e else Ok false
      | _ => Ok false
      end
  end.

(** [get_search_results] *)
Definition get_search_results (search_id : string) (dir : directory)
  : result (option value) :=
  let name := file_name search_id in
  found <- path_exists name dir ;;
  if found then
    match dir !! name with
    | Some f => h <- open_r f ;; data <- json_load h ;; Ok (Some data)
    | None => Raise (Exn "FileNotFoundError" name)
    end
  else Ok None.

(** [self.temp_dir.glob("search_*.json")] *)
Definition glob_match (name : string) : bool :=
  String.prefix "search_" name
  && (String.length "search_.json" <=? String.length name)%nat
  && String.eqb ".json"
       (String.substring (String.length name - 5) 5 name).

Definition glob (dir : directory) : list string :=
  filter (fun name => glob_match name = true) (map fst (map_to_list dir)).

(** [(current_time - file_time).total_seconds() > max_age_hours * 3600] *)
Definition too_old (current_time file_time : datetime) (max_age_hours : Z)
  : result bool :=
  age <- datetime_sub current_time file_time ;;
  Ok (cmpop_holds OpGt
        (num_compare (NFloat (total_seconds age)) (NInt (max_age_hours * 3600)))).

(** What the [try] reads from one file: is it to be unlinked? *)
Definition file_verdict (current_time : datetime) (max_age_hours : Z) (f : file)
  : result bool :=
  h <- open_r f ;;
  data <- json_load h ;;
  ts <- py_item data "timestamp" ;;
  file_time <- datetime_fromisoformat ts ;;
  too_old current_time file_time max_age_hours.

(** [file.unlink()] *)
Definition unlink (name : string) (dir : directory) : result directory :=
  match unlink_error name with
  | Some e => Raise e
  | None => Ok (delete name dir)
  end.

(** The body of the [try] for one file of the sweep. *)
Definition sweep_file (current_time : datetime) (max_age_hours : Z)
    (name : string) (dir : directory) : result directory :=
  match dir !! name with
  | None => Raise (Exn "FileNotFoundError" name)
  | Some f =>
      old <- file_verdict current_time max_age_hours f ;;
      if old then unlink name dir else Ok dir
  end.

(** One turn of the loop: [try: ... except Exception: continue]. *)
Definition sweep_step (current_time : datetime) (max_age_hours : Z)
    (dir : directory) (name : string) : directory :=
  match sweep_file current_time max_age_hours name dir with
  | Ok dir' => dir'
  | Raise _ => dir
  end.

(** [cleanup_old_searches] *)
Definition cleanup_old_searches (now : Z) (max_age_hours : Z) (dir : directory)
  : directory :=
  let current_time := naive now in
  fold_left (sweep_step current_time max_age_hours) (glob dir) dir.

End Storage.
End FlightSearchStorage.

(** ** [class FlightBookingServer] *)

(** [l[0]] and [l[-1]] *)
Definition list_first (l : list value) : result value :=
  match l with
  | x :: _ => Ok x
  | [] => Raise (Exn "IndexError" "list index out of range")
  end.

Definition list_last (l : list value) : result value :=
  match rev l with
  | x :: _ => Ok x
  | [] => Raise (Exn "IndexError" "list index out of range")
  end.

Module FlightBookingServer.
Section Server.
Context {rt : PyRuntime}.

(** [__init__]: [self.storage = FlightSearchStorage()] *)
Definition __init__ (ps : process) : result (string * directory) :=
  FlightSearchStorage.__init__ ps.

(** The dict appended to [flight_segments] for one [segment]. *)
Definition transform_segment (segment : value) : result value :=
  airline <- py_get segment "airline" (VStr EmptyString) ;;
  flight_number <- py_get segment "flight_number" (VStr EmptyString) ;;
  airplane <- py_get segment "airplane" (VStr EmptyString) ;;
  travel_class <- py_get segment "travel_class" (VStr EmptyString) ;;
  dep_name <- (a <- py_item segment "departure_airport" ;; py_item a "name") ;;
  dep_id <- (a <- py_item segment "departure_airport" ;; py_item a "id") ;;
  dep_time <- (a <- py_item segment "departure_airport" ;; py_item a "time") ;;
  arr_name <- (a <- py_item segment "arrival_airport" ;; py_item a "name") ;;
  arr_id <- (a <- py_item segment "arrival_airport" ;; py_item a "id") ;;
  arr_time <- (a <- py_item segment "arrival_airport" ;; py_item a "time") ;;
  duration <- py_get segment "duration" (VInt 0) ;;
  airline_logo <- py_get segment "airline_logo" (VStr EmptyString) ;;
  legroom <- py_get segment "legroom" (VStr EmptyString) ;;
  overnight <- py_get segment "overnight" (VBool false) ;;
  plane_and_crew_by <- py_get segment "plane_and_crew_by" (VStr EmptyString) ;;
  often_delayed <- py_get segment "often_delayed_by_over_30_min" (VBool false) ;;
  Ok (VDict
        [("airline", airline);
         ("flight_number", flight_number);
         ("airplane", airplane);
         ("travel_class", travel_class);
         ("departure_airport",
           VDict [("name", dep_name); ("id", dep_id); ("time", dep_time)]);
         ("arrival_airport",
           VDict [("name", arr_name); ("id", arr_id); ("time", arr_time)]);
         ("duration", duration);
         ("airline_logo", airline_logo);
         ("legroom", legroom);
         ("overnight", overnight);
         ("plane_and_crew_by", plane_and_crew_by);
         ("often_delayed_by_over_30_min", often_delayed)]).

(** One turn of the loop over [all_flights]: [None] when the itinerary is
    skipped by [continue], the appended flight otherwise. *)
Definition transform_itinerary (search_params : dict) (flight_itinerary : value)
  : result (option value) :=
  fl <- py_get flight_itinerary "flights" VNone ;;
  if negb (py_truthy fl) then Ok None
  else
    segments <- (f <- py_item flight_itinerary "flights" ;; py_iter f) ;;
    flight_segments <- mapM transform_segment segments ;;
    price <- (p <- py_get flight_itinerary "price" (VInt 0) ;; py_float p) ;;
    let currency := dict_get search_params "currency" (VStr "USD") in
    total_duration <-
      (d <- py_get flight_itinerary "total_duration" (VInt 0) ;; py_int d) ;;
    n <- (f <- py_item flight_itinerary "flights" ;; py_len f) ;;
    type <- py_get flight_itinerary "type" (VStr EmptyString) ;;
    airline_logo <- py_get flight_itinerary "airline_logo" (VStr EmptyString) ;;
    carbon_emissions <- py_get flight_itinerary "carbon_emissions" (VDict []) ;;
    dep_airport <-
      (s <- list_first flight_segments ;; py_item s "departure_airport") ;;
    dep_time <-
      (s <- list_first flight_segments ;;
       a <- py_item s "departure_airport" ;; py_item a "time") ;;
    arr_airport <-
      (s <- list_last flight_segments ;; py_item s "arrival_airport") ;;
    arr_time <-
      (s <- list_last flight_segments ;;
       a <- py_item s "arrival_airport" ;; py_item a "time") ;;
    Ok (Some (VDict
        [("price", VFloat price);
         ("currency", currency);
         ("total_duration", VInt total_duration);
         ("stops", VInt (n - 1));
         ("type", type);
         ("airline_logo", airline_logo);
         ("segments", VList flight_segments);
         ("carbon_emissions", carbon_emissions);
         ("departure", VDict [("airport", dep_airport); ("time", dep_time)]);
         ("arrival", VDict [("airport", arr_airport); ("time", arr_time)])])).

(** The loop over [all_flights], building [transformed_flights]. *)
Fixpoint transform_all (search_params : dict) (all_flights : list value)
  : result (list value) :=
  match all_flights with
  | [] => Ok []
  | flight_itinerary :: rest =>
      r <- transform_itinerary search_params flight_itinerary ;;
      flights <- transform_all search_params rest ;;
      Ok (match r with Some f => f :: flights | None => flights end)
  end.

(** [_transform_flight_data]; [uuid] is what [str(uuid.uuid4())] returns and
    [now] what [datetime.now()] returns. *)
Definition _transform_flight_data (uuid : string) (now : Z)
    (api_response : dict) (search_params : dict) : result value :=
  all_flights <-
    py_add (dict_get api_response "best_flights" (VList []))
           (dict_get api_response "other_flights" (VList [])) ;;
  itineraries <- py_iter all_flights ;;
  transformed_flights <- transform_all search_params itineraries ;;
  Ok (VDict
        [("search_id", VStr uuid);
         ("timestamp", VStr (isoformat now));
         ("search_params", VDict search_params);
         ("flights", VList transformed_flights);
         ("status", VStr "success")]).

End Server.
End FlightBookingServer.

(** ** The tools *)

(** The process environment: [os.getenv("SERPAPI_KEY")] and the storage
    directory named by [TEMP_FLIGHT_SEARCH_DIR], which is set (without it
    [FlightSearchStorage()] fails before either tool does anything). *)
Record environ := {
  SERPAPI_KEY : option string;
  TEMP_FLIGHT_SEARCH_DIR : string
}.

(** What one call of [search_flights] draws from outside the program: the
    client notification [ctx.info], the provider
    ([GoogleSearch(params).get_dict()]), the fresh identifier and the two
    readings of the clock (in the transform and in the store).  What the
    first two raise is an [Exception]; the cancellation of the coroutine
    while it awaits [ctx.info], which [except Exception] lets pass, is not
    modelled. *)
Record outside := {
  ctx_info : string -> result unit;
  google_search : dict -> result dict;
  uuid4 : string;
  now_transform : Z;
  now_save : Z
}.

Abbreviation response := (list (string * pyobj)).

Definition error_response (msg : string) : response :=
  [("status", Json (VStr "error")); ("error", Json (VStr msg))].

Section Tools.
Context {rt : PyRuntime} {fs : FileSystem}.

Definition optional_str (s : option string) : value :=
  match s with Some s => VStr s | None => VNone end.

(** The [search_params] dict of [search_flights]. *)
Definition make_search_params (departure_id arrival_id outbound_date : string)
    (return_date : option string) : dict :=
  [("departure_id", VStr departure_id);
   ("arrival_id", VStr arrival_id);
   ("outbound_date", VStr outbound_date);
   ("return_date", optional_str return_date);
   ("currency", VStr "INR");
   ("type", VInt (if py_truthy (optional_str return_date) then 1 else 2))].

(** The [params] dict sent to the provider. *)
Definition provider_params (api_key : string) (search_params : dict) : dict :=
  [("engine", VStr "google_flights"); ("hl", VStr "en"); ("gl", VStr "in");
   ("api_key", VStr api_key)] ++ search_params.

(** The body of the [try] of [search_flights]. *)
Definition search_body (env : environ) (out : outside) (api_key : string)
    (dir : directory) (departure_id arrival_id : string)
    (search_params : dict) (currency : string)
  : result (response * directory) :=
  let params := provider_params api_key search_params in
  _ <- ctx_info out ("Searching flights from " ++ departure_id ++ " to "
                     ++ arrival_id ++ "...") ;;
  api_response <- google_search out params ;;
  if dict_has "error" api_response then
    err <- dict_item api_response "error" ;;
    Ok (error_response ("API Error: " ++ py_format err), dir)
  else
    transformed_data <-
      FlightBookingServer._transform_flight_data
        (uuid4 out) (now_transform out) api_response search_params ;;
    search_id <- py_item transformed_data "search_id" ;;
    dir' <-
      FlightSearchStorage.save_search_results
        (now_save out) (py_format search_id) transformed_data dir ;;
    search_id <- py_item transformed_data "search_id" ;;
    flights_count <- (f <- py_item transformed_data "flights" ;; py_len f) ;;
    Ok ([("status", Json (VStr "success"));
         ("search_id", Json search_id);
         ("flights_count", Json (VInt flights_count));
         ("currency", Json (VStr currency));
         ("path", Path [TEMP_FLIGHT_SEARCH_DIR env])],
        dir').

(** [search_flights]: the response and the storage directory after the
    call.  [currency] defaults to ["INR"] in the source. *)
Definition search_flights (env : environ) (out : outside) (dir : directory)
    (departure_id arrival_id outbound_date : string)
    (return_date : option string) (currency : string)
  : response * directory :=
  match SERPAPI_KEY env with
  | None | Some EmptyString =>
      (error_response "SERPAPI_KEY environment variable is not set", dir)
  | Some api_key =>
      let search_params :=
        make_search_params departure_id arrival_id outbound_date return_date in
      match search_body env out api_key dir departure_id arrival_id
              search_params currency with
      | Ok r => r
      | Raise e => (error_response ("Search failed: " ++ exn_msg e), dir)
      end
  end.

(** *** [filter_flights] *)

(** Both checks in turn, the second only when the first lets the flight
    through. *)
Definition and_then (c1 c2 : result bool) : result bool :=
  b <- c1 ;; if b then c2 else Ok false.

(** Each check answers [true] when the flight is kept (its [continue] is
    not taken). *)
Definition check_price (filters : dict) (flight : value) : result bool :=
  if dict_has "max_price" filters then
    price <- (p <- py_get flight "price" (VFloat float_inf) ;; py_float p) ;;
    max_price <- dict_item filters "max_price" ;;
    over <- py_gt (VFloat price) max_price ;;
    Ok (negb over)
  else Ok true.

Definition check_duration (filters : dict) (flight : value) : result bool :=
  if dict_has "max_duration" filters then
    duration <-
      (d <- py_get flight "total_duration" (VFloat float_inf) ;; py_int d) ;;
    max_duration <- dict_item filters "max_duration" ;;
    over <- py_gt (VInt duration) max_duration ;;
    Ok (negb over)
  else Ok true.

Definition check_stops (filters : dict) (flight : value) : result bool :=
  if dict_has "max_stops" filters then
    stops <- py_get flight "stops" (VInt 0) ;;
    max_stops <- dict_item filters "max_stops" ;;
    over <- py_gt stops max_stops ;;
    Ok (negb over)
  else Ok true.

(** [{segment["airline"] for segment in segments}]: the airlines in the
    order they first occur. *)
Fixpoint airline_set (segments : list value) (seen : list value)
  : result (list value) :=
  match segments with
  | [] => Ok (rev seen)
  | segment :: rest =>
      airline <- py_item segment "airline" ;;
      if negb (py_hashable airline) then unhashable airline
      else if existsb (py_eq airline) seen then airline_set rest seen
      else airline_set rest (airline :: seen)
  end.

(** [any(airline in filters["preferred_airlines"] for airline in airlines)] *)
Fixpoint any_preferred (filters : dict) (airlines : list value) : result bool :=
  match airlines with
  | [] => Ok false
  | airline :: rest =>
      preferred <- dict_item filters "preferred_airlines" ;;
      found <- py_contains airline preferred ;;
      if found then Ok true else any_preferred filters rest
  end.

Definition check_airlines (filters : dict) (flight : value) : result bool :=
  if dict_has "preferred_airlines" filters then
    segments <- (s <- py_item flight "segments" ;; py_iter s) ;;
    segment_airlines <- airline_set segments [] ;;
    any_preferred filters segment_airlines
  else Ok true.

(** [start_time, end_time = v] *)
Definition unpack_pair (v : value) : result (value * value) :=
  items <- py_iter v ;;
  match items with
  | [a; b] => Ok (a, b)
  | _ :: _ :: _ :: _ => ValueError "too many values to unpack (expected 2)"
  | _ => ValueError ("not enough values to unpack (expected 2, got "
                     ++ decimal (Z.of_nat (length items)) ++ ")")
  end.

Definition check_departure_time (filters : dict) (flight : value) : result bool :=
  if dict_has "departure_time_range" filters then
    range <- (r <- dict_item filters "departure_time_range" ;; unpack_pair r) ;;
    let '(start_time, end_time) := range in
    departure_time <- (d <- py_item flight "departure" ;; py_item d "time") ;;
    and_then (py_le start_time departure_time) (py_le departure_time end_time)
  else Ok true.

(** The body of the loop over [flights]: is [flight] appended? *)
Definition keep_flight (filters : dict) (flight : value) : result bool :=
  and_then (check_price filters flight)
    (and_then (check_duration filters flight)
       (and_then (check_stops filters flight)
          (and_then (check_airlines filters flight)
             (check_departure_time filters flight)))).

Fixpoint filter_loop (filters : dict) (flights : list value) : result (list value) :=
  match flights with
  | [] => Ok []
  | flight :: rest =>
      keep <- keep_flight filters flight ;;
      filtered <- filter_loop filters rest ;;
      Ok (if keep then flight :: filtered else filtered)
  end.

(** The three sort keys. *)
Definition price_key (x : value) : result value :=
  p <- py_get x "price" (VFloat float_inf) ;; f <- py_float p ;; Ok (VFloat f).

Definition duration_key (x : value) : result value :=
  d <- py_get x "total_duration" (VInt 0) ;; n <- py_int d ;; Ok (VInt n).

Definition departure_time_key (x : value) : result value :=
  d <- py_item x "departure" ;; py_item d "time".

Definition str_eq (v : value) (s : string) : bool := py_eq v (VStr s).

(** The sorting step at the end of [filter_flights]. *)
Definition apply_sorting (filters : dict) (filtered_flights : list value)
  : result (list value) :=
  if dict_has "sort_by" filters then
    sort_key <- dict_item filters "sort_by" ;;
    let reverse := str_eq (dict_get filters "sort_order" (VStr "asc")) "desc" in
    if str_eq sort_key "price" then
      list_sort py_lt price_key reverse filtered_flights
    else if str_eq sort_key "duration" then
      list_sort py_lt duration_key reverse filtered_flights
    else if str_eq sort_key "departure_time" then
      list_sort py_lt departure_time_key reverse filtered_flights
    else Ok filtered_flights
  else Ok filtered_flights.

(** [flights_data["results"]["flights"] if flights_data and "results" in
    flights_data else []] *)
Definition stored_flights (flights_data : value) : result value :=
  if py_truthy flights_data then
    has <- py_contains (VStr "results") flights_data ;;
    if has then
      results <- py_item flights_data "results" ;; py_item results "flights"
    else Ok (VList [])
  else Ok (VList []).

Definition not_found : response :=
  error_response "No search results found for the provided search ID".

(** [filter_flights] *)
Definition filter_flights (env : environ) (dir : directory) (filters : dict)
  : result response :=
  let search_id := dict_get filters "search_id" VNone in
  flights_data <- FlightSearchStorage.get_search_results (py_format search_id) dir ;;
  match flights_data with
  | None => Ok not_found
  | Some flights_data =>
      if negb (py_truthy flights_data) then Ok not_found
      else
        flights <- stored_flights flights_data ;;
        items <- py_iter flights ;;
        filtered_flights <- filter_loop filters items ;;
        filtered_flights <- apply_sorting filters filtered_flights ;;
        total_count <- py_len flights ;;
        Ok [("filtered_count", Json (VInt (Z.of_nat (length filtered_flights))));
            ("total_count", Json (VInt total_count));
            ("flights", Json (VList filtered_flights));
            ("storage",
              Path [TEMP_FLIGHT_SEARCH_DIR env;
                    FlightSearchStorage.file_name (py_format search_id)])]
  end.

(** *** The tools from their first line

    Both tools build the storage before anything else: [search_flights] by
    [server = FlightBookingServer()], ahead of its [try], and
    [filter_flights] by [storage = FlightSearchStorage()]. *)

Definition process_environ (ps : process) (temp_dir : string) : environ :=
  {| SERPAPI_KEY := getenv ps "SERPAPI_KEY";
     TEMP_FLIGHT_SEARCH_DIR := temp_dir |}.

Definition search_flights_call (ps : process) (out : outside)
    (departure_id arrival_id outbound_date : string)
    (return_date : option string) (currency : string)
  : result (response * directory) :=
  server <- FlightBookingServer.__init__ ps ;;
  let '(temp_dir, dir) := server in
  Ok (search_flights (process_environ ps temp_dir) out dir
        departure_id arrival_id outbound_date return_date currency).

Definition filter_flights_call (ps : process) (filters : dict) : result response :=
  storage <- FlightSearchStorage.__init__ ps ;;
  let '(temp_dir, dir) := storage in
  filter_flights (process_environ ps temp_dir) dir filters.

End Tools.

(** ** The vocabulary of the specification

    The notions the specification states its properties with, each read off
    the stored data. *)

Section Vocabulary.
Context {rt : PyRuntime} {fs : FileSystem}.

(** The view the specification takes of one end of a segment, its
    [departure_airport] or its [arrival_airport]: the airport and, beside
    it, the time the airport carries. *)
Definition end_view (segment : value) (airport_key : string) : result value :=
  a <- py_item segment airport_key ;;
  t <- py_item a "time" ;;
  Ok (VDict [("airport", a); ("time", t)]).

(** The itineraries of a provider payload: its [best_flights], then its
    [other_flights]. *)
Definition itineraries (api_response : dict) : result (list value) :=
  all <- py_add (dict_get api_response "best_flights" (VList []))
                (dict_get api_response "other_flights" (VList [])) ;;
  py_iter all.



(** An airport object carries [name], [id] and [time]. *)
Definition airport_complete (a : value) : bool :=
  match a with
  | VDict d => dict_has "name" d && dict_has "id" d && dict_has "time" d
  | _ => false
  end.

(** Both airport objects of a segment are present and complete. *)
Definition airports_complete (segment : dict) : bool :=
  match dict_lookup "departure_airport" segment,
        dict_lookup "arrival_airport" segment with
  | Some d, Some a => airport_complete d && airport_complete a
  | _, _ => false
  end.

(** An itinerary whose segment list is empty or absent. *)
Definition dropped (itinerary : value) : bool :=
  match itinerary with
  | VDict d => negb (py_truthy (dict_get d "flights" VNone))
  | _ => false
  end.

(** The price of a stored flight, as a number. *)
Definition flight_price (flight : value) : result spec_float :=
  p <- py_get flight "price" (VFloat float_inf) ;; py_float p.

(** [price <= P] *)
Definition price_within (P : value) (flight : value) : Prop :=
  exists x, flight_price flight = Ok x /\ py_le (VFloat x) P = Ok true.

Definition is_nan (x : spec_float) : bool :=
  match x with S754_nan => true | _ => false end.

Definition is_nan_value (v : value) : bool :=
  match v with VFloat x => is_nan x | _ => false end.

(** The age test of the sweep on a document stored at [t] (naive, like
    [now]): [(now - t).total_seconds() > max_age_hours * 3600]. *)
Definition age_exceeds (now t max_age_hours : Z) : bool :=
  cmpop_holds OpGt
    (num_compare (NFloat (total_seconds (now - t))) (NInt (max_age_hours * 3600))).

(** What one turn of the sweep leaves of the entry [name]. *)
Definition after_sweep (current_time : datetime) (max_age_hours : Z)
    (name : string) (f : option file) : option file :=
  match f with
  | Some f =>
      match FlightSearchStorage.file_verdict current_time max_age_hours f with
      | Ok true =>
          match unlink_error name with
          | None => None
          | Some _ => Some f
          end
      | _ => Some f
      end
  | None => None
  end.

(** The file the filter reads. *)
Definition filter_file (filters : dict) : string :=
  FlightSearchStorage.file_name (py_format (dict_get filters "search_id" VNone)).

(** [Path.exists()] answers for the name when nothing is there: the system
    does not refuse the path, or [pathlib] turns the refusal into
    [False]. *)
Definition exists_answers (name : string) : bool :=
  match resolve name with
  | Refused _ => negb exists_reraises
  | _ => true
  end.

(** The flight survives the predicates of the filter specification. *)
Definition survives (filters : dict) (flight : value) : bool :=
  match keep_flight filters flight with
  | Ok true => true
  | _ => false
  end.

(** The key the filter specification sorts by, when it names one. *)
Definition sort_key_of (filters : dict) : option (value -> result value) :=
  match dict_lookup "sort_by" filters with
  | Some k =>
      if str_eq k "price" then Some price_key
      else if str_eq k "duration" then Some duration_key
      else if str_eq k "departure_time" then Some departure_time_key
      else None
  | None => None
  end.

(** The kinds of keys that [<] orders consistently: floats other than NaN,
    integers, strings.  On keys of one kind [<] is a strict weak order. *)
Inductive key_kind : Type := Floats | Integers | Strings.

Definition of_kind (kind : key_kind) (k : value) : bool :=
  match kind, k with
  | Floats, VFloat x => negb (is_nan x)
  | Integers, VInt _ => true
  | Strings, VStr _ => true
  | _, _ => false
  end.

(** Two flights compare equal on a sort key: neither key is below the
    other. *)
Definition same_key (key : value -> result value) (x y : value) : Prop :=
  exists kx ky, key x = Ok kx /\ key y = Ok ky
    /\ py_lt kx ky = Ok false /\ py_lt ky kx = Ok false.

(** *** Well-formed input of the filter

    A stored flight as the transform writes it for a provider that names
    airlines and times by strings, and a filter specification typed as the
    docstring of [filter_flights] says. *)

Definition is_number (v : value) : bool :=
  match as_num v with Some _ => true | None => false end.

Definition is_list (v : value) : bool :=
  match v with VList _ => true | _ => false end.

Definition is_str_pair (v : value) : bool :=
  match v with VList [VStr _; VStr _] => true | _ => false end.

(** The key is absent, or its value passes [p]. *)
Definition optional (p : value -> bool) (k : string) (d : dict) : bool :=
  match dict_lookup k d with Some v => p v | None => true end.

Definition well_typed (filters : dict) : bool :=
  optional is_number "max_price" filters
  && optional is_number "max_duration" filters
  && optional is_number "max_stops" filters
  && optional is_list "preferred_airlines" filters
  && optional is_str_pair "departure_time_range" filters.

Definition segment_ok (segment : value) : bool :=
  match segment with
  | VDict d =>
      match dict_lookup "airline" d with Some (VStr _) => true | _ => false end
  | _ => false
  end.

Definition flight_ok (flight : value) : bool :=
  match flight with
  | VDict d =>
      match dict_lookup "price" d with Some (VFloat _) => true | _ => false end
      && match dict_lookup "total_duration" d with
         | Some (VInt _) => true
         | _ => false
         end
      && match dict_lookup "stops" d with Some (VInt _) => true | _ => false end
      && match dict_lookup "segments" d with
         | Some (VList segments) => forallb segment_ok segments
         | _ => false
         end
      && match dict_lookup "departure" d with
         | Some (VDict dep) =>
             match dict_lookup "time" dep with
             | Some (VStr _) => true
             | _ => false
             end
         | _ => false
         end
  | _ => false
  end.

(** A provider segment that names its airline, when it names one, and the
    time of its departure by strings; an itinerary made of such segments. *)
Definition provider_segment_ok (segment : value) : bool :=
  match segment with
  | VDict d =>
      match dict_get d "airline" (VStr EmptyString) with
      | VStr _ => true
      | _ => false
      end
      && match dict_lookup "departure_airport" d with
         | Some (VDict a) =>
             match dict_lookup "time" a with
             | Some (VStr _) => true
             | _ => false
             end
         | _ => false
         end
  | _ => false
  end.

Definition provider_itinerary_ok (itinerary : value) : bool :=
  match itinerary with
  | VDict d =>
      match dict_get d "flights" VNone with
      | VList segments => forallb provider_segment_ok segments
      | v => negb (py_truthy v)
      end
  | _ => false
  end.

(** The filter specification names none of the five predicates and no sort
    key. *)
Definition no_criteria (filters : dict) : bool :=
  forallb (fun k => negb (dict_has k filters))
    ["max_price"; "max_duration"; "max_stops"; "preferred_airlines";
     "departure_time_range"; "sort_by"].

(** The keys of a dict, in their order. *)
Definition dict_keys (v : value) : option (list string) :=
  match v with VDict d => Some (map fst d) | _ => None end.

(** The keys of a flight and of a segment as the transform writes them. *)
Definition flight_keys : list string :=
  ["price"; "currency"; "total_duration"; "stops"; "type"; "airline_logo";
   "segments"; "carbon_emissions"; "departure"; "arrival"].

Definition segment_keys : list string :=
  ["airline"; "flight_number"; "airplane"; "travel_class";
   "departure_airport"; "arrival_airport"; "duration"; "airline_logo";
   "legroom"; "overnight"; "plane_and_crew_by";
   "often_delayed_by_over_30_min"].

(** [int(flight.get("total_duration", float("inf")))], the duration the
    filter compares. *)
Definition flight_duration (flight : value) : result Z :=
  d <- py_get flight "total_duration" (VFloat float_inf) ;; py_int d.

End Vocabulary.

(** [a] comes before [b] in [l]: at two positions of [l], the first holding
    [a] and the second [b]. *)
Inductive precedes {A} (a b : A) : list A -> Prop :=
| precedes_here l : In b l -> precedes a b (a :: l)
| precedes_later x l : precedes a b l -> precedes a b (x :: l).

(** [r[k]] on what a tool returned. *)
Fixpoint response_get (k : string) (r : response) : option pyobj :=
  match r with
  | [] => None
  | (k', v) :: r' => if String.eqb k k' then Some v else response_get k r'
  end.

(** ** A runtime to evaluate the definitions with

    Numbers are read and printed as decimal integers, and a datetime is
    printed as its count of microseconds. *)

Definition read_decimal (s : string) : option Z :=
  option_map Z.of_int (NilZero.int_of_string s).

#[export] Instance decimal_runtime : PyRuntime := {|
  float_of_string s :=
    match read_decimal s with
    | Some n => float_of_Z n
    | None => ValueError ("could not convert string to float: '" ++ s ++ "'")
    end;
  int_of_string s :=
    match read_decimal s with
    | Some n => Ok n
    | None => ValueError ("invalid literal for int() with base 10: '" ++ s ++ "'")
    end;
  repr_value v :=
    match v with
    | VNone => "None"
    | VBool true => "True"
    | VBool false => "False"
    | VInt n => decimal n
    | VStr s => ("'" ++ s ++ "'")%string
    | _ => ("<" ++ type_name v ++ ">")%string
    end;
  isoformat t := decimal t;
  fromisoformat s :=
    match read_decimal s with
    | Some t => Ok (naive t)
    | None => ValueError ("Invalid isoformat string: '" ++ s ++ "'")
    end;
  exists_reraises := true
|}.

(** ** A file system to evaluate the definitions with

    The storage directory [/tmp/flights] on a POSIX system that takes names
    of up to 255 bytes and refuses no unlink. *)

Fixpoint has_char (c : ascii) (s : string) : bool :=
  match s with
  | EmptyString => false
  | String c' s' => Ascii.eqb c c' || has_char c s'
  end.

(** The name up to its first [/]. *)
Fixpoint first_component (name : string) : string :=
  match name with
  | EmptyString => EmptyString
  | String c name' =>
      if Ascii.eqb c "/" then EmptyString else String c (first_component name')
  end.

Definition posix_resolve (name : string) : resolution :=
  let path := ("/tmp/flights/" ++ name)%string in
  if has_char "000" name then
    NoEntry (Exn "ValueError" "embedded null byte")
  else if (255 <? String.length (first_component name))%nat then
    Refused (Exn "OSError" ("[Errno 36] File name too long: '" ++ path ++ "'"))
  else if has_char "/" name then
    NoEntry (Exn "FileNotFoundError"
               ("[Errno 2] No such file or directory: '" ++ path ++ "'"))
  else Entry.

#[export] Instance posix : FileSystem := {|
  resolve := posix_resolve;
  unlink_error _ := None
|}.

(** The same directory when it may not be written to: every unlink is
    refused. *)
Definition read_only : FileSystem := {|
  resolve := posix_resolve;
  unlink_error name :=
    Some (Exn "PermissionError"
            ("[Errno 13] Permission denied: '/tmp/flights/" ++ name ++ "'"))
|}.

(** *** The scenario of the specification: one itinerary, ORD to LAX through
    DFW, at price 350. *)

Definition airport (name id time : string) : value :=
  VDict [("name", VStr name); ("id", VStr id); ("time", VStr time)].

Definition leg (airline : string) (dep arr : value) : value :=
  VDict [("airline", VStr airline);
         ("departure_airport", dep);
         ("arrival_airport", arr)].

Definition ord_dfw : value :=
  leg "AA" (airport "O'Hare" "ORD" "2025-06-01 08:00")
           (airport "Dallas Fort Worth" "DFW" "2025-06-01 10:30").

Definition dfw_lax : value :=
  leg "AA" (airport "Dallas Fort Worth" "DFW" "2025-06-01 11:45")
           (airport "Los Angeles" "LAX" "2025-06-01 13:10").

Definition ord_lax : value :=
  VDict [("flights", VList [ord_dfw; dfw_lax]);
         ("price", VInt 350);
         ("total_duration", VInt 310)].

Definition sample_payload : dict :=
  [("best_flights", VList [ord_lax]);
   ("other_flights", VList [VDict [("flights", VList []); ("price", VInt 99)]])].

Definition sample_env : environ :=
  {| SERPAPI_KEY := Some "key"; TEMP_FLIGHT_SEARCH_DIR := "/tmp/flights" |}.

Definition sample_outside : outside :=
  {| ctx_info := fun _ => Ok tt;
     google_search := fun _ => Ok sample_payload;
     uuid4 := "6f1c";
     now_transform := 1000000;
     now_save := 1000001 |}.

(** The storage directory after that search. *)
Definition sample_dir : directory :=
  snd (search_flights sample_env sample_outside ∅
         "ORD" "LAX" "2025-06-01" None "INR").

(** A process that finds that directory under [/tmp/flights]. *)
Definition sample_process : process :=
  {| getenv := fun name =>
       if String.eqb name "TEMP_FLIGHT_SEARCH_DIR" then Some "/tmp/flights"
       else if String.eqb name "SERPAPI_KEY" then Some "key"
       else None;
     storage_path := IsDirectory sample_dir |}.

(** A process without [TEMP_FLIGHT_SEARCH_DIR]. *)
Definition bare_process : process :=
  {| getenv := fun _ => None; storage_path := NoParent |}.

(** A process that may not create its storage directory. *)
Definition denied_process : process :=
  {| getenv := fun name =>
       if String.eqb name "TEMP_FLIGHT_SEARCH_DIR" then Some "/srv/flights"
       else None;
     storage_path :=
       Unavailable (Exn "PermissionError"
                      "[Errno 13] Permission denied: '/srv/flights'") |}.

(** An identifier of 300 bytes. *)
Definition long_id : string :=
  string_of_list_ascii (repeat "x"%char 300).

(** The record of that search and its one flight. *)
Definition sample_record : value :=
  Eval vm_compute in
  match FlightBookingServer._transform_flight_data "6f1c" 1000000 sample_payload
          (make_search_params "ORD" "LAX" "2025-06-01" None) with
  | Ok r => r
  | Raise _ => VNone
  end.

Definition sample_flight : value :=
  Eval vm_compute in
  match py_item sample_record "flights" with
  | Ok (VList (f :: _)) => f
  | _ => VNone
  end.

Definition sample_response : response :=
  fst (search_flights sample_env sample_outside ∅
         "ORD" "LAX" "2025-06-01" None "INR").

(** The flights a stored search holds. *)
Definition stored_items (search_id : string) (dir : directory) : list value :=
  match FlightSearchStorage.get_search_results search_id dir with
  | Ok (Some doc) =>
      match (fl <- stored_flights doc ;; py_iter fl) with
      | Ok items => items
      | Raise _ => []
      end
  | _ => []
  end.

(** A second search: three direct flights, the first and the last at the
    same price. *)
Definition direct (airline : string) (price : Z) (time : string) : value :=
  VDict [("flights",
           VList [leg airline (airport "O'Hare" "ORD" time)
                              (airport "Los Angeles" "LAX" "2025-06-01 23:00")]);
         ("price", VInt price);
         ("total_duration", VInt 260)].

Definition fares_payload : dict :=
  [("best_flights", VList [direct "UA" 300 "2025-06-01 09:00";
                           direct "AA" 250 "2025-06-01 07:00"]);
   ("other_flights", VList [direct "DL" 300 "2025-06-01 06:00"])].

Definition fares_outside : outside :=
  {| ctx_info := fun _ => Ok tt;
     google_search := fun _ => Ok fares_payload;
     uuid4 := "9b2e";
     now_transform := 2000000;
     now_save := 2000001 |}.

Definition fares_dir : directory :=
  snd (search_flights sample_env fares_outside ∅
         "ORD" "LAX" "2025-06-01" None "INR").

(** The stored document of the second search and its flights: United at
    300, American at 250, Delta at 300. *)
Definition fares_doc : value :=
  Eval vm_compute in
  match fares_dir !! FlightSearchStorage.file_name "9b2e" with
  | Some (JsonFile doc) => doc
  | _ => VNone
  end.

Definition fares_items : list value :=
  Eval vm_compute in stored_items "9b2e" fares_dir.

Definition fare_UA : value := Eval vm_compute in nth 0 fares_items VNone.
Definition fare_AA : value := Eval vm_compute in nth 1 fares_items VNone.
Definition fare_DL : value := Eval vm_compute in nth 2 fares_items VNone.

(** Filter specifications for the sample searches. *)
Definition by_price_descending : dict :=
  [("search_id", VStr "9b2e"); ("sort_by", VStr "price");
   ("sort_order", VStr "desc")].

Definition by_stops : dict :=
  [("search_id", VStr "9b2e"); ("max_price", VInt 300);
   ("sort_by", VStr "stops")].

Definition at_most_400 : dict :=
  [("search_id", VStr "6f1c"); ("max_price", VInt 400)].

(** A third search: United direct, American through Dallas, Delta direct. *)
Definition itinerary (legs : list value) (price duration : Z) : value :=
  VDict [("flights", VList legs);
         ("price", VInt price);
         ("total_duration", VInt duration)].

Definition routes_payload : dict :=
  [("best_flights",
     VList [itinerary [leg "UA" (airport "O'Hare" "ORD" "2025-06-01 09:00")
                                (airport "Los Angeles" "LAX" "2025-06-01 11:20")]
              300 260;
            itinerary [ord_dfw; dfw_lax] 250 310]);
   ("other_flights",
     VList [itinerary [leg "DL" (airport "O'Hare" "ORD" "2025-06-01 06:00")
                                (airport "Los Angeles" "LAX" "2025-06-01 08:15")]
              320 255])].

Definition routes_outside : outside :=
  {| ctx_info := fun _ => Ok tt;
     google_search := fun _ => Ok routes_payload;
     uuid4 := "c3d4";
     now_transform := 3000000;
     now_save := 3000001 |}.

Definition routes_response : response :=
  fst (search_flights sample_env routes_outside ∅
         "ORD" "LAX" "2025-06-01" None "INR").

Definition routes_dir : directory :=
  snd (search_flights sample_env routes_outside ∅
         "ORD" "LAX" "2025-06-01" None "INR").

Definition routes_record : value :=
  Eval vm_compute in
  match FlightBookingServer._transform_flight_data "c3d4" 3000000 routes_payload
          (make_search_params "ORD" "LAX" "2025-06-01" None) with
  | Ok r => r
  | Raise _ => VNone
  end.

Definition routes_items : list value :=
  Eval vm_compute in stored_items "c3d4" routes_dir.

Definition route_UA : value := Eval vm_compute in nth 0 routes_items VNone.
Definition route_AA : value := Eval vm_compute in nth 1 routes_items VNone.
Definition route_DL : value := Eval vm_compute in nth 2 routes_items VNone.

(** Filter specifications for the third search. *)
Definition on_routes (criteria : dict) : dict :=
  ("search_id", VStr "c3d4") :: criteria.

Definition cheapest_first : dict := on_routes [("sort_by", VStr "price")].
Definition shortest_first : dict := on_routes [("sort_by", VStr "duration")].
Definition latest_first : dict :=
  on_routes [("sort_by", VStr "departure_time"); ("sort_order", VStr "desc")].
Definition nonstop : dict := on_routes [("max_stops", VInt 0)].
Definition within_300_minutes : dict := on_routes [("max_duration", VInt 300)].
Definition on_american : dict :=
  on_routes [("preferred_airlines", VList [VStr "AA"])].
Definition early_morning : dict :=
  on_routes [("departure_time_range",
               VList [VStr "2025-06-01 07:00"; VStr "2025-06-01 08:30"])].





(** A fifth search: seven direct flights at the prices 1, 1, 2, 1, NaN, 1
    and 1, told apart by their airlines [F0] to [F6]. *)
Definition priced (airline : string) (price : value) : value :=
  VDict [("flights",
           VList [leg airline (airport "O'Hare" "ORD" "2025-06-01 09:00")
                              (airport "Los Angeles" "LAX" "2025-06-01 11:20")]);
         ("price", price)].

Definition odd_payload : dict :=
  [("best_flights",
     VList [priced "F0" (VInt 1); priced "F1" (VInt 1); priced "F2" (VInt 2);
            priced "F3" (VInt 1); priced "F4" (VFloat S754_nan);
            priced "F5" (VInt 1); priced "F6" (VInt 1)])].

Definition odd_outside : outside :=
  {| ctx_info := fun _ => Ok tt;
     google_search := fun _ => Ok odd_payload;
     uuid4 := "e5f6";
     now_transform := 5000000;
     now_save := 5000001 |}.

Definition odd_dir : directory :=
  snd (search_flights sample_env odd_outside ∅
         "ORD" "LAX" "2025-06-01" None "INR").

Definition odd_items : list value :=
  Eval vm_compute in stored_items "e5f6" odd_dir.

Definition odd_F0 : value := Eval vm_compute in nth 0 odd_items VNone.
Definition odd_F1 : value := Eval vm_compute in nth 1 odd_items VNone.
Definition odd_F2 : value := Eval vm_compute in nth 2 odd_items VNone.
Definition odd_F3 : value := Eval vm_compute in nth 3 odd_items VNone.
Definition odd_F4 : value := Eval vm_compute in nth 4 odd_items VNone.
Definition odd_F5 : value := Eval vm_compute in nth 5 odd_items VNone.
Definition odd_F6 : value := Eval vm_compute in nth 6 odd_items VNone.

Definition odd_by_price : dict :=
  [("search_id", VStr "e5f6"); ("sort_by", VStr "price")].

(** A directory with a document stored at time 0, a file that is not JSON
    and a directory in the place of a document. *)
Definition aged_dir : directory :=
  {[ FlightSearchStorage.file_name "old" :=
       JsonFile (VDict [("timestamp", VStr "0"); ("results", VDict [])]);
     FlightSearchStorage.file_name "bad" := Corrupt "{";
     FlightSearchStorage.file_name "dir" :=
       Locked (Exn "IsADirectoryError"
                 "[Errno 21] Is a directory: '/tmp/flights/search_dir.json'") ]}.

(** A document written by hand: one flight without [total_duration]. *)
Definition legacy_flight : dict := [("price", VInt 100)].

Definition legacy_dir : directory :=
  {[ FlightSearchStorage.file_name "legacy" :=
       JsonFile (VDict [("timestamp", VStr "0");
                        ("results",
                          VDict [("flights", VList [VDict legacy_flight])])]) ]}.

Definition legacy_filter : dict :=
  [("search_id", VStr "legacy"); ("max_duration", VInt 300)].

(** A file that is not JSON. *)
Definition broken_dir : directory :=
  {[ FlightSearchStorage.file_name "bad" := Corrupt "{" ]}.

(** A document without a [results] key. *)
Definition bare_dir : directory :=
  {[ FlightSearchStorage.file_name "bare" :=
       JsonFile (VDict [("timestamp", VStr "0")]) ]}.

(** * Properties *)

(** ** Fallible computations *)

Lemma bind_Ok {A B} (m : result A) (k : A -> result B) (b : B) :
  bind m k = Ok b -> exists a, m = Ok a /\ k a = Ok b.
Proof. destruct m as [a|e]; simpl; [eauto | discriminate]. Qed.

(** Split every successful [bind] among the hypotheses. *)
Ltac inv_bind :=
  repeat match goal with
  | H : bind _ _ = Ok _ |- _ =>
      let a := fresh "v" in
      let Ha := fresh "E" in
      apply bind_Ok in H; destruct H as (a & Ha & H)
  | H : Ok _ = Ok _ |- _ => injection H as H; try subst
  | H : Raise _ = Ok _ |- _ => discriminate H
  | H : (_, _) = (_, _) |- _ => injection H as ? ?; try subst
  end.

(** Replay the successful steps among the hypotheses in the goal. *)
Ltac rewrite_results :=
  repeat match goal with
  | H : ?t = Ok _ |- context [?t] => rewrite H; simpl
  end; try reflexivity.

Lemma mapM_Raise_In {A B} (f : A -> result B) l x e :
  In x l -> f x = Raise e -> exists e', mapM f l = Raise e'.
Proof.
  induction l as [|y l IH]; simpl; [tauto|].
  intros [-> | Hin] Hx.
  - rewrite Hx. simpl. eauto.
  - destruct (f y); simpl; [|eauto].
    destruct (IH Hin Hx) as [e' ->]. simpl. eauto.
Qed.

(** ** Dictionaries and item access *)

Lemma py_get_Ok_dict v k dflt x :
  py_get v k dflt = Ok x -> exists d, v = VDict d /\ x = dict_get d k dflt.
Proof.
  destruct v; simpl; unfold AttributeError; try discriminate.
  intros H. injection H as <-. eauto.
Qed.

Lemma py_len_iter v items :
  py_iter v = Ok items -> py_len v = Ok (Z.of_nat (length items)).
Proof.
  destruct v; simpl; unfold TypeError; try discriminate; intros H; injection H as <-.
  - f_equal. f_equal. induction s; simpl; congruence.
  - reflexivity.
  - now rewrite length_map.
Qed.

(** [v == "literal"] holds of that string only. *)
Lemma str_eq_true v s : str_eq v s = true <-> v = VStr s.
Proof.
  unfold str_eq.
  destruct v as [|b|n|x|t|l|d]; simpl; split; try discriminate; try congruence.
  - intros E. apply String.eqb_eq in E. congruence.
  - intros E. injection E as ->. apply String.eqb_refl.
Qed.

(** ** The result store *)

Import FlightSearchStorage.

Section Store.
Context {rt : PyRuntime} {fs : FileSystem}.
Implicit Types (dir : gmap string file) (s name : string).

(** A stored document is read back as it is. *)
Lemma get_search_results_stored s dir doc :
  dir !! file_name s = Some (JsonFile doc) ->
  get_search_results s dir = Ok (Some doc).
Proof.
  intros E. unfold get_search_results, path_exists. cbv zeta.
  rewrite E. reflexivity.
Qed.

(** An entry that is there is opened and parsed. *)
Lemma get_search_results_entry s dir f :
  dir !! file_name s = Some f ->
  get_search_results s dir
  = (h <- open_r f ;; data <- json_load h ;; Ok (Some data)).
Proof.
  intros E. unfold get_search_results, path_exists. cbv zeta.
  rewrite E. reflexivity.
Qed.

(** A search that was never stored is reported absent when [exists()]
    answers for its file, and makes [exists()] raise when it does not. *)
Lemma get_search_results_missing s dir :
  dir !! file_name s = None ->
  exists_answers (file_name s) = true ->
  get_search_results s dir = Ok None.
Proof.
  intros E Ha. unfold get_search_results, path_exists. cbv zeta. rewrite E.
  unfold exists_answers in Ha.
  destruct (resolve (file_name s)); try reflexivity.
  destruct exists_reraises; [discriminate Ha | reflexivity].
Qed.

Lemma get_search_results_refused s dir e :
  dir !! file_name s = None ->
  resolve (file_name s) = Refused e ->
  exists_reraises = true ->
  get_search_results s dir = Raise e.
Proof.
  intros E Hr Hx. unfold get_search_results, path_exists. cbv zeta.
  now rewrite E, Hr, Hx.
Qed.

(** What a save did when it returned. *)
Lemma save_search_results_Ok now s r dir dir' :
  save_search_results now s r dir = Ok dir' ->
  resolve (file_name s) = Entry
  /\ dir' = <[file_name s :=
               JsonFile (VDict [("timestamp", VStr (isoformat now));
                                ("results", r)])]> dir.
Proof.
  unfold save_search_results, open_w. cbv zeta.
  destruct (resolve (file_name s)); try discriminate.
  destruct (dir !! file_name s) as [[| |e]|]; try discriminate;
    cbn [bind]; intros [= <-]; auto.
Qed.

Lemma lookup_saved now s r dir dir' :
  save_search_results now s r dir = Ok dir' ->
  dir' !! file_name s
  = Some (JsonFile (VDict [("timestamp", VStr (isoformat now)); ("results", r)])).
Proof.
  intros E. apply save_search_results_Ok in E as [_ ->].
  apply lookup_insert_eq.
Qed.



End Store.



(** ** Normalisation *)

Import FlightBookingServer.

Section Normalisation.
Context {rt : PyRuntime}.

(** A skipped itinerary is a dropped one, and conversely. *)
Lemma transform_itinerary_None sp it :
  transform_itinerary sp it = Ok None -> dropped it = true.
Proof.
  unfold transform_itinerary. intros E. inv_bind.
  apply py_get_Ok_dict in E0 as (d & -> & ->). simpl.
  destruct (py_truthy (dict_get d "flights" VNone)); [|reflexivity].
  simpl in E. inv_bind. discriminate.
Qed.

Lemma transform_itinerary_dropped sp it :
  dropped it = true -> transform_itinerary sp it = Ok None.
Proof.
  destruct it; simpl; try discriminate. intros E.
  unfold transform_itinerary. simpl. now rewrite E.
Qed.

Lemma list_first_Ok (l : list value) s :
  list_first l = Ok s -> exists rest, l = s :: rest.
Proof. destruct l; [discriminate|]. intros [= <-]. eauto. Qed.

Lemma list_last_Ok (l : list value) s :
  list_last l = Ok s -> exists init, l = init ++ [s].
Proof.
  unfold list_last. destruct (rev l) as [|x l'] eqn:E; [discriminate|].
  intros [= <-]. exists (rev l').
  apply (f_equal (@rev value)) in E. rewrite rev_involutive in E.
  exact E.
Qed.

(** The shape of an appended flight. *)
Lemma transform_itinerary_Some sp it f :
  transform_itinerary sp it = Ok (Some f) ->
  dropped it = false /\
  exists first rest init last dep arr,
    py_item f "segments" = Ok (VList (first :: rest))
    /\ first :: rest = init ++ [last]
    /\ py_item f "departure" = Ok dep
    /\ end_view first "departure_airport" = Ok dep
    /\ py_item f "arrival" = Ok arr
    /\ end_view last "arrival_airport" = Ok arr.
Proof.
  unfold transform_itinerary. intros E. inv_bind.
  apply py_get_Ok_dict in E0 as (d & -> & ->). simpl.
  destruct (py_truthy (dict_get d "flights" VNone)); simpl in E; inv_bind;
    [|discriminate].
  split; [reflexivity|].
  repeat match goal with
  | H1 : ?t = Ok ?a, H2 : ?t = Ok ?b |- _ =>
      rewrite H1 in H2; injection H2 as ->
  end.
  match goal with
  | Hf : list_first ?segs = Ok ?s1, Hl : list_last ?segs = Ok ?s2 |- _ =>
      destruct (list_first_Ok _ _ Hf) as [rest ->];
      destruct (list_last_Ok _ _ Hl) as [init Hinit];
      exists s1, rest, init, s2
  end.
  unfold end_view.
  do 2 eexists. split; [reflexivity|]. split; [exact Hinit|].
  split; [reflexivity|]. split; [rewrite_results|].
  split; [reflexivity|rewrite_results].
Qed.

Lemma transform_all_In sp l flights f :
  transform_all sp l = Ok flights -> In f flights ->
  exists it, In it l /\ transform_itinerary sp it = Ok (Some f).
Proof.
  revert flights; induction l as [|it l IH]; simpl; intros flights E Hin; inv_bind.
  - destruct Hin.
  - destruct v as [g|].
    + destruct Hin as [<-|Hin]; [eauto|].
      destruct (IH _ E1 Hin) as (it' & ? & ?). eauto.
    + destruct (IH _ E1 Hin) as (it' & ? & ?). eauto.
Qed.

Lemma transform_all_Raise_In sp l it e :
  In it l -> transform_itinerary sp it = Raise e ->
  exists e', transform_all sp l = Raise e'.
Proof.
  induction l as [|x l IH]; simpl; [tauto|].
  intros [->|Hin] E.
  - rewrite E. simpl. eauto.
  - destruct (transform_itinerary sp x); simpl; [|eauto].
    destruct (IH Hin E) as [e' ->]. simpl. eauto.
Qed.

(** The output holds one flight per itinerary that is not dropped. *)
Lemma transform_all_length sp l flights :
  transform_all sp l = Ok flights ->
  length flights = length (List.filter (fun it => negb (dropped it)) l).
Proof.
  revert flights; induction l as [|it l IH]; simpl; intros flights E; inv_bind.
  - reflexivity.
  - destruct v as [g|].
    + apply transform_itinerary_Some in E0 as [-> _]. simpl. f_equal. eauto.
    + apply transform_itinerary_None in E0 as ->. simpl. eauto.
Qed.

Lemma transform_all_app sp l1 l2 :
  transform_all sp (l1 ++ l2)
  = (a <- transform_all sp l1 ;; b <- transform_all sp l2 ;; Ok (a ++ b)).
Proof.
  induction l1 as [|it l1 IH]; simpl.
  - destruct (transform_all sp l2); reflexivity.
  - destruct (transform_itinerary sp it) as [r|e]; simpl; [|reflexivity].
    rewrite IH. destruct (transform_all sp l1); simpl; [|reflexivity].
    destruct (transform_all sp l2); simpl; [|reflexivity].
    destruct r; reflexivity.
Qed.

Lemma transform_flight_data_Ok uuid now api sp rec :
  _transform_flight_data uuid now api sp = Ok rec ->
  exists all its flights,
    py_add (dict_get api "best_flights" (VList []))
           (dict_get api "other_flights" (VList [])) = Ok all
    /\ py_iter all = Ok its
    /\ transform_all sp its = Ok flights
    /\ rec = VDict [("search_id", VStr uuid);
                    ("timestamp", VStr (isoformat now));
                    ("search_params", VDict sp);
                    ("flights", VList flights);
                    ("status", VStr "success")].
Proof.
  unfold _transform_flight_data. intros E. inv_bind. eauto 10.
Qed.





End Normalisation.

(** C6: every flight the transform produces has at least one segment; its
    [departure] is the departure airport of the first of its segments with
    that airport's time, and its [arrival] is the arrival airport of the
    last of its segments with that airport's time. *)
Theorem derived_fields_mirror_segments `{PyRuntime} uuid now api sp rec flights f :
  _transform_flight_data uuid now api sp = Ok rec ->
  py_item rec "flights" = Ok (VList flights) ->
  In f flights ->
  exists first rest init last dep arr,
    py_item f "segments" = Ok (VList (first :: rest))
    /\ first :: rest = init ++ [last]
    /\ py_item f "departure" = Ok dep
    /\ end_view first "departure_airport" = Ok dep
    /\ py_item f "arrival" = Ok arr
    /\ end_view last "arrival_airport" = Ok arr.
Proof.
  intros E Hfl Hin.
  apply transform_flight_data_Ok in E as (all & its & fl & _ & _ & Hall & ->).
  injection Hfl as <-.
  destruct (transform_all_In _ _ _ _ Hall Hin) as (it & _ & Hit).
  now apply transform_itinerary_Some in Hit as [_ Hit].
Qed.

(** C8: a segment whose departure or arrival airport object is missing, or
    lacks [name], [id] or [time], makes the transform raise, for the segment
    and with it for the whole payload; when both airport objects are
    complete the segment is transformed whatever else is absent, every
    other field falling back to its default. *)
Theorem airport_fields_required_others_default `{PyRuntime} (segment : dict) :
  (airports_complete segment = false ->
     (exists e, transform_segment (VDict segment) = Raise e)
     /\ forall uuid now api sp all its it segments,
          py_add (dict_get api "best_flights" (VList []))
                 (dict_get api "other_flights" (VList [])) = Ok all ->
          py_iter all = Ok its ->
          In (VDict it) its ->
          dict_lookup "flights" it = Some (VList segments) ->
          In (VDict segment) segments ->
          exists e, _transform_flight_data uuid now api sp = Raise e)
  /\ (airports_complete segment = true ->
      exists dep arr dep_name dep_id dep_time arr_name arr_id arr_time,
        dict_lookup "departure_airport" segment = Some (VDict dep)
        /\ dict_lookup "arrival_airport" segment = Some (VDict arr)
        /\ dict_lookup "name" dep = Some dep_name
        /\ dict_lookup "id" dep = Some dep_id
        /\ dict_lookup "time" dep = Some dep_time
        /\ dict_lookup "name" arr = Some arr_name
        /\ dict_lookup "id" arr = Some arr_id
        /\ dict_lookup "time" arr = Some arr_time
        /\ transform_segment (VDict segment)
           = Ok (VDict
               [("airline", dict_get segment "airline" (VStr EmptyString));
                ("flight_number", dict_get segment "flight_number" (VStr EmptyString));
                ("airplane", dict_get segment "airplane" (VStr EmptyString));
                ("travel_class", dict_get segment "travel_class" (VStr EmptyString));
                ("departure_airport",
                  VDict [("name", dep_name); ("id", dep_id); ("time", dep_time)]);
                ("arrival_airport",
                  VDict [("name", arr_name); ("id", arr_id); ("time", arr_time)]);
                ("duration", dict_get segment "duration" (VInt 0));
                ("airline_logo", dict_get segment "airline_logo" (VStr EmptyString));
                ("legroom", dict_get segment "legroom" (VStr EmptyString));
                ("overnight", dict_get segment "overnight" (VBool false));
                ("plane_and_crew_by",
                  dict_get segment "plane_and_crew_by" (VStr EmptyString));
                ("often_delayed_by_over_30_min",
                  dict_get segment "often_delayed_by_over_30_min" (VBool false))])).
Proof.
  assert (Hraise : airports_complete segment = false ->
                   exists e, transform_segment (VDict segment) = Raise e).
  { unfold airports_complete, transform_segment, airport_complete, dict_has.
    cbn [py_get py_item bind]. unfold dict_item.
    destruct (dict_lookup "departure_airport" segment) as [dep|];
      [|intros _; eexists; reflexivity].
    destruct dep as [| | | | | |dep]; try (intros _; eexists; reflexivity).
    cbn [py_get py_item bind]. unfold dict_item.
    destruct (dict_lookup "name" dep); [|intros _; eexists; reflexivity].
    destruct (dict_lookup "id" dep); [|intros _; eexists; reflexivity].
    destruct (dict_lookup "time" dep); [|intros _; eexists; reflexivity].
    cbn [bind].
    destruct (dict_lookup "arrival_airport" segment) as [arr|];
      [|intros _; eexists; reflexivity].
    destruct arr as [| | | | | |arr]; try (intros _; eexists; reflexivity).
    cbn [py_get py_item bind]. unfold dict_item.
    destruct (dict_lookup "name" arr); [|intros _; eexists; reflexivity].
    destruct (dict_lookup "id" arr); [|intros _; eexists; reflexivity].
    destruct (dict_lookup "time" arr); [|intros _; eexists; reflexivity].
    discriminate. }
  split.
  - intros Hbad. split; [auto|].
    intros uuid now api sp all its it segments Hadd Hiter Hit Hfl Hseg.
    destruct (Hraise Hbad) as [e He].
    destruct (mapM_Raise_In transform_segment segments _ _ Hseg He) as [e1 He1].
    assert (Hne : py_truthy (VList segments) = true)
      by (destruct segments; [destruct Hseg | reflexivity]).
    assert (Hitin : exists e2, transform_itinerary sp (VDict it) = Raise e2).
    { unfold transform_itinerary. cbn [py_get py_item bind].
      unfold dict_get, dict_item. rewrite Hfl, Hne. cbn [negb bind py_iter].
      rewrite He1. simpl. eauto. }
    destruct Hitin as [e2 He2].
    destruct (transform_all_Raise_In sp its _ _ Hit He2) as [e3 He3].
    unfold _transform_flight_data. rewrite Hadd. cbn [bind].
    rewrite Hiter. cbn [bind]. rewrite He3. simpl. eauto.
  - unfold airports_complete, transform_segment, airport_complete, dict_has.
    cbn [py_get py_item bind]. unfold dict_item.
    destruct (dict_lookup "departure_airport" segment) as [dep|] eqn:Edep;
      [|discriminate].
    destruct (dict_lookup "arrival_airport" segment) as [arr|] eqn:Earr;
      [|discriminate].
    destruct dep as [| | | | | |dep]; try discriminate.
    destruct arr as [| | | | | |arr];
      try (intros E; apply andb_true_iff in E as [_ E]; discriminate).
    cbn [py_get py_item bind]. unfold dict_item.
    destruct (dict_lookup "name" dep) as [dn|] eqn:E1; [|discriminate].
    destruct (dict_lookup "id" dep) as [di|] eqn:E2; [|discriminate].
    destruct (dict_lookup "time" dep) as [dt|] eqn:E3; [|discriminate].
    destruct (dict_lookup "name" arr) as [an|] eqn:E4; [|discriminate].
    destruct (dict_lookup "id" arr) as [ai|] eqn:E5; [|discriminate].
    destruct (dict_lookup "time" arr) as [at'|] eqn:E6; [|discriminate].
    intros _. exists dep, arr, dn, di, dt, an, ai, at'.
    repeat split; solve [assumption | reflexivity].
Qed.

(** ** The search tool *)

Section Search.
Context {rt : PyRuntime} {fs : FileSystem}.

(** The flights of the output are the transforms of the itineraries that
    are not dropped, in their order. *)
Lemma transform_all_Forall2 sp l flights :
  transform_all sp l = Ok flights ->
  Forall2 (fun it f => transform_itinerary sp it = Ok (Some f))
          (List.filter (fun it => negb (dropped it)) l) flights.
Proof.
  revert flights; induction l as [|it l IH]; simpl; intros flights E; inv_bind.
  - constructor.
  - destruct v as [g|].
    + pose proof E0 as E0'.
      apply transform_itinerary_Some in E0' as [-> _]. simpl.
      constructor; eauto.
    + apply transform_itinerary_None in E0 as ->. simpl. eauto.
Qed.


(** What a successful search did. *)
Lemma search_flights_success env out dir dep arr date ret cur resp dir' :
  search_flights env out dir dep arr date ret cur = (resp, dir') ->
  response_get "status" resp = Some (Json (VStr "success")) ->
  exists key api its flights,
    let sp := make_search_params dep arr date ret in
    let rec := VDict [("search_id", VStr (uuid4 out));
                      ("timestamp", VStr (isoformat (now_transform out)));
                      ("search_params", VDict sp);
                      ("flights", VList flights);
                      ("status", VStr "success")] in
    SERPAPI_KEY env = Some key
    /\ google_search out (provider_params key sp) = Ok api
    /\ (all <- py_add (dict_get api "best_flights" (VList []))
                      (dict_get api "other_flights" (VList [])) ;;
        py_iter all) = Ok its
    /\ transform_all sp its = Ok flights
    /\ save_search_results (now_save out) (uuid4 out) rec dir = Ok dir'
    /\ resp = [("status", Json (VStr "success"));
               ("search_id", Json (VStr (uuid4 out)));
               ("flights_count", Json (VInt (Z.of_nat (length flights))));
               ("currency", Json (VStr cur));
               ("path", Path [TEMP_FLIGHT_SEARCH_DIR env])].
Proof.
  unfold search_flights. intros E Hs.
  destruct (SERPAPI_KEY env) as [key|] eqn:Ekey;
    [|injection E as <- <-; discriminate Hs].
  assert (Hbody :
    match search_body env out key dir dep arr
            (make_search_params dep arr date ret) cur with
    | Ok r => r
    | Raise e => (error_response ("Search failed: " ++ exn_msg e), dir)
    end = (resp, dir')).
  { destruct key; [injection E as <- <-; discriminate Hs | exact E]. }
  clear E.
  destruct (search_body _ _ _ _ _ _ _ _) as [[r d]|e] eqn:Eb;
    [|injection Hbody as <- <-; discriminate Hs].
  injection Hbody as -> ->.
  unfold search_body in Eb. cbn zeta in Eb.
  inv_bind.
  destruct (dict_has "error" v0); inv_bind; [discriminate Hs|].
  apply transform_flight_data_Ok in E1 as (all & its & fl & Hadd & Hit & Hall & ->).
  repeat match goal with
  | H : py_item (VDict _) _ = Ok _ |- _ => cbn in H; inv_bind
  | H : py_len (VList _) = Ok _ |- _ => cbn in H; inv_bind
  end.
  exists key, v0, its, fl. cbn zeta.
  repeat split; auto.
  rewrite Hadd. exact Hit.
Qed.

End Search.


(** The request's currency does not reach the search parameters. *)
Lemma search_params_currency dep arr date ret :
  dict_lookup "currency" (make_search_params dep arr date ret) = Some (VStr "INR").
Proof. reflexivity. Qed.

Lemma transform_itinerary_currency `{PyRuntime} sp it f :
  transform_itinerary sp it = Ok (Some f) ->
  py_item f "currency" = Ok (dict_get sp "currency" (VStr "USD")).
Proof.
  unfold transform_itinerary. intros E. inv_bind.
  destruct (negb (py_truthy _)); inv_bind; [discriminate|]. reflexivity.
Qed.

(** Whatever currency is requested, a successful search answers with that
    currency and stores ["INR"], in the search parameters and in every
    flight. *)
Lemma search_stores_INR `{PyRuntime} `{FileSystem}
    env out dir dep arr date ret cur resp dir' :
  search_flights env out dir dep arr date ret cur = (resp, dir') ->
  response_get "status" resp = Some (Json (VStr "success")) ->
  response_get "currency" resp = Some (Json (VStr cur))
  /\ exists doc record params flights,
       get_search_results (uuid4 out) dir' = Ok (Some doc)
       /\ py_item doc "results" = Ok record
       /\ py_item record "search_params" = Ok params
       /\ py_item params "currency" = Ok (VStr "INR")
       /\ py_item record "flights" = Ok (VList flights)
       /\ forall f, In f flights -> py_item f "currency" = Ok (VStr "INR").
Proof.
  intros E Hs.
  destruct (search_flights_success _ _ _ _ _ _ _ _ _ _ E Hs)
    as (key & api & its & flights & Hkey & Hg & Hits & Hall & Hsave & ->).
  split; [reflexivity|].
  eexists _, _, _, flights.
  split; [apply get_search_results_stored;
          exact (lookup_saved _ _ _ _ _ Hsave)|].
  split; [reflexivity|]. split; [reflexivity|]. split; [reflexivity|].
  split; [reflexivity|].
  intros f Hin.
  destruct (transform_all_In _ _ _ _ Hall Hin) as (it & _ & Hf).
  now rewrite (transform_itinerary_currency _ _ _ Hf).
Qed.

(** C1 at a search in US dollars: the response names the requested
    currency, while the stored search parameters and the stored flight both
    carry ["INR"]. *)
Theorem search_in_USD_stores_INR :
  let '(resp, dir) :=
    search_flights sample_env sample_outside ∅ "ORD" "LAX" "2025-06-01" None "USD" in
  response_get "currency" resp = Some (Json (VStr "USD"))
  /\ exists doc record params flight,
       get_search_results "6f1c" dir = Ok (Some doc)
       /\ py_item doc "results" = Ok record
       /\ py_item record "search_params" = Ok params
       /\ py_item params "currency" = Ok (VStr "INR")
       /\ py_item record "flights" = Ok (VList [flight])
       /\ py_item flight "currency" = Ok (VStr "INR").
Proof.
  vm_compute. split; [reflexivity|].
  do 4 eexists. repeat split.
Qed.

(** ** Sorting *)

Section Precedes.
Context {A : Type}.
Implicit Types (a b x : A) (l : list A).

Lemma precedes_app_l a b l1 l2 : precedes a b l1 -> precedes a b (l1 ++ l2).
Proof.
  induction 1 as [l Hb | x l _ IH]; simpl.
  - apply precedes_here. apply in_or_app. auto.
  - now apply precedes_later.
Qed.

Lemma precedes_app_r a b l1 l2 : precedes a b l2 -> precedes a b (l1 ++ l2).
Proof.
  intros Hp. induction l1 as [|x l1 IH]; simpl; [assumption|].
  now apply precedes_later.
Qed.

Lemma precedes_app_cross a b l1 l2 :
  In a l1 -> In b l2 -> precedes a b (l1 ++ l2).
Proof.
  intros Ha Hb. induction l1 as [|x l1 IH]; simpl; [destruct Ha|].
  destruct Ha as [->|Ha].
  - apply precedes_here. apply in_or_app. auto.
  - apply precedes_later. auto.
Qed.

Lemma precedes_app_inv a b l1 l2 :
  precedes a b (l1 ++ l2) ->
  precedes a b l1 \/ precedes a b l2 \/ (In a l1 /\ In b l2).
Proof.
  induction l1 as [|x l1 IH]; simpl; intros Hp; [auto|].
  inversion Hp as [l Hb Heq | y l Hp' Heq]; subst.
  - apply in_app_or in Hb as [Hb|Hb].
    + left. now apply precedes_here.
    + right. right. auto.
  - destruct (IH Hp') as [H1|[H2|[Ha Hb]]].
    + left. now apply precedes_later.
    + auto.
    + right. right. auto.
Qed.

Lemma precedes_insert a b x l1 l2 :
  precedes a b (l1 ++ l2) -> precedes a b (l1 ++ x :: l2).
Proof.
  intros Hp. apply precedes_app_inv in Hp as [H1|[H2|[Ha Hb]]].
  - now apply precedes_app_l.
  - apply precedes_app_r. now apply precedes_later.
  - apply precedes_app_cross; simpl; auto.
Qed.

Lemma precedes_rev a b l : precedes a b l -> precedes b a (rev l).
Proof.
  induction 1 as [l Hb | x l _ IH]; simpl.
  - apply precedes_app_cross; [now apply in_rev in Hb | simpl; auto].
  - now apply precedes_app_l.
Qed.

Lemma precedes_map {B} (f : A -> B) a b l :
  precedes a b l -> precedes (f a) (f b) (map f l).
Proof.
  induction 1 as [l Hb | x l _ IH]; simpl.
  - apply precedes_here. now apply in_map.
  - now apply precedes_later.
Qed.


Lemma precedes_cons_inv (a b x : A) l :
  precedes a b (x :: l) -> (a = x /\ In b l) \/ precedes a b l.
Proof. intros Hp. inversion Hp; subst; auto. Qed.

Lemma precedes_In (a b : A) l : precedes a b l -> In a l /\ In b l.
Proof.
  induction 1 as [l Hb|x l _ [Ha Hb]]; split; simpl; auto.
Qed.

Lemma precedes_map_inv {B} (f : B -> A) a b (l : list B) :
  precedes a b (map f l) ->
  exists u v : B, precedes u v l /\ f u = a /\ f v = b.
Proof.
  induction l as [|z l IH]; simpl; intros Hp; inversion Hp; subst.
  - match goal with H : In _ (map f l) |- _ =>
      apply in_map_iff in H as (v & <- & Hv) end.
    exists z, v. split; [now constructor|auto].
  - destruct IH as (u & v & Huv & <- & <-); [assumption|].
    exists u, v. split; [now constructor|auto].
Qed.

End Precedes.

Section SortProperties.
Context {A K : Type}.
Variable lt : K -> K -> result bool.
Implicit Types (x y p q pivot prev : K * A) (l r run rest : list (K * A)).

(** *** The sort rearranges the list *)

Lemma descending_run_app prev l run rest :
  descending_run lt prev l = Ok (run, rest) -> l = run ++ rest.
Proof.
  revert prev run rest; induction l as [|x l IH]; simpl; intros prev run rest E.
  - now injection E as <- <-.
  - destruct (lt (fst x) (fst prev)) as [[]|]; simpl in E; [| |discriminate].
    + destruct (descending_run lt x l) as [[run' rest']|] eqn:E1;
        simpl in E; [|discriminate].
      injection E as <- <-. simpl. f_equal. eauto.
    + now injection E as <- <-.
Qed.

Lemma ascending_run_app prev l run rest :
  ascending_run lt prev l = Ok (run, rest) -> l = run ++ rest.
Proof.
  revert prev run rest; induction l as [|x l IH]; simpl; intros prev run rest E.
  - now injection E as <- <-.
  - destruct (lt (fst x) (fst prev)) as [[]|]; simpl in E; [| |discriminate].
    + now injection E as <- <-.
    + destruct (ascending_run lt x l) as [[run' rest']|] eqn:E1;
        simpl in E; [|discriminate].
      injection E as <- <-. simpl. f_equal. eauto.
Qed.

Lemma count_run_Permutation l run rest :
  count_run lt l = Ok (run, rest) -> Permutation (run ++ rest) l.
Proof.
  destruct l as [|x [|y l]]; simpl; intros E;
    try (injection E as <- <-; rewrite app_nil_r; reflexivity).
  destruct (lt (fst y) (fst x)) as [[]|]; simpl in E; [| |discriminate].
  - destruct (descending_run lt y l) as [[run' rest']|] eqn:E1;
      simpl in E; [|discriminate].
    injection E as <- <-. apply descending_run_app in E1 as ->.
    change (x :: y :: run' ++ rest') with ((x :: y :: run') ++ rest').
    apply Permutation_app_tail. symmetry. apply Permutation_rev.
  - destruct (ascending_run lt y l) as [[run' rest']|] eqn:E1;
      simpl in E; [|discriminate].
    injection E as <- <-. apply ascending_run_app in E1 as ->. reflexivity.
Qed.

(** The bisection puts the pivot somewhere into the run. *)
Lemma binary_insert_split fuel pivot run r :
  binary_insert lt fuel pivot run = Ok r ->
  exists s1 s2, run = s1 ++ s2 /\ r = s1 ++ pivot :: s2.
Proof.
  revert run r; induction fuel as [|fuel IH]; intros run r E.
  - exists run, []. rewrite app_nil_r.
    destruct run; simpl in E; injection E as <-; auto.
  - destruct run as [|z run']; [injection E as <-; exists [], []; auto|].
    cbn [binary_insert] in E. cbv zeta in E.
    set (run := z :: run') in *. clearbody run.
    pose proof (firstn_skipn (Nat.div2 (length run)) run) as Hsplit.
    destruct (skipn (Nat.div2 (length run)) run) as [|middle above];
      [injection E as <-; exists run, []; rewrite app_nil_r; auto|].
    destruct (lt (fst pivot) (fst middle)) as [[]|]; simpl in E; [| |discriminate].
    + destruct (binary_insert lt fuel pivot (firstn (Nat.div2 (length run)) run))
        as [below|] eqn:E1; simpl in E; [|discriminate].
      injection E as <-.
      destruct (IH _ _ E1) as (s1 & s2 & Hs & ->).
      exists s1, (s2 ++ middle :: above). split.
      * rewrite <- Hsplit, Hs. now rewrite <- app_assoc.
      * now rewrite <- app_assoc.
    + destruct (binary_insert lt fuel pivot above) as [above'|] eqn:E1;
        simpl in E; [|discriminate].
      injection E as <-.
      destruct (IH _ _ E1) as (s1 & s2 & -> & ->).
      exists (firstn (Nat.div2 (length run)) run ++ middle :: s1), s2. split.
      * rewrite <- Hsplit at 1. now rewrite <- app_assoc.
      * now rewrite <- app_assoc.
Qed.

Lemma binarysort_Permutation run rest r :
  binarysort lt run rest = Ok r -> Permutation r (run ++ rest).
Proof.
  revert run r; induction rest as [|pivot rest IH]; simpl; intros run r E.
  - injection E as <-. now rewrite app_nil_r.
  - destruct (binary_insert lt (length run) pivot run) as [run'|] eqn:E0;
      simpl in E; [|discriminate].
    apply binary_insert_split in E0 as (s1 & s2 & -> & ->).
    rewrite (IH _ _ E). rewrite <- !app_assoc. apply Permutation_app_head.
    simpl. apply Permutation_middle.
Qed.

Lemma sort_keyed_Permutation l r :
  sort_keyed lt l = Ok r -> Permutation r l.
Proof.
  unfold sort_keyed. intros E.
  destruct (count_run lt l) as [[run rest]|] eqn:E0; simpl in E; [|discriminate].
  rewrite (binarysort_Permutation _ _ _ E). now apply count_run_Permutation.
Qed.

Lemma combine_mapM_In (key : A -> result K) (l : list A) keys k a :
  mapM key l = Ok keys -> In (k, a) (combine keys l) -> key a = Ok k /\ In a l.
Proof.
  revert keys; induction l as [|x l IH]; simpl; intros keys E Hin; inv_bind.
  - destruct Hin.
  - destruct Hin as [Heq|Hin].
    + injection Heq as -> ->. auto.
    + destruct (IH _ E1 Hin). auto.
Qed.

Lemma combine_mapM_snd (key : A -> result K) (l : list A) keys :
  mapM key l = Ok keys -> map snd (combine keys l) = l.
Proof.
  revert keys; induction l as [|x l IH]; simpl; intros keys E; inv_bind.
  - reflexivity.
  - simpl. f_equal. eauto.
Qed.

Lemma combine_mapM_precedes (key : A -> result K) (l : list A) keys a b :
  mapM key l = Ok keys -> precedes a b l ->
  exists ka kb, key a = Ok ka /\ key b = Ok kb
    /\ precedes (ka, a) (kb, b) (combine keys l).
Proof.
  intros E Hp. revert keys E.
  induction Hp as [l Hb | x l _ IH]; simpl; intros keys E; inv_bind.
  - assert (Hkb : exists kb, In (kb, b) (combine v0 l)).
    { clear E0. revert v0 E1. induction l as [|z l IHl]; simpl; intros ks E;
        [destruct Hb|]. inv_bind. destruct Hb as [->|Hb].
      - eexists. left. reflexivity.
      - destruct (IHl Hb _ E1) as [kb Hkb]. exists kb. right. exact Hkb. }
    destruct Hkb as [kb Hkb].
    destruct (combine_mapM_In _ _ _ _ _ E1 Hkb) as [Hk _].
    exists v, kb. repeat split; auto. now apply precedes_here.
  - destruct (IH _ E1) as (ka & kb & Ha & Hb' & Hp').
    exists ka, kb. repeat split; auto. now apply precedes_later.
Qed.

(** The sorted list holds the elements of the list it was given. *)
Lemma list_sort_Permutation (key : A -> result K) reverse (l out : list A) :
  list_sort lt key reverse l = Ok out -> Permutation out l.
Proof.
  unfold list_sort. intros E.
  destruct (mapM key l) as [keys|] eqn:Ek; simpl in E; [|discriminate].
  apply (Permutation_trans (l' := map snd (combine keys l)));
    [|rewrite (combine_mapM_snd _ _ _ Ek); reflexivity].
  destruct reverse.
  - destruct (sort_keyed lt (rev (combine keys l))) as [s|] eqn:Es;
      simpl in E; [|discriminate].
    injection E as <-. apply Permutation_map.
    rewrite <- Permutation_rev. rewrite (sort_keyed_Permutation _ _ Es).
    symmetry. apply Permutation_rev.
  - destruct (sort_keyed lt (combine keys l)) as [s|] eqn:Es;
      simpl in E; [|discriminate].
    injection E as <-. apply Permutation_map.
    now apply sort_keyed_Permutation.
Qed.

End SortProperties.

(** *** The sort answers when the keys can be compared *)

Section SortTotal.
Context {A K : Type}.
Variable lt : K -> K -> result bool.
Variable comparable : K -> Prop.
Hypothesis lt_total :
  forall k1 k2, comparable k1 -> comparable k2 -> exists b, lt k1 k2 = Ok b.
Implicit Types (x y pivot prev : K * A) (l r run rest : list (K * A)).

Local Abbreviation all_comparable l := (Forall (fun y => comparable (fst y)) l).

Lemma descending_run_total prev l :
  comparable (fst prev) -> all_comparable l ->
  exists p, descending_run lt prev l = Ok p.
Proof.
  intros Hp Hl. revert prev Hp.
  induction Hl as [|x l Hx Hl IH]; simpl; intros prev Hp; [eauto|].
  destruct (lt_total _ _ Hx Hp) as [b ->]. simpl.
  destruct b; [|eauto]. destruct (IH x Hx) as [p ->]. simpl. eauto.
Qed.

Lemma ascending_run_total prev l :
  comparable (fst prev) -> all_comparable l ->
  exists p, ascending_run lt prev l = Ok p.
Proof.
  intros Hp Hl. revert prev Hp.
  induction Hl as [|x l Hx Hl IH]; simpl; intros prev Hp; [eauto|].
  destruct (lt_total _ _ Hx Hp) as [b ->]. simpl.
  destruct b; [eauto|]. destruct (IH x Hx) as [p ->]. simpl. eauto.
Qed.

Lemma count_run_total l :
  all_comparable l -> exists p, count_run lt l = Ok p.
Proof.
  intros Hl. destruct Hl as [|x l Hx Hl]; simpl; [eauto|].
  destruct Hl as [|y l Hy Hl]; [eauto|].
  destruct (lt_total _ _ Hy Hx) as [b ->]. simpl. destruct b.
  - destruct (descending_run_total y l Hy Hl) as [p ->]. simpl. eauto.
  - destruct (ascending_run_total y l Hy Hl) as [p ->]. simpl. eauto.
Qed.

Lemma binary_insert_total fuel pivot run :
  comparable (fst pivot) -> all_comparable run ->
  exists r, binary_insert lt fuel pivot run = Ok r.
Proof.
  intros Hp. revert run; induction fuel as [|fuel IH]; intros run Hl.
  - destruct run; simpl; eauto.
  - destruct run as [|z run']; [simpl; eauto|].
    cbn [binary_insert]. cbv zeta.
    set (run := z :: run') in *. clearbody run.
    pose proof (firstn_skipn (Nat.div2 (length run)) run) as Hsplit.
    destruct (skipn (Nat.div2 (length run)) run) as [|middle above]; [eauto|].
    rewrite <- Hsplit in Hl. apply Forall_app in Hl as [Hbelow Habove].
    apply Forall_cons in Habove as [Hm Habove].
    destruct (lt_total _ _ Hp Hm) as [b ->]. simpl. destruct b.
    + destruct (IH _ Hbelow) as [r ->]. simpl. eauto.
    + destruct (IH _ Habove) as [r ->]. simpl. eauto.
Qed.

Lemma binarysort_total run rest :
  all_comparable run -> all_comparable rest ->
  exists r, binarysort lt run rest = Ok r.
Proof.
  intros Hrun Hrest. revert run Hrun.
  induction Hrest as [|pivot rest Hp Hrest IH]; simpl; intros run Hrun; [eauto|].
  destruct (binary_insert_total (length run) pivot run Hp Hrun) as [r Hr].
  rewrite Hr. simpl. apply IH.
  apply (binary_insert_split lt) in Hr as (s1 & s2 & -> & ->).
  apply Forall_app in Hrun as [H1 H2].
  apply Forall_app. split; [assumption|]. constructor; assumption.
Qed.

Lemma sort_keyed_total l :
  all_comparable l -> exists r, sort_keyed lt l = Ok r.
Proof.
  intros Hl. unfold sort_keyed.
  destruct (count_run_total l Hl) as [[run rest] E]. rewrite E. cbn [bind fst snd].
  apply (count_run_Permutation lt) in E.
  assert (Hboth : all_comparable (run ++ rest))
    by (eapply Permutation_Forall; [symmetry; exact E | exact Hl]).
  apply Forall_app in Hboth as [Hrun Hrest].
  now apply binarysort_total.
Qed.

Lemma list_sort_total (key : A -> result K) reverse (l : list A) :
  Forall (fun a : A => exists k, key a = Ok k /\ comparable k) l ->
  exists out, list_sort lt key reverse l = Ok out.
Proof.
  intros Hl. unfold list_sort.
  assert (Hk : exists keys, mapM key l = Ok keys
                 /\ Forall (fun y => comparable (fst y)) (combine keys l)).
  { induction Hl as [|a l (k & Hx & Hc) Hl IH]; simpl.
    - exists []. split; [reflexivity | constructor].
    - destruct IH as (keys & -> & Hall). rewrite Hx. simpl.
      exists (k :: keys). split; [reflexivity|]. constructor; assumption. }
  destruct Hk as (keys & -> & Hall). cbn [bind].
  destruct reverse.
  - destruct (sort_keyed_total (rev (combine keys l))) as [r ->].
    + eapply Permutation_Forall; [apply Permutation_rev | exact Hall].
    + simpl. eauto.
  - destruct (sort_keyed_total (combine keys l) Hall) as [r ->].
    simpl. eauto.
Qed.

End SortTotal.

(** *** The sort on keys that [<] orders

    On a class of keys on which [<] is asymmetric and "not below" is
    transitive, the sort returns the list in ascending order and leaves
    elements with equal keys in the order they had. *)

Section SortOrder.
Context {A K : Type}.
Variable lt : K -> K -> result bool.
Variable good : K -> Prop.
Hypothesis lt_asym :
  forall a b, good a -> good b -> lt a b = Ok true -> lt b a = Ok false.
Hypothesis lt_not_below_trans :
  forall a b c, good a -> good b -> good c ->
    lt a b = Ok false -> lt b c = Ok false -> lt a c = Ok false.
Implicit Types (x y p q pivot prev : K * A) (l r run rest : list (K * A)).

Local Abbreviation all_good l := (Forall (fun y => good (fst y)) l).
(** No element comes before one with a lower key. *)
Local Abbreviation ascending l :=
  (forall p q, precedes p q l -> lt (fst q) (fst p) = Ok false).
(** Neither key is below the other. *)
Local Abbreviation tied p q :=
  (lt (fst p) (fst q) = Ok false /\ lt (fst q) (fst p) = Ok false).
(** Elements with equal keys stand in [r] in the order they have in [l]. *)
Local Abbreviation keeps_ties l r :=
  (forall p q, precedes p q l -> tied p q -> precedes p q r).

Lemma all_good_In l y : all_good l -> In y l -> good (fst y).
Proof. intros Hl Hy. exact (proj1 (List.Forall_forall _ _) Hl y Hy). Qed.

Lemma ascending_run_spec prev l run rest :
  good (fst prev) -> all_good l ->
  ascending_run lt prev l = Ok (run, rest) ->
  ascending (prev :: run).
Proof.
  intros Hp Hl. revert prev run rest Hp.
  induction Hl as [|x l Hx Hl IH]; simpl; intros prev run rest Hp E.
  - injection E as <- <-. intros p q Hpq. inversion Hpq; subst.
    + match goal with H : In _ [] |- _ => destruct H end.
    + match goal with H : precedes _ _ [] |- _ => inversion H end.
  - destruct (lt (fst x) (fst prev)) as [[]|] eqn:E0; simpl in E;
      [| |discriminate].
    + injection E as <- <-. intros p q Hpq. inversion Hpq; subst.
      * match goal with H : In _ [] |- _ => destruct H end.
      * match goal with H : precedes _ _ [] |- _ => inversion H end.
    + destruct (ascending_run lt x l) as [[run' rest']|] eqn:E1;
        simpl in E; [|discriminate].
      injection E as <- <-.
      pose proof (IH _ _ _ Hx E1) as Hasc.
      pose proof (ascending_run_app lt _ _ _ _ E1) as Hl'.
      assert (Hrun : all_good run').
      { subst l. now apply Forall_app in Hl as [? _]. }
      intros p q Hpq. inversion Hpq as [l0 Hq|z l0 Hpq']; subst.
      * destruct Hq as [<-|Hq]; [exact E0|].
        apply (lt_not_below_trans _ (fst x)); auto.
        -- now apply (all_good_In run').
        -- apply Hasc. now apply precedes_here.
      * now apply Hasc.
Qed.

(** In a run that descends strictly every element is below the ones
    before it. *)
Lemma descending_run_spec prev l run rest :
  good (fst prev) -> all_good l ->
  descending_run lt prev l = Ok (run, rest) ->
  forall p q, precedes p q (prev :: run) ->
    lt (fst p) (fst q) = Ok false /\ lt (fst q) (fst p) <> Ok false.
Proof.
  intros Hp Hl. revert prev run rest Hp.
  induction Hl as [|x l Hx Hl IH]; simpl; intros prev run rest Hp E.
  - injection E as <- <-. intros p q Hpq. inversion Hpq; subst.
    + match goal with H : In _ [] |- _ => destruct H end.
    + match goal with H : precedes _ _ [] |- _ => inversion H end.
  - destruct (lt (fst x) (fst prev)) as [[]|] eqn:E0; simpl in E;
      [| |discriminate].
    + destruct (descending_run lt x l) as [[run' rest']|] eqn:E1;
        simpl in E; [|discriminate].
      injection E as <- <-.
      pose proof (IH _ _ _ Hx E1) as Hdesc.
      pose proof (descending_run_app lt _ _ _ _ E1) as Hl'.
      assert (Hrun : all_good run').
      { subst l. now apply Forall_app in Hl as [? _]. }
      pose proof (lt_asym _ _ Hx Hp E0) as Hpx.
      intros p q Hpq. inversion Hpq as [l0 Hq|z l0 Hpq']; subst.
      * destruct Hq as [<-|Hq].
        -- split; [exact Hpx|]. rewrite E0. discriminate.
        -- destruct (Hdesc x q (precedes_here _ _ _ Hq)) as [H1 H2].
           pose proof (all_good_In run' q Hrun Hq) as Hgq.
           split.
           ++ now apply (lt_not_below_trans _ (fst x)).
           ++ intros Hqp. apply H2.
              now apply (lt_not_below_trans _ (fst prev)).
      * now apply Hdesc.
    + injection E as <- <-. intros p q Hpq. inversion Hpq; subst.
      * match goal with H : In _ [] |- _ => destruct H end.
      * match goal with H : precedes _ _ [] |- _ => inversion H end.
Qed.

Lemma ascending_single x : ascending [x].
Proof.
  intros p q Hpq. inversion Hpq; subst.
  - match goal with H : In _ [] |- _ => destruct H end.
  - match goal with H : precedes _ _ [] |- _ => inversion H end.
Qed.

(** The run [count_run] finds, once turned around when it descends, is
    ascending, and holds the elements of the front of the list, those with
    equal keys in their order. *)
Lemma count_run_spec l run rest :
  all_good l ->
  count_run lt l = Ok (run, rest) ->
  exists front,
    l = front ++ rest /\ Permutation run front
    /\ ascending run /\ keeps_ties front run.
Proof.
  intros Hl E. destruct l as [|x [|y l]]; simpl in E.
  - injection E as <- <-. exists []. repeat split; auto.
    intros p q Hpq. inversion Hpq.
  - injection E as <- <-. exists [x]. repeat split; auto.
    apply ascending_single.
  - apply Forall_cons in Hl as [Hx Hl]. apply Forall_cons in Hl as [Hy Hl].
    destruct (lt (fst y) (fst x)) as [[]|] eqn:E0; simpl in E;
      [| |discriminate];
      [destruct (descending_run lt y l) as [[run' rest']|] eqn:E1
      |destruct (ascending_run lt y l) as [[run' rest']|] eqn:E1];
      simpl in E; try discriminate; injection E as <- <-.
    + change ((rev run' ++ [y]) ++ [x]) with (rev (x :: y :: run')).
      pose proof (descending_run_app lt _ _ _ _ E1) as ->.
      assert (Hdesc : forall p q, precedes p q (x :: y :: run') ->
                lt (fst p) (fst q) = Ok false /\ lt (fst q) (fst p) <> Ok false).
      { pose proof (descending_run_spec _ _ _ _ Hy Hl E1) as Hd.
        assert (Hrun : all_good run') by now apply Forall_app in Hl as [? _].
        pose proof (lt_asym _ _ Hy Hx E0) as Hxy.
        intros p q Hpq. inversion Hpq as [l0 Hq|z l0 Hpq']; subst; [|auto].
        destruct Hq as [<-|Hq].
        - split; [exact Hxy|]. rewrite E0. discriminate.
        - destruct (Hd y q (precedes_here _ _ _ Hq)) as [H1 H2].
          pose proof (all_good_In run' q Hrun Hq) as Hgq.
          split.
          + now apply (lt_not_below_trans _ (fst y)).
          + intros Hqp. apply H2.
            now apply (lt_not_below_trans _ (fst x)). }
      exists (x :: y :: run'). split; [reflexivity|].
      split; [symmetry; apply Permutation_rev|]. split.
      * intros p q Hpq. apply precedes_rev in Hpq.
        rewrite rev_involutive in Hpq. now apply Hdesc.
      * intros p q Hpq [_ Hqp]. now destruct (Hdesc p q Hpq) as [_ []].
    + pose proof (ascending_run_app lt _ _ _ _ E1) as ->.
      assert (Hrun : all_good run') by now apply Forall_app in Hl as [? _].
      pose proof (ascending_run_spec _ _ _ _ Hy Hl E1) as Hasc.
      exists (x :: y :: run'). split; [reflexivity|].
      split; [reflexivity|]. split; [|auto].
      intros p q Hpq. inversion Hpq as [l0 Hq|z l0 Hpq']; subst; [|auto].
      destruct Hq as [<-|Hq]; [exact E0|].
      apply (lt_not_below_trans _ (fst y)); auto.
      -- now apply (all_good_In run').
      -- apply Hasc. now apply precedes_here.
Qed.

(** Where the bisection puts the pivot in an ascending run: behind the
    elements it is not below, those with an equal key among them, and
    before elements it is below. *)
Lemma binary_insert_place fuel pivot run r :
  (length run <= fuel)%nat ->
  good (fst pivot) -> all_good run -> ascending run ->
  binary_insert lt fuel pivot run = Ok r ->
  exists s1 s2,
    run = s1 ++ s2 /\ r = s1 ++ pivot :: s2
    /\ Forall (fun y => lt (fst pivot) (fst y) = Ok false) s1
    /\ Forall (fun y => lt (fst y) (fst pivot) = Ok false
                        /\ lt (fst pivot) (fst y) <> Ok false) s2.
Proof.
  intros Hfuel Hp. revert run r Hfuel.
  induction fuel as [|fuel IH]; intros run r Hfuel Hgood Hasc E.
  - destruct run; [|simpl in Hfuel; lia].
    injection E as <-. exists [], []. repeat split; constructor.
  - destruct run as [|z run'];
      [injection E as <-; exists [], []; repeat split; constructor|].
    cbn [binary_insert] in E. cbv zeta in E.
    set (run := z :: run') in *.
    assert (Hlen : (0 < length run)%nat) by (subst run; simpl; lia).
    clearbody run. clear z run'.
    set (half := Nat.div2 (length run)) in *.
    assert (Hhalf : (half < length run)%nat)
      by (subst half; apply Nat.lt_div2; exact Hlen).
    pose proof (firstn_skipn half run) as Hsplit.
    pose proof (length_skipn half run) as Hskip.
    pose proof (firstn_length_le run (n := half) ltac:(lia)) as Hfirst.
    destruct (skipn half run) as [|middle above] eqn:Eskip;
      [simpl in Hskip; lia|].
    simpl in Hskip.
    set (below := firstn half run) in *. clearbody below.
    subst run.
    apply Forall_app in Hgood as [Hbelow Habove].
    apply Forall_cons in Habove as [Hm Habove].
    assert (Hasc_below : ascending below).
    { intros p q Hpq. apply Hasc. now apply precedes_app_l. }
    assert (Hasc_above : ascending above).
    { intros p q Hpq. apply Hasc. apply precedes_app_r.
      now apply precedes_later. }
    assert (Hbm : forall y, In y below -> lt (fst middle) (fst y) = Ok false).
    { intros y Hy. apply Hasc. apply precedes_app_cross; simpl; auto. }
    assert (Hma : forall y, In y above -> lt (fst y) (fst middle) = Ok false).
    { intros y Hy. apply Hasc. apply precedes_app_r. now apply precedes_here. }
    rewrite length_app in Hfuel. simpl in Hfuel.
    destruct (lt (fst pivot) (fst middle)) as [[]|] eqn:E0; simpl in E;
      [| |discriminate];
      [destruct (binary_insert lt fuel pivot below) as [r'|] eqn:E1
      |destruct (binary_insert lt fuel pivot above) as [r'|] eqn:E1];
      simpl in E; try discriminate; injection E as <-.
    + destruct (IH below _ ltac:(lia) Hbelow Hasc_below E1)
        as (s1 & s2 & -> & -> & H1 & H2).
      exists s1, (s2 ++ middle :: above).
      split; [now rewrite <- app_assoc|]. split; [now rewrite <- app_assoc|].
      split; [exact H1|].
      apply Forall_app. split; [exact H2|].
      pose proof (lt_asym _ _ Hp Hm E0) as Hmp.
      constructor.
      * split; [exact Hmp|]. rewrite E0. discriminate.
      * apply List.Forall_forall. intros y Hy.
        pose proof (all_good_In above y Habove Hy) as Hgy.
        split.
        -- now apply (lt_not_below_trans _ (fst middle)); auto.
        -- intros Hpy.
           assert (Hpm : lt (fst pivot) (fst middle) = Ok false)
             by (apply (lt_not_below_trans _ (fst y)); auto).
           rewrite E0 in Hpm. discriminate.
    + destruct (IH above _ ltac:(lia) Habove Hasc_above E1)
        as (s1 & s2 & -> & -> & H1 & H2).
      exists (below ++ middle :: s1), s2.
      split; [now rewrite <- app_assoc|]. split; [now rewrite <- app_assoc|].
      split; [|exact H2].
      apply Forall_app. split.
      * apply List.Forall_forall. intros y Hy.
        apply (lt_not_below_trans _ (fst middle)); auto.
        now apply (all_good_In below).
      * constructor; assumption.
Qed.

(** [binarysort] keeps the run ascending and the equal keys in their
    order. *)
Lemma binarysort_spec run rest r front :
  all_good run -> all_good rest -> ascending run ->
  Permutation run front -> keeps_ties front run ->
  binarysort lt run rest = Ok r ->
  ascending r /\ keeps_ties (front ++ rest) r.
Proof.
  intros Hrun Hrest. revert run r front Hrun.
  induction Hrest as [|pivot rest Hp Hrest IH]; simpl;
    intros run r front Hrun Hasc Hperm Hties E.
  - injection E as <-. rewrite app_nil_r. auto.
  - destruct (binary_insert lt (length run) pivot run) as [run'|] eqn:E0;
      simpl in E; [|discriminate].
    destruct (binary_insert_place _ _ _ _ (Nat.le_refl _) Hp Hrun Hasc E0)
      as (s1 & s2 & -> & -> & H1 & H2).
    rewrite List.Forall_forall in H1, H2.
    pose proof Hrun as Hrun'. apply Forall_app in Hrun' as [Hs1 Hs2].
    replace (front ++ pivot :: rest) with ((front ++ [pivot]) ++ rest)
      by (now rewrite <- app_assoc).
    apply (IH (s1 ++ pivot :: s2)); [| | | |exact E].
    + apply Forall_app. split; [assumption|]. constructor; assumption.
    + intros p q Hpq. apply precedes_app_inv in Hpq as [Hpq|[Hpq|[Hi Hj]]].
      * apply Hasc. now apply precedes_app_l.
      * inversion Hpq as [l0 Hq|z l0 Hpq']; subst.
        -- now apply H2.
        -- apply Hasc. now apply precedes_app_r.
      * destruct Hj as [<-|Hj]; [now apply H1|].
        apply Hasc. now apply precedes_app_cross.
    + rewrite <- Hperm. rewrite <- !app_assoc. apply Permutation_app_head.
      apply Permutation_cons_append.
    + intros p q Hpq Htied.
      apply precedes_app_inv in Hpq as [Hpq|[Hpq|[Hi Hj]]].
      * apply precedes_insert. now apply Hties.
      * inversion Hpq as [l0 Hq|z l0 Hpq']; subst;
          [destruct Hq | inversion Hpq'].
      * destruct Hj as [<-|[]].
        apply (Permutation_in _ (Permutation_sym Hperm)) in Hi.
        apply in_app_or in Hi as [Hi|Hi].
        -- apply precedes_app_cross; simpl; auto.
        -- destruct (H2 _ Hi) as [_ Hne]. now destruct Htied as [_ Ht].
Qed.

Lemma sort_keyed_spec l r :
  all_good l -> sort_keyed lt l = Ok r ->
  ascending r /\ keeps_ties l r.
Proof.
  intros Hl E. unfold sort_keyed in E.
  destruct (count_run lt l) as [[run rest]|] eqn:E0; simpl in E; [|discriminate].
  destruct (count_run_spec _ _ _ Hl E0) as (front & -> & Hperm & Hasc & Hties).
  apply Forall_app in Hl as [Hfront Hrest].
  cbn [fst snd] in E.
  apply (binarysort_spec run rest r front); auto.
  eapply Permutation_Forall; [symmetry; exact Hperm | exact Hfront].
Qed.

(** The result of [list.sort] is in the order of the keys: no element
    comes before one with a lower key (a higher one with [reverse]). *)
Lemma list_sort_ordered (key : A -> result K) reverse (l out : list A) :
  (forall a k, In a l -> key a = Ok k -> good k) ->
  list_sort lt key reverse l = Ok out ->
  forall a b, precedes a b out ->
    exists ka kb, key a = Ok ka /\ key b = Ok kb
      /\ (if reverse then lt ka kb else lt kb ka) = Ok false.
Proof.
  intros Hgood E a b Hp. unfold list_sort in E.
  destruct (mapM key l) as [keys|] eqn:Ek; simpl in E; [|discriminate].
  assert (Hkeyed : Forall (fun y : K * A => good (fst y)) (combine keys l)).
  { rewrite List.Forall_forall. intros [k x] Hin.
    destruct (combine_mapM_In key l keys k x Ek Hin). simpl. eauto. }
  assert (Hkey : forall k (v : A), In (k, v) (combine keys l) -> key v = Ok k).
  { intros k v Hin. now destruct (combine_mapM_In key l keys k v Ek Hin). }
  destruct reverse.
  - destruct (sort_keyed lt (rev (combine keys l))) as [s|] eqn:Es;
      simpl in E; [|discriminate].
    injection E as <-.
    apply precedes_map_inv in Hp as ([ka a'] & [kb b'] & Hp & <- & <-).
    pose proof (sort_keyed_Permutation lt _ _ Es) as Hperm.
    assert (Hin : forall y, In y (rev s) -> In y (combine keys l)).
    { intros y Hy. apply in_rev in Hy.
      apply (Permutation_in _ Hperm) in Hy. now apply in_rev in Hy. }
    destruct (precedes_In _ _ _ Hp) as [Ha Hb].
    exists ka, kb. split; [apply Hkey; auto|]. split; [apply Hkey; auto|].
    simpl. apply precedes_rev in Hp. rewrite rev_involutive in Hp.
    refine (proj1 (sort_keyed_spec _ _ _ Es) _ _ Hp).
    rewrite List.Forall_forall in *. intros y Hy. apply Hkeyed.
    now apply in_rev.
  - destruct (sort_keyed lt (combine keys l)) as [s|] eqn:Es;
      simpl in E; [|discriminate].
    injection E as <-.
    apply precedes_map_inv in Hp as ([ka a'] & [kb b'] & Hp & <- & <-).
    pose proof (sort_keyed_Permutation lt _ _ Es) as Hperm.
    destruct (precedes_In _ _ _ Hp) as [Ha Hb].
    exists ka, kb.
    split; [apply Hkey; eapply Permutation_in; eauto|].
    split; [apply Hkey; eapply Permutation_in; eauto|].
    simpl. exact (proj1 (sort_keyed_spec _ _ Hkeyed Es) _ _ Hp).
Qed.

(** Stability: of two elements neither of whose keys is below the other,
    the one that came first still comes first, in either direction of the
    sort. *)
Lemma list_sort_stable (key : A -> result K) reverse (l out : list A) a b ka kb :
  (forall a k, In a l -> key a = Ok k -> good k) ->
  list_sort lt key reverse l = Ok out ->
  precedes a b l ->
  key a = Ok ka -> key b = Ok kb ->
  lt ka kb = Ok false -> lt kb ka = Ok false ->
  precedes a b out.
Proof.
  unfold list_sort. intros Hgood E Hp Ha Hb Hab Hba.
  destruct (mapM key l) as [keys|] eqn:Ek; simpl in E; [|discriminate].
  assert (Hkeyed : Forall (fun y : K * A => good (fst y)) (combine keys l)).
  { rewrite List.Forall_forall. intros [k x] Hin.
    destruct (combine_mapM_In key l keys k x Ek Hin). simpl. eauto. }
  destruct (combine_mapM_precedes _ _ _ _ _ Ek Hp)
    as (ka' & kb' & Ha' & Hb' & Hp').
  assert (ka' = ka) as -> by congruence.
  assert (kb' = kb) as -> by congruence.
  destruct reverse.
  - destruct (sort_keyed lt (rev (combine keys l))) as [s|] eqn:Es;
      simpl in E; [|discriminate].
    injection E as <-.
    change a with (snd (ka, a)). change b with (snd (kb, b)).
    apply precedes_map.
    apply precedes_rev in Hp'. apply precedes_rev.
    refine (proj2 (sort_keyed_spec _ _ _ Es) _ _ Hp' (conj Hba Hab)).
    rewrite List.Forall_forall in *. intros y Hy. apply Hkeyed.
    now apply in_rev.
  - destruct (sort_keyed lt (combine keys l)) as [s|] eqn:Es;
      simpl in E; [|discriminate].
    injection E as <-.
    change a with (snd (ka, a)). change b with (snd (kb, b)).
    apply precedes_map.
    exact (proj2 (sort_keyed_spec _ _ Hkeyed Es) _ _ Hp' (conj Hab Hba)).
Qed.

End SortOrder.

(** ** The order [<] puts on keys of one kind *)

Lemma SFcompare_None x y :
  SFcompare x y = None -> is_nan x = true \/ is_nan y = true.
Proof. destruct x, y; simpl; auto; discriminate. Qed.

Lemma string_compare_not_below_trans s t u :
  String.compare s t <> Lt -> String.compare t u <> Lt ->
  String.compare s u <> Lt.
Proof.
  intros Hst Htu Hsu.
  apply String_as_OT.cmp_lt in Hsu.
  destruct (String.compare s t) eqn:Est; [|congruence|].
  - apply String_as_OT.cmp_eq in Est as ->.
    apply Htu. now apply String_as_OT.cmp_lt.
  - destruct (String.compare t u) eqn:Etu; [|congruence|].
    + apply String_as_OT.cmp_eq in Etu as ->.
      apply String_as_OT.cmp_lt in Hsu. unfold String_as_OT.cmp in Hsu.
      congruence.
    + assert (Hts : String_as_OT.lt t s).
      { apply String_as_OT.cmp_lt. unfold String_as_OT.cmp.
        rewrite String.compare_antisym, Est. reflexivity. }
      assert (Hut : String_as_OT.lt u t).
      { apply String_as_OT.cmp_lt. unfold String_as_OT.cmp.
        rewrite String.compare_antisym, Etu. reflexivity. }
      pose proof (String_as_OT.lt_trans _ _ _ Hut
                    (String_as_OT.lt_trans _ _ _ Hts Hsu)) as Huu.
      apply String_as_OT.lt_not_eq in Huu. now apply Huu.
Qed.

(** The comparison of floats is a total preorder away from NaN. *)
Lemma SFcompare_antisym x y :
  SFcompare y x = option_map CompOpp (SFcompare x y).
Proof.
  destruct x as [sx|sx| |sx mx ex], y as [sy|sy| |sy my ey];
    try destruct sx; try destruct sy; try reflexivity; cbn.
  all: rewrite (Z.compare_antisym ex ey).
  all: destruct (ex ?= ey); cbn; try reflexivity.
  all: change (Pos.compare_cont Eq my mx) with (Pos.compare my mx).
  all: change (Pos.compare_cont Eq mx my) with (Pos.compare mx my).
  all: rewrite (Pos.compare_antisym mx my).
  all: try reflexivity.
  all: now rewrite CompOpp_involutive.
Qed.

Ltac compare_cases :=
  repeat match goal with
  | H : context [Z.compare ?x ?y] |- _ =>
      destruct (Z.compare_spec x y); cbn in H
  | |- context [Z.compare ?x ?y] => destruct (Z.compare_spec x y); cbn
  | H : context [Pos.compare_cont Eq ?x ?y] |- _ =>
      change (Pos.compare_cont Eq x y) with (Pos.compare x y) in H;
      destruct (Pos.compare_spec x y); cbn in H
  | |- context [Pos.compare_cont Eq ?x ?y] =>
      change (Pos.compare_cont Eq x y) with (Pos.compare x y);
      destruct (Pos.compare_spec x y); cbn
  end.

Lemma SFcompare_not_below_trans x y z :
  is_nan x = false -> is_nan y = false -> is_nan z = false ->
  SFcompare x y <> Some Lt -> SFcompare y z <> Some Lt ->
  SFcompare x z <> Some Lt.
Proof.
  destruct x as [sx|sx| |sx mx ex], y as [sy|sy| |sy my ey],
           z as [sz|sz| |sz mz ez];
    try discriminate; intros _ _ _;
    try destruct sx; try destruct sy; try destruct sz; cbn;
    try congruence; intros Hxy Hyz;
    compare_cases; subst; try congruence; try lia.
Qed.

(** [<] on the keys of one kind. *)
Lemma py_lt_int_asym a b :
  py_lt (VInt a) (VInt b) = Ok true -> py_lt (VInt b) (VInt a) = Ok false.
Proof.
  cbn. intros [= E]. f_equal.
  destruct (Z.compare_spec a b); try discriminate.
  destruct (Z.compare_spec b a); try reflexivity; lia.
Qed.

Lemma py_lt_int_false a b : py_lt (VInt a) (VInt b) = Ok false <-> b <= a.
Proof.
  cbn. destruct (Z.compare_spec a b); split; intros E;
    try reflexivity; try discriminate; lia.
Qed.

Lemma py_lt_float x y :
  py_lt (VFloat x) (VFloat y) = Ok (cmpop_holds OpLt (SFcompare x y)).
Proof. reflexivity. Qed.

Lemma py_le_float x y :
  py_le (VFloat x) (VFloat y) = Ok (cmpop_holds OpLe (SFcompare x y)).
Proof. reflexivity. Qed.

Lemma SFcompare_Some x y :
  is_nan x = false -> is_nan y = false -> exists c, SFcompare x y = Some c.
Proof.
  intros Hx Hy. destruct (SFcompare x y) as [c|] eqn:E; [eauto|].
  apply SFcompare_None in E as [E|E]; congruence.
Qed.

Lemma py_lt_float_asym x y :
  py_lt (VFloat x) (VFloat y) = Ok true -> py_lt (VFloat y) (VFloat x) = Ok false.
Proof.
  rewrite !py_lt_float, (SFcompare_antisym x y).
  now destruct (SFcompare x y) as [[]|].
Qed.

Lemma py_lt_float_not_below_trans x y z :
  is_nan x = false -> is_nan y = false -> is_nan z = false ->
  py_lt (VFloat x) (VFloat y) = Ok false ->
  py_lt (VFloat y) (VFloat z) = Ok false ->
  py_lt (VFloat x) (VFloat z) = Ok false.
Proof.
  intros Hx Hy Hz. rewrite !py_lt_float. intros [= Exy] [= Eyz]. f_equal.
  pose proof (SFcompare_not_below_trans x y z Hx Hy Hz) as Ht.
  destruct (SFcompare x y) as [[]|]; try discriminate;
    destruct (SFcompare y z) as [[]|]; try discriminate;
    destruct (SFcompare x z) as [[]|]; try reflexivity;
    exfalso; apply Ht; congruence.
Qed.

Lemma py_lt_false_le_float x y :
  is_nan x = false -> is_nan y = false ->
  py_lt (VFloat y) (VFloat x) = Ok false -> py_le (VFloat x) (VFloat y) = Ok true.
Proof.
  intros Hx Hy. rewrite py_lt_float, py_le_float, (SFcompare_antisym x y).
  destruct (SFcompare_Some x y Hx Hy) as [[] ->]; cbn; congruence.
Qed.

Lemma py_lt_str s t :
  py_lt (VStr s) (VStr t) = Ok (cmpop_holds OpLt (Some (String.compare s t))).
Proof. reflexivity. Qed.

Lemma py_lt_str_asym s t :
  py_lt (VStr s) (VStr t) = Ok true -> py_lt (VStr t) (VStr s) = Ok false.
Proof.
  rewrite !py_lt_str, (String.compare_antisym t s).
  now destruct (String.compare s t).
Qed.


Lemma py_lt_str_not_below_trans s t u :
  py_lt (VStr s) (VStr t) = Ok false ->
  py_lt (VStr t) (VStr u) = Ok false ->
  py_lt (VStr s) (VStr u) = Ok false.
Proof.
  rewrite !py_lt_str. intros [= Est] [= Etu]. f_equal.
  pose proof (string_compare_not_below_trans s t u) as Ht.
  destruct (String.compare s t); try discriminate;
    destruct (String.compare t u); try discriminate;
    destruct (String.compare s u); try reflexivity;
    exfalso; apply Ht; congruence.
Qed.

Lemma py_lt_false_le_str s t :
  py_lt (VStr t) (VStr s) = Ok false -> py_le (VStr s) (VStr t) = Ok true.
Proof.
  rewrite py_lt_str. change (py_le (VStr s) (VStr t))
    with (@Ok bool (cmpop_holds OpLe (Some (String.compare s t)))).
  rewrite (String.compare_antisym s t).
  now destruct (String.compare t s).
Qed.

Lemma py_lt_int_not_below_trans a b c :
  py_lt (VInt a) (VInt b) = Ok false ->
  py_lt (VInt b) (VInt c) = Ok false ->
  py_lt (VInt a) (VInt c) = Ok false.
Proof. rewrite !py_lt_int_false. lia. Qed.

(** On keys of one kind [<] is asymmetric and "not below" is transitive. *)
Lemma of_kind_asym kind a b :
  of_kind kind a = true -> of_kind kind b = true ->
  py_lt a b = Ok true -> py_lt b a = Ok false.
Proof.
  destruct kind, a as [| | |x|s| |], b as [| | |y|t| |]; try discriminate;
    intros _ _.
  - apply py_lt_float_asym.
  - apply py_lt_int_asym.
  - apply py_lt_str_asym.
Qed.

Lemma of_kind_not_below_trans kind a b c :
  of_kind kind a = true -> of_kind kind b = true -> of_kind kind c = true ->
  py_lt a b = Ok false -> py_lt b c = Ok false -> py_lt a c = Ok false.
Proof.
  destruct kind, a as [| | |x|s| |], b as [| | |y|t| |], c as [| | |z|u| |];
    try discriminate; cbn [of_kind]; intros Ha Hb Hc.
  - apply negb_true_iff in Ha, Hb, Hc. now apply py_lt_float_not_below_trans.
  - apply py_lt_int_not_below_trans.
  - apply py_lt_str_not_below_trans.
Qed.

(** ** The filter tool *)

Section Filter.
Context {rt : PyRuntime} {fs : FileSystem}.

(** With a recognised key the sorting step is [list.sort] on that key. *)
Lemma apply_sorting_key filters key l :
  sort_key_of filters = Some key ->
  apply_sorting filters l
  = list_sort py_lt key
      (str_eq (dict_get filters "sort_order" (VStr "asc")) "desc") l.
Proof.
  unfold sort_key_of, apply_sorting, dict_has, dict_item.
  destruct (dict_lookup "sort_by" filters) as [k|]; [|discriminate].
  cbn [bind].
  destruct (str_eq k "price"); [now intros [= <-]|].
  destruct (str_eq k "duration"); [now intros [= <-]|].
  destruct (str_eq k "departure_time"); [now intros [= <-]|].
  discriminate.
Qed.

(** Without one the flights are left as they are. *)
Lemma apply_sorting_none filters l :
  sort_key_of filters = None -> apply_sorting filters l = Ok l.
Proof.
  unfold sort_key_of, apply_sorting, dict_has, dict_item.
  destruct (dict_lookup "sort_by" filters) as [k|]; [|reflexivity].
  cbn [bind].
  destruct (str_eq k "price"); [discriminate|].
  destruct (str_eq k "duration"); [discriminate|].
  destruct (str_eq k "departure_time"); [discriminate|].
  reflexivity.
Qed.

Lemma apply_sorting_Permutation filters l out :
  apply_sorting filters l = Ok out -> Permutation out l.
Proof.
  destruct (sort_key_of filters) as [key|] eqn:Ek.
  - rewrite (apply_sorting_key _ _ _ Ek). apply list_sort_Permutation.
  - rewrite (apply_sorting_none _ _ Ek). now intros [= <-].
Qed.

(** The loop keeps the flights that survive the predicates, in order. *)
Lemma filter_loop_filter filters items kept :
  filter_loop filters items = Ok kept ->
  kept = List.filter (survives filters) items.
Proof.
  revert kept; induction items as [|f items IH]; simpl; intros kept E; inv_bind.
  - reflexivity.
  - unfold survives at 1. rewrite E0. rewrite <- (IH _ E1).
    now destruct v.
Qed.

Lemma precedes_filter {A} (p : A -> bool) a b (l : list A) :
  precedes a b l -> p a = true -> p b = true -> precedes a b (List.filter p l).
Proof.
  intros Hp Ha Hb. induction Hp as [l Hin | x l _ IH]; simpl.
  - rewrite Ha. apply precedes_here. apply filter_In. auto.
  - destruct (p x); [now apply precedes_later | assumption].
Qed.

(** The stages of a call that finds a document. *)
Lemma filter_flights_stages env dir filters doc flights items kept sorted :
  dir !! filter_file filters = Some (JsonFile doc) ->
  py_truthy doc = true ->
  stored_flights doc = Ok flights ->
  py_iter flights = Ok items ->
  filter_loop filters items = Ok kept ->
  apply_sorting filters kept = Ok sorted ->
  filter_flights env dir filters
  = Ok [("filtered_count", Json (VInt (Z.of_nat (length sorted))));
        ("total_count", Json (VInt (Z.of_nat (length items))));
        ("flights", Json (VList sorted));
        ("storage", Path [TEMP_FLIGHT_SEARCH_DIR env; filter_file filters])].
Proof.
  unfold filter_file. intros Hdir Ht Hfl Hit Hloop Hsort.
  unfold filter_flights. rewrite (get_search_results_stored _ _ _ Hdir).
  cbn [bind].
  rewrite Ht. cbn [negb]. rewrite Hfl. cbn [bind]. rewrite Hit. cbn [bind].
  rewrite Hloop. cbn [bind]. rewrite Hsort. cbn [bind].
  rewrite (py_len_iter _ _ Hit). reflexivity.
Qed.

Lemma filter_flights_Ok env dir filters res :
  filter_flights env dir filters = Ok res ->
  res = not_found
  \/ exists doc flights items kept sorted,
       dir !! filter_file filters = Some (JsonFile doc)
       /\ py_truthy doc = true
       /\ stored_flights doc = Ok flights
       /\ py_iter flights = Ok items
       /\ filter_loop filters items = Ok kept
       /\ apply_sorting filters kept = Ok sorted
       /\ res = [("filtered_count", Json (VInt (Z.of_nat (length sorted))));
                 ("total_count", Json (VInt (Z.of_nat (length items))));
                 ("flights", Json (VList sorted));
                 ("storage",
                   Path [TEMP_FLIGHT_SEARCH_DIR env; filter_file filters])].
Proof.
  unfold filter_flights, filter_file.
  destruct (dir !! file_name (py_format (dict_get filters "search_id" VNone)))
    as [[doc|text|e]|] eqn:Hdir.
  - rewrite (get_search_results_stored _ _ _ Hdir). cbn [bind].
    destruct (py_truthy doc) eqn:Ht; cbn [negb]; [|intros [= <-]; auto].
    intros E. inv_bind. right.
    rewrite (py_len_iter _ _ E1) in E4. injection E4 as <-.
    eauto 12.
  - rewrite (get_search_results_entry _ _ _ Hdir). discriminate.
  - rewrite (get_search_results_entry _ _ _ Hdir). discriminate.
  - unfold get_search_results, path_exists. cbv zeta. rewrite Hdir.
    destruct (resolve _); [| |destruct exists_reraises]; cbn [bind];
      try discriminate; intros [= <-]; auto.
Qed.

End Filter.

(** C5, as the code has it: in the result of the filter, two surviving
    flights that compare equal on the sort key stand in the order they had
    in the stored set, whichever key the specification sorts by and in
    either direction, provided that the keys of the surviving flights are
    of one kind that [<] orders: floats other than NaN, integers, or
    strings. *)
Theorem sorting_is_stable `{PyRuntime} `{FileSystem}
    env dir filters key kind res doc flights items out a b :
  filter_flights env dir filters = Ok res ->
  response_get "flights" res = Some (Json (VList out)) ->
  dir !! filter_file filters = Some (JsonFile doc) ->
  stored_flights doc = Ok flights ->
  py_iter flights = Ok items ->
  sort_key_of filters = Some key ->
  (forall f, In f items -> survives filters f = true ->
     exists k, key f = Ok k /\ of_kind kind k = true) ->
  precedes a b items ->
  survives filters a = true ->
  survives filters b = true ->
  same_key key a b ->
  precedes a b out.
Proof.
  intros E Hout Hdir Hfl Hit Hkey Hkind Hp Ha Hb
    (ka & kb & Hka & Hkb & Hab & Hba).
  apply filter_flights_Ok in E as [->|E]; [discriminate Hout|].
  destruct E as (doc' & fl' & items' & kept & sorted
                 & Hdir' & _ & Hfl' & Hit' & Hloop & Hsort & ->).
  rewrite Hdir in Hdir'. injection Hdir' as <-.
  rewrite Hfl in Hfl'. injection Hfl' as <-.
  rewrite Hit in Hit'. injection Hit' as <-.
  cbn in Hout. injection Hout as <-.
  apply filter_loop_filter in Hloop as ->.
  rewrite (apply_sorting_key _ _ _ Hkey) in Hsort.
  refine (list_sort_stable py_lt (fun k => of_kind kind k = true)
            (of_kind_asym kind) (of_kind_not_below_trans kind)
            key _ _ _ a b ka kb _ Hsort _ Hka Hkb Hab Hba).
  - intros f k Hin Hk. apply filter_In in Hin as [Hin Hs].
    destruct (Hkind f Hin Hs) as (k' & Hk' & Hof). congruence.
  - now apply precedes_filter.
Qed.

(** C5 as stated fails when a price is NaN: of the seven flights of the
    fifth search the last two, both at price 1, come back in the other
    order when the flights are sorted by price. *)
Lemma nan_price_breaks_stability :
  exists res,
    filter_flights sample_env odd_dir odd_by_price = Ok res
    /\ stored_items "e5f6" odd_dir
       = [odd_F0; odd_F1; odd_F2; odd_F3; odd_F4; odd_F5; odd_F6]
    /\ response_get "flights" res
       = Some (Json (VList [odd_F0; odd_F1; odd_F3; odd_F6;
                            odd_F2; odd_F4; odd_F5]))
    /\ survives odd_by_price odd_F5 = true
    /\ survives odd_by_price odd_F6 = true
    /\ same_key price_key odd_F5 odd_F6
    /\ precedes odd_F5 odd_F6
         [odd_F0; odd_F1; odd_F2; odd_F3; odd_F4; odd_F5; odd_F6]
    /\ ~ precedes odd_F5 odd_F6
           [odd_F0; odd_F1; odd_F3; odd_F6; odd_F2; odd_F4; odd_F5].
Proof.
  eexists. split; [vm_compute; reflexivity|].
  split; [vm_compute; reflexivity|]. split; [reflexivity|].
  split; [vm_compute; reflexivity|]. split; [vm_compute; reflexivity|].
  split.
  { do 2 eexists. split; [vm_compute; reflexivity|].
    split; [vm_compute; reflexivity|]. split; vm_compute; reflexivity. }
  split.
  { do 5 apply precedes_later. apply precedes_here. left. reflexivity. }
  intros Hp.
  repeat (apply precedes_cons_inv in Hp as [[E _]|Hp];
          [vm_compute in E; discriminate E|]).
  apply precedes_cons_inv in Hp as [[_ []]|Hp]. inversion Hp.
Qed.

(** C10: with a [sort_by] that is none of the three known keys, the filter
    answers as long as its predicates do, and its flights are the surviving
    flights in the order of the stored set. *)
Theorem unknown_sort_key_ignored `{PyRuntime} `{FileSystem}
    env dir filters sort_by doc flights items kept :
  dict_lookup "sort_by" filters = Some sort_by ->
  sort_by <> VStr "price" ->
  sort_by <> VStr "duration" ->
  sort_by <> VStr "departure_time" ->
  dir !! filter_file filters = Some (JsonFile doc) ->
  py_truthy doc = true ->
  stored_flights doc = Ok flights ->
  py_iter flights = Ok items ->
  filter_loop filters items = Ok kept ->
  apply_sorting filters kept = Ok kept
  /\ kept = List.filter (survives filters) items
  /\ filter_flights env dir filters
     = Ok [("filtered_count", Json (VInt (Z.of_nat (length kept))));
           ("total_count", Json (VInt (Z.of_nat (length items))));
           ("flights", Json (VList kept));
           ("storage", Path [TEMP_FLIGHT_SEARCH_DIR env; filter_file filters])].
Proof.
  intros Hsb H1 H2 H3 Hdir Ht Hfl Hit Hloop.
  assert (Hnone : sort_key_of filters = None).
  { unfold sort_key_of. rewrite Hsb.
    destruct (str_eq sort_by "price") eqn:E1;
      [apply str_eq_true in E1; contradiction|].
    destruct (str_eq sort_by "duration") eqn:E2;
      [apply str_eq_true in E2; contradiction|].
    destruct (str_eq sort_by "departure_time") eqn:E3;
      [apply str_eq_true in E3; contradiction|].
    reflexivity. }
  pose proof (apply_sorting_none _ kept Hnone) as Hsort.
  split; [exact Hsort|]. split; [now apply filter_loop_filter|].
  eapply filter_flights_stages; eauto.
Qed.

(** A call of the tool on a storage that can be built is the filter on the
    directory as it stands. *)
Lemma filter_flights_call_built `{PyRuntime} `{FileSystem} ps filters temp_dir dir :
  FlightSearchStorage.__init__ ps = Ok (temp_dir, dir) ->
  filter_flights_call ps filters
  = filter_flights (process_environ ps temp_dir) dir filters.
Proof. intros E. unfold filter_flights_call. now rewrite E. Qed.

(** C3, as the code has it.  The tool builds the storage first and raises
    when it cannot.  On a storage that is built: for an identifier the
    store does not know, the tool returns the error result, raising
    nothing, when [Path.exists()] answers for the file of the identifier,
    and raises the [OSError] of the system when the system refuses the path
    (a name that is too long) and [exists()] lets the error pass; for an
    identifier whose document is not empty, whatever the tool returns holds
    the four keys [filtered_count], [total_count], [flights] and
    [storage]: [total_count] is the size of the stored flight set,
    [filtered_count] the number of flights that survive the predicates,
    [flights] those flights in some order and [storage] the path of the
    document.  An empty document is answered by the error result as well,
    and on a file that is not JSON or an entry that cannot be opened the
    tool raises. *)
Theorem filter_result_shape `{PyRuntime} `{FileSystem} ps filters :
  (forall e,
     FlightSearchStorage.__init__ ps = Raise e ->
     filter_flights_call ps filters = Raise e)
  /\ (forall temp_dir (dir : gmap string file),
        FlightSearchStorage.__init__ ps = Ok (temp_dir, dir) ->
        (dir !! filter_file filters = None ->
           (exists_answers (filter_file filters) = true ->
              filter_flights_call ps filters = Ok not_found)
           /\ (forall e,
                 resolve (filter_file filters) = Refused e ->
                 exists_reraises = true ->
                 filter_flights_call ps filters = Raise e))
        /\ (forall doc res,
              dir !! filter_file filters = Some (JsonFile doc) ->
              py_truthy doc = true ->
              filter_flights_call ps filters = Ok res ->
              exists flights items sorted,
                stored_flights doc = Ok flights
                /\ py_iter flights = Ok items
                /\ Permutation sorted (List.filter (survives filters) items)
                /\ res =
                   [("filtered_count",
                      Json (VInt (Z.of_nat
                        (length (List.filter (survives filters) items)))));
                    ("total_count", Json (VInt (Z.of_nat (length items))));
                    ("flights", Json (VList sorted));
                    ("storage", Path [temp_dir; filter_file filters])])
        /\ (forall doc,
              dir !! filter_file filters = Some (JsonFile doc) ->
              py_truthy doc = false ->
              filter_flights_call ps filters = Ok not_found)
        /\ (forall text,
              dir !! filter_file filters = Some (Corrupt text) ->
              filter_flights_call ps filters = JSONDecodeError)
        /\ (forall e,
              dir !! filter_file filters = Some (Locked e) ->
              filter_flights_call ps filters = Raise e)).
Proof.
  split.
  - intros e E. unfold filter_flights_call. now rewrite E.
  - intros temp_dir dir Hinit.
    rewrite (filter_flights_call_built _ _ _ _ Hinit).
    split; [|split; [|split; [|split]]].
    + intros Hdir. unfold filter_flights. split.
      * intros Ha. now rewrite (get_search_results_missing _ _ Hdir Ha).
      * intros e Hr Hx.
        now rewrite (get_search_results_refused _ _ _ Hdir Hr Hx).
    + intros doc res Hdir Ht E.
      pose proof E as E'. apply filter_flights_Ok in E' as [->|E'].
      * exfalso. unfold filter_flights in E.
        rewrite (get_search_results_stored _ _ _ Hdir) in E.
        cbn [bind] in E. rewrite Ht in E. cbn [negb] in E.
        inv_bind. discriminate.
      * destruct E' as (doc' & fl & items & kept & sorted
                       & Hdir' & _ & Hfl & Hit & Hloop & Hsort & ->).
        rewrite Hdir in Hdir'. injection Hdir' as <-.
        apply filter_loop_filter in Hloop as ->.
        pose proof (apply_sorting_Permutation _ _ _ Hsort) as Hperm.
        exists fl, items, sorted. repeat split; auto.
        now rewrite (Permutation_length Hperm).
    + intros doc Hdir Ht. unfold filter_flights.
      rewrite (get_search_results_stored _ _ _ Hdir). cbn [bind].
      now rewrite Ht.
    + intros text Hdir. unfold filter_flights.
      now rewrite (get_search_results_entry _ _ _ Hdir).
    + intros e Hdir. unfold filter_flights.
      now rewrite (get_search_results_entry _ _ _ Hdir).
Qed.

(** C3 as stated fails: the result for a known identifier carries a fourth
    key. *)
Lemma filter_result_has_storage_key :
  exists res,
    filter_flights_call sample_process [("search_id", VStr "6f1c")] = Ok res
    /\ map fst res = ["filtered_count"; "total_count"; "flights"; "storage"]
    /\ ~ exists a b c,
         res = [("filtered_count", a); ("total_count", b); ("flights", c)].
Proof.
  eexists. split; [vm_compute; reflexivity|].
  split; [reflexivity|].
  intros (a & b & c & E). discriminate E.
Qed.

(** ** The price predicate *)

Lemma compare_Z_float_None a y :
  compare_Z_float a y = None -> is_nan y = true.
Proof.
  destruct y as [s|s| |s m e]; simpl; auto; try discriminate.
  destruct (0 <=? e); discriminate.
Qed.

(** A comparison of numbers is undecided only on a NaN. *)
Lemma num_compare_None x n :
  num_compare (NFloat x) n = None ->
  is_nan x = true \/ (exists y, n = NFloat y /\ is_nan y = true).
Proof.
  destruct n as [b|y]; simpl.
  - destruct (compare_Z_float b x) eqn:E; simpl; [discriminate|].
    left. eapply compare_Z_float_None; eauto.
  - intros E. apply SFcompare_None in E as [E|E]; eauto.
Qed.

Lemma py_compare_float op x P :
  py_compare op (VFloat x) P
  = match as_num P with
    | Some n => Ok (cmpop_holds op (num_compare (NFloat x) n))
    | None => TypeError ("'" ++ cmpop_symbol op
                ++ "' not supported between instances of 'float' and '"
                ++ type_name P ++ "'")
    end.
Proof. destruct P; reflexivity. Qed.

(** Not above [P] is at most [P], NaN apart. *)
Lemma not_gt_le x P :
  py_gt (VFloat x) P = Ok false ->
  is_nan x = false -> is_nan_value P = false ->
  py_le (VFloat x) P = Ok true.
Proof.
  unfold py_gt, py_le. rewrite !py_compare_float.
  destruct (as_num P) as [n|] eqn:En; [|discriminate].
  intros E Hx HP. f_equal.
  destruct (num_compare (NFloat x) n) as [[]|] eqn:Ec; try reflexivity.
  - discriminate E.
  - apply num_compare_None in Ec as [Ec|(y & -> & Ey)]; [congruence|].
    destruct P as [|b|k|z|t|l|d]; try discriminate En.
    simpl in En, HP. congruence.
Qed.

Lemma le_not_gt x P :
  py_le (VFloat x) P = Ok true -> py_gt (VFloat x) P = Ok false.
Proof.
  unfold py_gt, py_le. rewrite !py_compare_float.
  destruct (as_num P) as [n|]; [|discriminate].
  intros E. f_equal.
  destruct (num_compare (NFloat x) n) as [[]|]; try reflexivity; discriminate E.
Qed.

Section PricePredicate.
Context {rt : PyRuntime}.

Lemma check_price_true filters P f :
  dict_lookup "max_price" filters = Some P ->
  check_price filters f = Ok true <->
  exists x, flight_price f = Ok x /\ py_gt (VFloat x) P = Ok false.
Proof.
  intros HP. unfold check_price, flight_price, dict_has, dict_item.
  rewrite HP. split.
  - intros E. inv_bind. exists v. split.
    + rewrite_results.
    + destruct v1; [discriminate | assumption].
  - intros (x & E & Hgt). rewrite E. cbn [bind]. rewrite Hgt. reflexivity.
Qed.

Lemma and_then_true c1 c2 :
  and_then c1 c2 = Ok true <-> c1 = Ok true /\ c2 = Ok true.
Proof.
  unfold and_then. destruct c1 as [[]|]; simpl; split; try tauto;
    intros; try discriminate; destruct H as [? ?]; discriminate.
Qed.

(** A flight is kept exactly when each of the five checks lets it
    through. *)
Lemma keep_flight_true filters f :
  keep_flight filters f = Ok true <->
  check_price filters f = Ok true
  /\ check_duration filters f = Ok true
  /\ check_stops filters f = Ok true
  /\ check_airlines filters f = Ok true
  /\ check_departure_time filters f = Ok true.
Proof.
  unfold keep_flight. rewrite !and_then_true. tauto.
Qed.

Lemma survives_true filters f :
  survives filters f = true <-> keep_flight filters f = Ok true.
Proof.
  unfold survives. destruct (keep_flight filters f) as [[]|]; split;
    congruence.
Qed.

End PricePredicate.

(** C4, as the code has it: when the filter specification holds
    [max_price = P] and the filter returns a result, every flight of the
    output comes from the stored set and has a price that is not above [P],
    so a price that is at most [P] unless the price or [P] is NaN; and
    every stored flight with a price at most [P] that passes the other four
    checks is in the output. *)
Theorem max_price_filter `{PyRuntime} `{FileSystem} env dir filters P res out :
  dict_lookup "max_price" filters = Some P ->
  filter_flights env dir filters = Ok res ->
  response_get "flights" res = Some (Json (VList out)) ->
  exists doc flights items,
    dir !! filter_file filters = Some (JsonFile doc)
    /\ stored_flights doc = Ok flights
    /\ py_iter flights = Ok items
    /\ (forall f, In f out ->
          In f items
          /\ exists x, flight_price f = Ok x
               /\ py_gt (VFloat x) P = Ok false
               /\ (is_nan x = false -> is_nan_value P = false ->
                   price_within P f))
    /\ (forall f, In f items ->
          price_within P f ->
          check_duration filters f = Ok true ->
          check_stops filters f = Ok true ->
          check_airlines filters f = Ok true ->
          check_departure_time filters f = Ok true ->
          In f out).
Proof.
  intros HP E Hout.
  apply filter_flights_Ok in E as [->|E]; [discriminate Hout|].
  destruct E as (doc & fl & items & kept & sorted
                 & Hdir & _ & Hfl & Hit & Hloop & Hsort & ->).
  cbn in Hout. injection Hout as <-.
  apply filter_loop_filter in Hloop as ->.
  pose proof (apply_sorting_Permutation _ _ _ Hsort) as Hperm.
  exists doc, fl, items.
  split; [assumption|]. split; [assumption|]. split; [assumption|]. split.
  - intros f Hin.
    eapply Permutation_in in Hin; [|exact Hperm].
    apply filter_In in Hin as [Hin Hs]. split; [assumption|].
    apply survives_true, keep_flight_true in Hs as [Hprice _].
    apply (check_price_true _ _ _ HP) in Hprice as (x & Hx & Hgt).
    exists x. repeat split; auto.
    intros Hnx HnP. exists x. split; [assumption|]. now apply not_gt_le.
  - intros f Hin (x & Hx & Hle) Hd Hs Ha Ht.
    eapply Permutation_in; [symmetry; exact Hperm|].
    apply filter_In. split; [assumption|].
    apply survives_true, keep_flight_true. repeat split; auto.
    apply (check_price_true _ _ _ HP). exists x. split; [assumption|].
    now apply le_not_gt.
Qed.

(** C4 as stated fails when [max_price] is NaN: the stored flight, at
    price 350, is returned although 350 is not at most NaN. *)
Lemma nan_max_price_keeps_every_flight :
  exists res f,
    filter_flights sample_env sample_dir
      [("search_id", VStr "6f1c"); ("max_price", VFloat S754_nan)] = Ok res
    /\ response_get "flights" res = Some (Json (VList [f]))
    /\ flight_price f = float_of_Z 350
    /\ ~ price_within (VFloat S754_nan) f.
Proof.
  eexists. eexists. split; [vm_compute; reflexivity|].
  split; [reflexivity|]. split; [reflexivity|].
  intros (x & _ & Hle). unfold py_le in Hle. rewrite py_compare_float in Hle.
  destruct x; discriminate Hle.
Qed.

(** ** The sweep *)

Section Sweep.
Context {rt : PyRuntime} {fs : FileSystem}.
Implicit Types (dir : gmap string file) (name : string).

Lemma sweep_step_lookup ct H dir name n :
  sweep_step ct H dir name !! n
  = if decide (n = name) then after_sweep ct H name (dir !! name) else dir !! n.
Proof.
  unfold sweep_step, sweep_file, after_sweep, unlink.
  destruct (dir !! name) as [f|] eqn:Ef.
  - destruct (file_verdict ct H f) as [[]|e]; cbn [bind].
    + destruct (unlink_error name) as [e|].
      * destruct (decide (n = name)) as [->|Hne]; [exact Ef | reflexivity].
      * destruct (decide (n = name)) as [->|Hne].
        -- apply lookup_delete_eq.
        -- now apply lookup_delete_ne.
    + destruct (decide (n = name)) as [->|Hne]; [exact Ef | reflexivity].
    + destruct (decide (n = name)) as [->|Hne]; [exact Ef | reflexivity].
  - destruct (decide (n = name)) as [->|Hne]; [exact Ef | reflexivity].
Qed.

Lemma sweep_fold_lookup ct H names dir n :
  NoDup names ->
  fold_left (sweep_step ct H) names dir !! n
  = if decide (n ∈ names) then after_sweep ct H n (dir !! n) else dir !! n.
Proof.
  intros Hnd. revert dir. induction Hnd as [|x names Hx Hnd IH]; intros dir.
  - simpl. destruct (decide (n ∈ [])) as [Hin|]; [|reflexivity].
    now apply not_elem_of_nil in Hin.
  - cbn [fold_left]. rewrite IH. rewrite !sweep_step_lookup.
    destruct (decide (n = x)) as [->|Hne].
    + destruct (decide (x ∈ names)) as [Hin|_]; [contradiction|].
      destruct (decide (x ∈ x :: names)) as [_|Hn]; [reflexivity|].
      exfalso. apply Hn. apply list_elem_of_here.
    + destruct (decide (n ∈ names)) as [Hin|Hnin].
      * destruct (decide (n ∈ x :: names)) as [_|Hn]; [reflexivity|].
        exfalso. apply Hn. now apply list_elem_of_further.
      * destruct (decide (n ∈ x :: names)) as [Hin|_]; [|reflexivity].
        apply elem_of_cons in Hin as [?|?]; [congruence | contradiction].
Qed.

Lemma glob_elem dir name :
  name ∈ glob dir <-> glob_match name = true /\ is_Some (dir !! name).
Proof.
  unfold glob. rewrite list_elem_of_filter, list_elem_of_fmap. split.
  - intros (Hm & [k f] & -> & Hin). split; [assumption|].
    apply elem_of_map_to_list in Hin. simpl. eauto.
  - intros (Hm & f & Hf). split; [assumption|].
    exists (name, f). split; [reflexivity|]. now apply elem_of_map_to_list.
Qed.

Lemma glob_NoDup dir : NoDup (glob dir).
Proof. unfold glob. apply NoDup_filter, NoDup_fst_map_to_list. Qed.

(** The sweep, file by file. *)
Lemma cleanup_lookup now H dir name :
  cleanup_old_searches now H dir !! name
  = if glob_match name then after_sweep (naive now) H name (dir !! name)
    else dir !! name.
Proof.
  unfold cleanup_old_searches.
  rewrite (sweep_fold_lookup _ _ _ _ _ (glob_NoDup dir)).
  destruct (decide (name ∈ glob dir)) as [Hin|Hnin].
  - apply glob_elem in Hin as [-> _]. reflexivity.
  - destruct (glob_match name) eqn:Hm; [|reflexivity].
    destruct (dir !! name) as [f|] eqn:Ef; [|reflexivity].
    exfalso. apply Hnin. apply glob_elem. eauto.
Qed.

Lemma append_cons c s t : String c s +:+ t = String c (s +:+ t).
Proof. reflexivity. Qed.

Lemma append_nil t : EmptyString +:+ t = t.
Proof. reflexivity. Qed.

Lemma length_append s t :
  String.length (s +:+ t) = (String.length s + String.length t)%nat.
Proof.
  induction s as [|c s IH]; [reflexivity|].
  rewrite append_cons. cbn [String.length Nat.add]. now rewrite IH.
Qed.

Lemma substring_all t : String.substring 0 (String.length t) t = t.
Proof.
  induction t as [|c t IHt]; cbn [String.length String.substring];
    [reflexivity | now rewrite IHt].
Qed.

Lemma substring_suffix s t :
  String.substring (String.length s) (String.length t) (s +:+ t) = t.
Proof.
  induction s as [|c s IH].
  - rewrite append_nil. apply substring_all.
  - rewrite append_cons. cbn [String.length String.substring]. exact IH.
Qed.

(** Every file of the store is in the reach of the sweep. *)
Lemma glob_match_file_name s : glob_match (file_name s) = true.
Proof.
  unfold glob_match, file_name.
  rewrite !length_append.
  apply andb_true_iff. split; [apply andb_true_iff; split|].
  - rewrite !append_cons, append_nil. simpl.
    now destruct (s +:+ ".json").
  - apply Nat.leb_le. cbn [String.length]. lia.
  - replace (String.length "search_" + (String.length s + String.length ".json") - 5)%nat
      with (String.length ("search_" +:+ s)) by (rewrite length_append; simpl; lia).
    change 5%nat with (String.length ".json").
    replace ("search_" +:+ s +:+ ".json") with (("search_" +:+ s) +:+ ".json").
    + rewrite substring_suffix. reflexivity.
    + rewrite !append_cons, !append_nil. reflexivity.
Qed.

(** The verdict on a document with a naive timestamp. *)
Lemma file_verdict_timestamp now H doc ts t :
  py_item doc "timestamp" = Ok (VStr ts) ->
  fromisoformat ts = Ok (naive t) ->
  file_verdict (naive now) H (JsonFile doc) = Ok (age_exceeds now t H).
Proof.
  intros Hts Hiso. unfold file_verdict. cbn [open_r json_load bind].
  rewrite Hts. cbn [bind datetime_fromisoformat]. rewrite Hiso. reflexivity.
Qed.

End Sweep.

(** *** [total_seconds()] against a whole number of seconds

    [total_seconds()] rounds the quotient of the microseconds by [10 ** 6]
    once, to 53 bits.  Below [2 ^ 34] seconds two neighbouring doubles are
    less than two microseconds apart, and the threshold, a whole number of
    seconds, is one of them: the rounded age is above it exactly when the
    age is. *)

(** The number of binary digits of a positive number. *)
Lemma digits2_pos_bounds p :
  2 ^ (Zpos (digits2_pos p) - 1) <= Zpos p < 2 ^ Zpos (digits2_pos p).
Proof.
  induction p as [p IH|p IH|]; cbn [digits2_pos]; [| |simpl; lia].
  all: rewrite Pos2Z.inj_succ.
  all: replace (Z.succ (Zpos (digits2_pos p)) - 1) with (Zpos (digits2_pos p))
         by lia.
  all: rewrite Z.pow_succ_r by lia.
  all: assert (E : 2 ^ Zpos (digits2_pos p)
                   = 2 * 2 ^ (Zpos (digits2_pos p) - 1))
         by (rewrite <- Z.pow_succ_r by lia; f_equal; lia).
  all: lia.
Qed.

Lemma Zdigits2_unique a n :
  2 ^ (n - 1) <= a < 2 ^ n -> 0 < a -> Zdigits2 a = n.
Proof.
  intros [Hlo Hhi] Ha. destruct a as [|p|p]; try lia. cbn [Zdigits2].
  pose proof (digits2_pos_bounds p) as [Hlo' Hhi'].
  set (d := Zpos (digits2_pos p)) in *.
  assert (0 < n).
  { destruct (Z_lt_le_dec 0 n); auto.
    destruct (Z.eq_dec n 0) as [->|]; [simpl in Hhi; lia|].
    rewrite (Z.pow_neg_r 2 n) in Hhi by lia. lia. }
  assert (0 < d) by (unfold d; lia).
  destruct (Z.lt_trichotomy d n) as [Hl|[He|Hg]]; auto.
  - assert (2 ^ d <= 2 ^ (n - 1)) by (apply Z.pow_le_mono_r; lia). lia.
  - assert (2 ^ n <= 2 ^ (d - 1)) by (apply Z.pow_le_mono_r; lia). lia.
Qed.

Lemma Zdigits2_lt a n :
  0 < a < 2 ^ n -> 0 < Zdigits2 a <= n.
Proof.
  intros [Ha Hhi]. destruct a as [|p|p]; try lia. cbn [Zdigits2].
  pose proof (digits2_pos_bounds p) as [Hlo' Hhi'].
  split; [lia|].
  destruct (Z_lt_le_dec n (Zpos (digits2_pos p))); [|lia].
  assert (2 ^ n <= 2 ^ (Zpos (digits2_pos p) - 1)).
  { apply Z.pow_le_mono_r; lia. }
  lia.
Qed.

(** The division by [10 ** 6] scales the microseconds to 73 bits first, so
    that the quotient has 53 or 54 of them. *)
Lemma SFdiv_core_micros a :
  0 < a < 2 ^ 62 ->
  let s := 73 - Zdigits2 a in
  SFdiv_core_binary prec emax a 0 1000000 0
  = ((a * 2 ^ s) / 1000000, - s,
     new_location_even 1000000 ((a * 2 ^ s) mod 1000000)).
Proof.
  intros Ha s. pose proof (Zdigits2_lt a 62 Ha) as Hd.
  unfold SFdiv_core_binary.
  change (Zdigits2 1000000) with 20.
  replace (Z.min (fexp prec emax (Zdigits2 a + 0 - (20 + 0))) (0 - 0)) with (- s).
  2:{ unfold fexp, emin, prec, emax, s. lia. }
  replace (0 - 0 - - s) with s by lia.
  assert (Hs : 0 < s) by (unfold s; lia).
  destruct s as [|ps|ps] eqn:Es; try lia.
  rewrite Z.shiftl_mul_pow2 by lia.
  unfold Z.div, Z.modulo.
  destruct (Z.div_eucl (a * 2 ^ Z.pos ps) 1000000) as [q r].
  reflexivity.
Qed.

Lemma loc_of_shr_record_of_loc m l :
  loc_of_shr_record (shr_record_of_loc m l) = l
  /\ shr_m (shr_record_of_loc m l) = m.
Proof. destruct l as [|[]]; split; reflexivity. Qed.

Lemma round_nearest_even_bounds m l :
  round_nearest_even m l = m
  \/ (round_nearest_even m l = m + 1 /\ l <> loc_Exact).
Proof.
  destruct l as [|[]]; cbn [round_nearest_even];
    try destruct (Z.even m);
    first [left; reflexivity | right; split; [reflexivity|discriminate]].
Qed.

(** A mantissa of 53 bits is kept; one of 54 bits loses its last bit to the
    rounding record. *)
Lemma shr_fexp_53 m e l :
  2 ^ 52 <= m < 2 ^ 53 -> -1000 <= e <= 0 ->
  shr_fexp prec emax m e l = (shr_record_of_loc m l, e).
Proof.
  intros Hm He. unfold shr_fexp.
  rewrite (Zdigits2_unique m 53) by (change (53 - 1) with 52; lia).
  replace (fexp prec emax (53 + e) - e) with 0
    by (unfold fexp, emin, prec, emax; lia).
  reflexivity.
Qed.

Lemma shr_fexp_54 m e l :
  2 ^ 53 <= m < 2 ^ 54 -> -1000 <= e <= 0 ->
  shr_fexp prec emax m e l = (shr_1 (shr_record_of_loc m l), e + 1).
Proof.
  intros Hm He. unfold shr_fexp.
  rewrite (Zdigits2_unique m 54) by (change (54 - 1) with 53; lia).
  replace (fexp prec emax (54 + e) - e) with 1
    by (unfold fexp, emin, prec, emax; lia).
  reflexivity.
Qed.

(** The rounding of a 53-bit quotient, read through the exact comparison
    with an integer: a carry to [2 ^ 53] changes the exponent, not the value. *)
Lemma round_normal m e l T :
  2 ^ 52 <= m < 2 ^ 53 -> -1000 <= e <= -2 ->
  compare_Z_float T (binary_round_aux prec emax false m e l)
  = Some (T * 2 ^ (- e) ?= round_nearest_even m l).
Proof.
  intros Hm He. unfold binary_round_aux.
  rewrite shr_fexp_53 by lia.
  destruct (loc_of_shr_record_of_loc m l) as [-> ->].
  set (m1 := round_nearest_even m l).
  assert (Hm1 : m1 = m \/ m1 = m + 1).
  { destruct (round_nearest_even_bounds m l) as [?|[? _]]; auto. }
  clearbody m1.
  destruct (Z.eq_dec m1 (2 ^ 53)) as [E|NE].
  - rewrite E, shr_fexp_54 by lia.
    replace (shr_m (shr_1 (shr_record_of_loc (2 ^ 53) loc_Exact))) with (2 ^ 52)
      by (vm_compute; reflexivity).
    change (2 ^ 52) with (Zpos 4503599627370496) at 1. cbv iota beta.
    replace (e + 1 <=? emax - prec) with true
      by (symmetry; apply Z.leb_le; unfold emax, prec; lia).
    cbn [compare_Z_float]. replace (0 <=? e + 1) with false
      by (symmetry; apply Z.leb_gt; lia).
    f_equal. rewrite Z.shiftl_mul_pow2 by lia.
    replace (- e) with (- (e + 1) + 1) by lia.
    rewrite Z.pow_add_r by lia.
    change (2 ^ 53) with (4503599627370496 * 2 ^ 1).
    rewrite Z.mul_assoc.
    apply Zmult_compare_compat_r. lia.
  - rewrite shr_fexp_53 by lia. cbn [shr_record_of_loc shr_m].
    destruct m1 as [|p|p]; try lia.
    replace (e <=? emax - prec) with true
      by (symmetry; apply Z.leb_le; unfold emax, prec; lia).
    cbn [compare_Z_float]. replace (0 <=? e) with false
      by (symmetry; apply Z.leb_gt; lia).
    rewrite Z.shiftl_mul_pow2 by lia. reflexivity.
Qed.

Lemma shr_1_halves m r s :
  0 < m ->
  shr_m (shr_1 (Build_shr_record m r s)) = m / 2
  /\ (loc_of_shr_record (shr_1 (Build_shr_record m r s)) <> loc_Exact ->
      Z.odd m = true \/ r = true \/ s = true).
Proof.
  intros Hm. destruct m as [|p|p]; try lia.
  destruct p as [p|p|]; cbn [shr_1 shr_m].
  - split; [rewrite Pos2Z.inj_xI; apply Z.div_unique with 1; lia|].
    intros _. left. reflexivity.
  - split; [rewrite Pos2Z.inj_xO; apply Z.div_unique with 0; lia|].
    destruct r, s; cbn; intros Hl; auto; now contradiction Hl.
  - split; [reflexivity|]. intros _. left. reflexivity.
Qed.

(** A 54-bit quotient is halved first; the bit that goes and the remainder
    of the division make the new rounding record. *)
Lemma round_shift m e l :
  2 ^ 53 <= m < 2 ^ 54 -> -1000 <= e <= -3 ->
  exists l',
    binary_round_aux prec emax false m e l
    = binary_round_aux prec emax false (m / 2) (e + 1) l'
    /\ (l' <> loc_Exact -> Z.odd m = true \/ l <> loc_Exact)
    /\ (Z.odd m = true -> l <> loc_Exact -> l' = loc_Inexact Gt).
Proof.
  intros Hm He.
  exists (loc_of_shr_record (shr_1 (shr_record_of_loc m l))).
  assert (Hh : 2 ^ 52 <= m / 2 < 2 ^ 53).
  { change (2 ^ 53) with (2 * 2 ^ 52) in Hm. change (2 ^ 54) with (2 * 2 ^ 53) in Hm.
    split; [apply Z.div_le_lower_bound; lia|apply Z.div_lt_upper_bound; lia]. }
  split.
  - unfold binary_round_aux.
    rewrite shr_fexp_54, (shr_fexp_53 (m / 2)) by lia.
    destruct (loc_of_shr_record_of_loc (m / 2)
                (loc_of_shr_record (shr_1 (shr_record_of_loc m l)))) as [-> ->].
    destruct l as [|[]]; cbn [shr_record_of_loc];
      match goal with
      | |- context [shr_1 (Build_shr_record m ?r ?s)] =>
          destruct (shr_1_halves m r s) as [-> _]; [lia|]
      end; reflexivity.
  - split.
    + intros Hl. destruct l as [|[]]; try (right; discriminate).
      cbn [shr_record_of_loc] in Hl.
      destruct (shr_1_halves m false false) as [_ Ho]; [lia|].
      destruct (Ho Hl) as [?|[?|?]]; auto; discriminate.
    + intros Ho Hl. destruct m as [|[p|p|]|p]; try discriminate Ho; try lia.
      destruct l as [|[]]; [now contradiction Hl|reflexivity..].
Qed.

(** The arithmetic of the matter.  [q] is the quotient of [a * 2 ^ k] by
    [10 ** 6] and [m1] its rounding; [T] seconds are [T * 2 ^ k] at that
    scale, an integer.  Above [2 ^ 20] one microsecond is more than one
    unit of the quotient; at [k = 19] it is more than half a unit, and the
    rounding goes up; below, [T] is under [2 ^ 52] and so under [q]. *)
Lemma rounded_quotient_decides a T k q m1 :
  0 <= T < 2 ^ 34 -> 0 <= k ->
  q * 1000000 <= a * 2 ^ k < (q + 1) * 1000000 ->
  2 ^ 52 <= q ->
  m1 = q \/ (m1 = q + 1 /\ q * 1000000 < a * 2 ^ k) ->
  (1000000 < 2 * (a * 2 ^ k - q * 1000000) -> m1 = q + 1) ->
  T * 2 ^ k < m1 <-> T * 1000000 < a.
Proof.
  intros HT Hk Hq Hlo Hm1 Hup.
  assert (HP : 0 < 2 ^ k) by (apply Z.pow_pos_nonneg; lia).
  set (P := 2 ^ k) in *.
  assert (Hfwd : T * P < m1 -> T * 1000000 < a).
  { intros Hlt. destruct Hm1 as [->|[-> Hs]]; nia. }
  split; [exact Hfwd|]. intros Hlt.
  change (2 ^ 34) with 17179869184 in HT.
  change (2 ^ 52) with 4503599627370496 in Hlo.
  destruct (Z_lt_le_dec k 19) as [Hs|Hm]; [|destruct (Z_lt_le_dec k 20) as [Hs|Hl]].
  - assert (P <= 2 ^ 18) by (apply Z.pow_le_mono_r; lia).
    change (2 ^ 18) with 262144 in *.
    assert (T * P < 4503599627370496) by nia.
    destruct Hm1 as [->|[-> _]]; lia.
  - assert (Hk19 : k = 19) by lia. subst k. change (2 ^ 19) with 524288 in *.
    subst P. destruct (Z_lt_le_dec (T * 524288) q) as [Hgt|Hle].
    + destruct Hm1 as [->|[-> _]]; lia.
    + rewrite Hup by lia. lia.
  - assert (2 ^ 20 <= P) by (apply Z.pow_le_mono_r; lia).
    change (2 ^ 20) with 1048576 in *.
    assert (T * P < q) by nia.
    destruct Hm1 as [->|[-> _]]; lia.
Qed.

(** A negative quotient is never rounded to a positive double. *)
Lemma binary_round_aux_sign m e l :
  match binary_round_aux prec emax true m e l with
  | S754_finite false _ _ | S754_infinity false => False
  | _ => True
  end.
Proof.
  unfold binary_round_aux.
  destruct (shr_fexp prec emax m e l) as [mrs' e'].
  destruct (shr_fexp prec emax _ e' loc_Exact) as [mrs'' e''].
  destruct (shr_m mrs''); auto.
  now destruct (e'' <=? emax - prec).
Qed.

Lemma new_location_even_exact n r :
  new_location_even n r <> loc_Exact -> r <> 0.
Proof.
  unfold new_location_even. intros Hl ->. now apply Hl.
Qed.

Lemma new_location_even_above n r :
  0 <= n < 2 * r -> new_location_even n r = loc_Inexact Gt.
Proof.
  intros Hr. unfold new_location_even.
  destruct (Z.eqb_spec r 0) as [->|_]; [lia|].
  f_equal. apply Z.compare_gt_iff. lia.
Qed.

(** [T] against [total_seconds()] of [a] microseconds is [T * 10 ** 6]
    against [a], for [T] below [2 ^ 34] seconds. *)
Lemma total_seconds_compare a T :
  0 < a < 2 ^ 62 -> 0 <= T < 2 ^ 34 ->
  exists c, compare_Z_float T (total_seconds a) = Some c
            /\ (c = Lt <-> T * 1000000 < a).
Proof.
  intros Ha HT.
  pose proof (Zdigits2_lt a 62 Ha) as Hd.
  assert (Hb : 2 ^ (Zdigits2 a - 1) <= a < 2 ^ Zdigits2 a).
  { destruct a as [|p|p]; try lia. apply digits2_pos_bounds. }
  unfold total_seconds. destruct a as [|p|p]; try lia.
  cbn [float_of_exact SFdiv xorb].
  rewrite (SFdiv_core_micros (Zpos p) Ha). cbv zeta.
  set (a := Zpos p) in *. set (d := Zdigits2 a) in *.
  set (s := 73 - d).
  assert (HN : 2 ^ 72 <= a * 2 ^ s < 2 ^ 73).
  { replace 72 with ((d - 1) + s) by (unfold s; lia).
    replace 73 with (d + s) by (unfold s; lia).
    rewrite !Z.pow_add_r by (unfold s; lia).
    assert (0 < 2 ^ s) by (apply Z.pow_pos_nonneg; unfold s; lia).
    nia. }
  set (N := a * 2 ^ s) in *.
  pose proof (Z.div_mod N 1000000 ltac:(lia)) as Hdm.
  pose proof (Z.mod_pos_bound N 1000000 ltac:(lia)) as Hr.
  set (q := N / 1000000) in *. set (r := N mod 1000000) in *.
  change (2 ^ 72) with 4722366482869645213696 in HN.
  change (2 ^ 73) with 9444732965739290427392 in HN.
  assert (Hq : 2 ^ 52 <= q < 2 ^ 54).
  { change (2 ^ 52) with 4503599627370496.
    change (2 ^ 54) with 18014398509481984. lia. }
  set (l := new_location_even 1000000 r).
  assert (Hl : l <> loc_Exact -> q * 1000000 < N).
  { intros Hl. apply new_location_even_exact in Hl. lia. }
  assert (Hg : 1000000 < 2 * r -> l = loc_Inexact Gt).
  { intros Hg. apply new_location_even_above. lia. }
  assert (Hnz : r <> 0 -> l <> loc_Exact).
  { intros Hnz. unfold l, new_location_even.
    destruct (Z.eqb_spec r 0); [contradiction|discriminate]. }
  clearbody l.
  destruct (Z_lt_le_dec q (2 ^ 53)) as [Hlt|Hge].
  - rewrite round_normal by (unfold s; lia).
    eexists. split; [reflexivity|].
    rewrite Z.compare_lt_iff. replace (- - s) with s by lia.
    assert (Hs : 0 <= s) by (unfold s; lia).
    assert (Hb1 : q * 1000000 <= a * 2 ^ s < (q + 1) * 1000000)
      by (fold N; lia).
    assert (Hq52 : 2 ^ 52 <= q) by lia.
    assert (Hm1 : round_nearest_even q l = q
                  \/ (round_nearest_even q l = q + 1
                      /\ q * 1000000 < a * 2 ^ s)).
    { destruct (round_nearest_even_bounds q l) as [?|[? Hne]]; auto. }
    apply (rounded_quotient_decides a T s q _ HT Hs Hb1 Hq52 Hm1).
    fold N. intros Hup. rewrite Hg by lia. reflexivity.
  - destruct (round_shift q (- s) l) as (l' & -> & Hl' & Hg');
      [lia|unfold s; lia|].
    assert (Hh : 2 ^ 52 <= q / 2 < 2 ^ 53).
    { change (2 ^ 53) with (2 * 2 ^ 52) in Hge.
      change (2 ^ 54) with (2 * 2 ^ 53) in Hq.
      split; [apply Z.div_le_lower_bound; lia|apply Z.div_lt_upper_bound; lia]. }
    rewrite round_normal by (unfold s; lia).
    eexists. split; [reflexivity|].
    rewrite Z.compare_lt_iff. replace (- (- s + 1)) with (s - 1) by lia.
    assert (HN' : N = 2 * (a * 2 ^ (s - 1))).
    { unfold N. replace s with (1 + (s - 1)) at 1 by lia.
      rewrite Z.pow_add_r by (unfold s; lia). change (2 ^ 1) with 2. lia. }
    pose proof (Z.div_mod q 2 ltac:(lia)) as Hq2.
    pose proof (Z.mod_pos_bound q 2 ltac:(lia)) as Hr2.
    set (N' := a * 2 ^ (s - 1)) in *.
    assert (Hs : 0 <= s - 1) by (unfold s; lia).
    assert (Hb1 : q / 2 * 1000000 <= N' < (q / 2 + 1) * 1000000) by lia.
    assert (Hq52 : 2 ^ 52 <= q / 2) by lia.
    assert (Hm1 : round_nearest_even (q / 2) l' = q / 2
                  \/ (round_nearest_even (q / 2) l' = q / 2 + 1
                      /\ q / 2 * 1000000 < N')).
    { destruct (round_nearest_even_bounds (q / 2) l') as [?|[? Hne]]; auto.
      right. split; [assumption|].
      destruct (Hl' Hne) as [Ho|Hi].
      - pose proof (Zmod_odd q) as Hmo. rewrite Ho in Hmo. lia.
      - specialize (Hl Hi). lia. }
    apply (rounded_quotient_decides a T (s - 1) (q / 2) _ HT Hs Hb1 Hq52 Hm1).
    fold N'. intros Hup. pose proof (Zmod_odd q) as Hmo.
    rewrite Hg'; [reflexivity| |].
    + destruct (Z.odd q); [reflexivity|lia].
    + destruct (Z.odd q); [|lia]. apply Hnz. lia.
Qed.

(** The age test of the sweep is exact to the microsecond for thresholds of
    up to 4,772,185 hours ([2 ^ 34] seconds, some 544 years).  The bound on
    the age holds for every two [datetime] values, whose years run from 1
    to 9999. *)
Lemma age_exceeds_exact now t H :
  0 <= H <= 4772185 -> now - t < 2 ^ 62 ->
  age_exceeds now t H = (H * 3600 * 1000000 <? now - t).
Proof.
  intros HH Ha. unfold age_exceeds. cbn [num_compare].
  assert (HT : 0 <= H * 3600 < 2 ^ 34)
    by (change (2 ^ 34) with 17179869184; lia).
  set (T := H * 3600) in *. set (a := now - t) in *. clearbody T a.
  destruct (Z_lt_le_dec 0 a) as [Hpos|Hneg].
  - destruct (total_seconds_compare a T) as (c & -> & Hc); [lia|lia|].
    cbn [option_map]. destruct (Z.ltb_spec (T * 1000000) a) as [Hlt|Hge].
    + apply Hc in Hlt. subst c. reflexivity.
    + destruct c; try reflexivity. assert (T * 1000000 < a) by now apply Hc. lia.
  - replace (T * 1000000 <? a) with false by (symmetry; apply Z.ltb_ge; lia).
    unfold total_seconds. destruct a as [|p|p]; try lia.
    + cbn. destruct (T ?= 0) eqn:E; try reflexivity. rewrite Z.compare_lt_iff in E. lia.
    + cbn [float_of_exact SFdiv xorb].
      destruct (SFdiv_core_binary prec emax (Z.pos p) 0 1000000 0) as [[mz ez] lz].
      pose proof (binary_round_aux_sign mz ez lz) as Hsign.
      destruct (binary_round_aux prec emax true mz ez lz) as [s|s| |s m e];
        try destruct s; try contradiction; try reflexivity.
      * cbn. destruct (T ?= 0) eqn:E; try reflexivity.
        rewrite Z.compare_lt_iff in E. lia.
      * cbn. destruct (T ?= 0) eqn:E; try reflexivity.
        rewrite Z.compare_lt_iff in E. lia.
      * cbn [compare_Z_float]. destruct (0 <=? e) eqn:Ee; cbn [option_map cmpop_holds].
        -- rewrite Z.shiftl_mul_pow2 by (apply Z.leb_le in Ee; lia).
           assert (0 < 2 ^ e) by (apply Z.pow_pos_nonneg; [lia|apply Z.leb_le in Ee; lia]).
           destruct (T ?= Z.neg m * 2 ^ e) eqn:E; try reflexivity.
           rewrite Z.compare_lt_iff in E. nia.
        -- rewrite Z.shiftl_mul_pow2 by (apply Z.leb_gt in Ee; lia).
           assert (0 < 2 ^ (- e)) by (apply Z.pow_pos_nonneg; [lia|apply Z.leb_gt in Ee; lia]).
           destruct (T * 2 ^ (- e) ?= Z.neg m) eqn:E; try reflexivity.
           rewrite Z.compare_lt_iff in E. nia.
Qed.

(** C7, as the code has it: after the sweep a stored document with a naive
    timestamp whose age in seconds, the double that [total_seconds()]
    returns, is above [max_age_hours * 3600] is absent when the system lets
    it be unlinked, and is there unchanged when the unlink is refused, the
    failure being swallowed; a document whose age is not above the
    threshold is there unchanged.  For a threshold from 0 to 4,772,185
    hours the age is above the threshold exactly when the document is older
    than [max_age_hours], to the microsecond.  An entry that cannot be
    opened, a file that is not JSON and a document on which the age
    computation raises are there unchanged as well; what happens to one
    entry does not depend on the others, and a file that is not a search
    document is not touched.  The sweep itself always returns. *)
Theorem sweep_removes_the_expired `{PyRuntime} `{FileSystem}
    (now max_age_hours : Z) (dir : gmap string file) (s : string) :
  (forall doc ts t,
     dir !! file_name s = Some (JsonFile doc) ->
     py_item doc "timestamp" = Ok (VStr ts) ->
     fromisoformat ts = Ok (naive t) ->
     cleanup_old_searches now max_age_hours dir !! file_name s
     = (if age_exceeds now t max_age_hours
        then match unlink_error (file_name s) with
             | None => None
             | Some _ => Some (JsonFile doc)
             end
        else Some (JsonFile doc))
     /\ (0 <= max_age_hours <= 4772185 -> now - t < 2 ^ 62 ->
         age_exceeds now t max_age_hours
         = (max_age_hours * 3600 * 1000000 <? now - t)))
  /\ (forall e,
        dir !! file_name s = Some (Locked e) ->
        cleanup_old_searches now max_age_hours dir !! file_name s
        = Some (Locked e))
  /\ (forall text,
        dir !! file_name s = Some (Corrupt text) ->
        cleanup_old_searches now max_age_hours dir !! file_name s
        = Some (Corrupt text))
  /\ (forall f e,
        dir !! file_name s = Some f ->
        file_verdict (naive now) max_age_hours f = Raise e ->
        cleanup_old_searches now max_age_hours dir !! file_name s = Some f)
  /\ (dir !! file_name s = None ->
        cleanup_old_searches now max_age_hours dir !! file_name s = None)
  /\ (forall name,
        glob_match name = false ->
        cleanup_old_searches now max_age_hours dir !! name = dir !! name).
Proof.
  split; [|split; [|split; [|split; [|split]]]].
  - intros doc ts t Hdir Hts Hiso. split; [|apply age_exceeds_exact].
    rewrite cleanup_lookup, glob_match_file_name, Hdir. cbn [after_sweep].
    rewrite (file_verdict_timestamp _ _ _ _ _ Hts Hiso).
    now destruct (age_exceeds now t max_age_hours).
  - intros e Hdir.
    rewrite cleanup_lookup, glob_match_file_name, Hdir. reflexivity.
  - intros text Hdir.
    rewrite cleanup_lookup, glob_match_file_name, Hdir. reflexivity.
  - intros f e Hdir He.
    rewrite cleanup_lookup, glob_match_file_name, Hdir. cbn [after_sweep].
    now rewrite He.
  - intros Hdir. rewrite cleanup_lookup, glob_match_file_name, Hdir.
    reflexivity.
  - intros name Hm. rewrite cleanup_lookup, Hm. reflexivity.
Qed.

(** The horizon of one day: a document is swept one microsecond past
    twenty-four hours and not before. *)
Example one_day_horizon :
  age_exceeds (24 * 3600 * 1000000 + 1) 0 24 = true
  /\ age_exceeds (24 * 3600 * 1000000) 0 24 = false
  /\ age_exceeds (23 * 3600 * 1000000) 0 24 = false.
Proof. vm_compute. auto. Qed.

(** The bound of 4,772,185 hours is the last one: an hour more and the
    microsecond past the threshold is lost in the rounding. *)
Example last_exact_threshold :
  age_exceeds (4772185 * 3600 * 1000000 + 1) 0 4772185 = true
  /\ age_exceeds (4772186 * 3600 * 1000000 + 1) 0 4772186 = false.
Proof. vm_compute. auto. Qed.

(** C7 as stated fails on an age the double cannot resolve: a document
    stored five million hours and one microsecond ago is older than five
    million hours, and the sweep, in which no unlink is refused, keeps it. *)
Lemma sweep_keeps_a_document_one_microsecond_too_old :
  let now := 5000000 * 3600 * 1000000 + 1 in
  exists dir doc,
    save_search_results 0 "old" (VDict []) ∅ = Ok dir
    /\ dir !! file_name "old" = Some (JsonFile doc)
    /\ py_item doc "timestamp" = Ok (VStr (isoformat 0))
    /\ fromisoformat (isoformat 0) = Ok (naive 0)
    /\ now - 0 > 5000000 * 3600 * 1000000
    /\ unlink_error (file_name "old") = None
    /\ cleanup_old_searches now 5000000 dir !! file_name "old"
       = Some (JsonFile doc).
Proof.
  cbv zeta.
  assert (E : save_search_results 0 "old" (VDict []) ∅
              = Ok {[ file_name "old" :=
                        JsonFile (VDict [("timestamp", VStr (isoformat 0));
                                         ("results", VDict [])]) ]})
    by reflexivity.
  eexists _, _. split; [exact E|].
  split; [exact (lookup_saved _ _ _ _ _ E)|].
  split; [reflexivity|]. split; [reflexivity|]. split; [lia|].
  split; [reflexivity|].
  rewrite cleanup_lookup, glob_match_file_name, (lookup_saved _ _ _ _ _ E).
  vm_compute. reflexivity.
Qed.

(** ** The filter on well-formed input raises nothing *)

Section FilterTotal.
Context {rt : PyRuntime} {fs : FileSystem}.

Lemma py_compare_numbers op a b :
  is_number a = true -> is_number b = true -> exists r, py_compare op a b = Ok r.
Proof.
  destruct a as [|x|x|x|x|x|x], b as [|y|y|y|y|y|y];
    try discriminate; simpl; eauto.
Qed.

Lemma optional_lookup p k d v :
  optional p k d = true -> dict_lookup k d = Some v -> p v = true.
Proof. unfold optional. intros Hp E. now rewrite E in Hp. Qed.

Lemma well_typed_inv filters :
  well_typed filters = true ->
  optional is_number "max_price" filters = true
  /\ optional is_number "max_duration" filters = true
  /\ optional is_number "max_stops" filters = true
  /\ optional is_list "preferred_airlines" filters = true
  /\ optional is_str_pair "departure_time_range" filters = true.
Proof.
  unfold well_typed. rewrite !andb_true_iff. tauto.
Qed.

Lemma flight_ok_inv f :
  flight_ok f = true ->
  exists d x n k segments dep t,
    f = VDict d
    /\ dict_lookup "price" d = Some (VFloat x)
    /\ dict_lookup "total_duration" d = Some (VInt n)
    /\ dict_lookup "stops" d = Some (VInt k)
    /\ dict_lookup "segments" d = Some (VList segments)
    /\ forallb segment_ok segments = true
    /\ dict_lookup "departure" d = Some (VDict dep)
    /\ dict_lookup "time" dep = Some (VStr t).
Proof.
  destruct f as [| | | | | |d]; try discriminate. simpl.
  rewrite !andb_true_iff. intros ((((Hp & Hd) & Hs) & Hseg) & Hdep).
  destruct (dict_lookup "price" d) as [[| | |x| | |]|] eqn:E1;
    try discriminate.
  destruct (dict_lookup "total_duration" d) as [[| |n| | | |]|] eqn:E2;
    try discriminate.
  destruct (dict_lookup "stops" d) as [[| |k| | | |]|] eqn:E3;
    try discriminate.
  destruct (dict_lookup "segments" d) as [[| | | | |segments|]|] eqn:E4;
    try discriminate.
  destruct (dict_lookup "departure" d) as [[| | | | | |dep]|] eqn:E5;
    try discriminate.
  destruct (dict_lookup "time" dep) as [[| | | |t| |]|] eqn:Et;
    try discriminate.
  exists d, x, n, k, segments, dep, t. repeat split; auto.
Qed.

Lemma airline_set_total segments seen :
  forallb segment_ok segments = true ->
  exists airlines, airline_set segments seen = Ok airlines.
Proof.
  revert seen. induction segments as [|s segments IH]; simpl; intros seen H.
  - eauto.
  - apply andb_true_iff in H as [Hs Hrest].
    destruct s as [| | | | | |d]; try discriminate. simpl in Hs.
    cbn [py_item]. unfold dict_item.
    destruct (dict_lookup "airline" d) as [[| | | |a| |]|]; try discriminate.
    cbn [bind py_hashable negb].
    destruct (existsb (py_eq (VStr a)) seen); auto.
Qed.

Lemma any_preferred_total filters preferred airlines :
  dict_lookup "preferred_airlines" filters = Some (VList preferred) ->
  exists b, any_preferred filters airlines = Ok b.
Proof.
  intros Hp. induction airlines as [|a airlines IH]; simpl; [eauto|].
  unfold dict_item. rewrite Hp. cbn [bind py_contains].
  destruct (existsb (py_eq a) preferred); eauto.
Qed.

(** On a well-formed flight every check of a well-typed specification
    answers. *)
Lemma keep_flight_total filters f :
  well_typed filters = true -> flight_ok f = true ->
  exists b, keep_flight filters f = Ok b.
Proof.
  intros Hw Hf.
  apply well_typed_inv in Hw as (Hmp & Hmd & Hms & Hpa & Hdt).
  apply flight_ok_inv in Hf
    as (d & x & n & k & segments & dep & t
        & -> & Hprice & Hdur & Hstops & Hsegs & Hok & Hdep & Htime).
  assert (H1 : exists b, check_price filters (VDict d) = Ok b).
  { unfold check_price, dict_has, dict_item. cbn [py_get bind]. unfold dict_get.
    rewrite Hprice. cbn [py_float bind].
    destruct (dict_lookup "max_price" filters) as [P|] eqn:EP; [|eauto].
    cbn [bind].
    destruct (py_compare_numbers OpGt (VFloat x) P eq_refl
                (optional_lookup _ _ _ _ Hmp EP)) as [r Hr].
    unfold py_gt. rewrite Hr. simpl. eauto. }
  assert (H2 : exists b, check_duration filters (VDict d) = Ok b).
  { unfold check_duration, dict_has, dict_item. cbn [py_get bind]. unfold dict_get.
    rewrite Hdur. cbn [py_int bind].
    destruct (dict_lookup "max_duration" filters) as [P|] eqn:EP; [|eauto].
    cbn [bind].
    destruct (py_compare_numbers OpGt (VInt n) P eq_refl
                (optional_lookup _ _ _ _ Hmd EP)) as [r Hr].
    unfold py_gt. rewrite Hr. simpl. eauto. }
  assert (H3 : exists b, check_stops filters (VDict d) = Ok b).
  { unfold check_stops, dict_has, dict_item. cbn [py_get bind]. unfold dict_get.
    rewrite Hstops.
    destruct (dict_lookup "max_stops" filters) as [P|] eqn:EP; [|eauto].
    cbn [bind].
    destruct (py_compare_numbers OpGt (VInt k) P eq_refl
                (optional_lookup _ _ _ _ Hms EP)) as [r Hr].
    unfold py_gt. rewrite Hr. simpl. eauto. }
  assert (H4 : exists b, check_airlines filters (VDict d) = Ok b).
  { unfold check_airlines, dict_has.
    destruct (dict_lookup "preferred_airlines" filters) as [P|] eqn:EP; [|eauto].
    pose proof (optional_lookup _ _ _ _ Hpa EP) as HP.
    destruct P as [| | | | |preferred|]; try discriminate HP.
    cbn [py_item]. unfold dict_item. rewrite Hsegs. cbn [bind py_iter].
    destruct (airline_set_total segments [] Hok) as [airlines ->]. cbn [bind].
    eapply any_preferred_total; eauto. }
  assert (H5 : exists b, check_departure_time filters (VDict d) = Ok b).
  { unfold check_departure_time, dict_has, dict_item.
    destruct (dict_lookup "departure_time_range" filters) as [P|] eqn:EP;
      [|eauto].
    pose proof (optional_lookup _ _ _ _ Hdt EP) as HP.
    destruct P as [| | | | |[|[| | | |a| |] [|[| | | |b| |] [|]]]|];
      try discriminate HP.
    cbn [bind unpack_pair py_iter py_item]. unfold dict_item.
    rewrite Hdep. cbn [bind py_item]. unfold dict_item. rewrite Htime.
    cbn [bind]. unfold and_then, py_le. simpl.
    destruct (a ?= t)%string; eauto. }
  destruct H1 as [b1 E1], H2 as [b2 E2], H3 as [b3 E3],
           H4 as [b4 E4], H5 as [b5 E5].
  unfold keep_flight, and_then. rewrite E1, E2, E3, E4, E5. simpl.
  destruct b1, b2, b3, b4; simpl; eauto.
Qed.

Lemma filter_loop_total filters items :
  well_typed filters = true -> Forall (fun f => flight_ok f = true) items ->
  exists kept, filter_loop filters items = Ok kept.
Proof.
  intros Hw Hall. induction Hall as [|f items Hf Hall IH]; simpl; [eauto|].
  destruct (keep_flight_total _ _ Hw Hf) as [b ->].
  destruct IH as [kept ->]. simpl. eauto.
Qed.

(** The keys of well-formed flights are of one kind each. *)
Lemma apply_sorting_total filters kept :
  Forall (fun f => flight_ok f = true) kept ->
  exists sorted, apply_sorting filters kept = Ok sorted.
Proof.
  intros Hall.
  destruct (sort_key_of filters) as [key|] eqn:Ek;
    [|rewrite (apply_sorting_none _ _ Ek); eauto].
  rewrite (apply_sorting_key _ _ _ Ek).
  unfold sort_key_of in Ek.
  destruct (dict_lookup "sort_by" filters) as [sk|]; [|discriminate].
  destruct (str_eq sk "price"); [injection Ek as <-|].
  { apply (list_sort_total py_lt (fun k => exists x, k = VFloat x)).
    - intros k1 k2 [x ->] [y ->]. simpl. eauto.
    - eapply Forall_impl; [exact Hall|]. intros f Hf.
      apply flight_ok_inv in Hf as (d & x & _ & _ & _ & _ & _ & -> & Hp & _).
      exists (VFloat x). split; [|eauto].
      unfold price_key. cbn [py_get bind]. unfold dict_get. now rewrite Hp. }
  destruct (str_eq sk "duration"); [injection Ek as <-|].
  { apply (list_sort_total py_lt (fun k => exists n, k = VInt n)).
    - intros k1 k2 [x ->] [y ->]. simpl. eauto.
    - eapply Forall_impl; [exact Hall|]. intros f Hf.
      apply flight_ok_inv in Hf
        as (d & _ & n & _ & _ & _ & _ & -> & _ & Hd & _).
      exists (VInt n). split; [|eauto].
      unfold duration_key. cbn [py_get bind]. unfold dict_get. now rewrite Hd. }
  destruct (str_eq sk "departure_time"); [injection Ek as <-|discriminate].
  apply (list_sort_total py_lt (fun k => exists t, k = VStr t)).
  - intros k1 k2 [x ->] [y ->]. simpl. eauto.
  - eapply Forall_impl; [exact Hall|]. intros f Hf.
    apply flight_ok_inv in Hf
      as (d & _ & _ & _ & _ & dep & t & -> & _ & _ & _ & _ & _ & Hdep & Ht).
    exists (VStr t). split; [|eauto].
    unfold departure_time_key. cbn [py_item]. unfold dict_item.
    rewrite Hdep. cbn [bind py_item]. unfold dict_item. now rewrite Ht.
Qed.

(** For a stored set of well-formed flights and a well-typed specification
    the filter returns its four-key result. *)
Theorem filter_flights_total env (dir : gmap string file) filters doc flights items :
  dir !! filter_file filters = Some (JsonFile doc) ->
  py_truthy doc = true ->
  stored_flights doc = Ok flights ->
  py_iter flights = Ok items ->
  Forall (fun f => flight_ok f = true) items ->
  well_typed filters = true ->
  exists sorted,
    Permutation sorted (List.filter (survives filters) items)
    /\ filter_flights env dir filters
       = Ok [("filtered_count", Json (VInt (Z.of_nat (length sorted))));
             ("total_count", Json (VInt (Z.of_nat (length items))));
             ("flights", Json (VList sorted));
             ("storage", Path [TEMP_FLIGHT_SEARCH_DIR env; filter_file filters])].
Proof.
  intros Hdir Ht Hfl Hit Hall Hw.
  destruct (filter_loop_total _ _ Hw Hall) as [kept Hloop].
  pose proof (filter_loop_filter _ _ _ Hloop) as Hkept.
  assert (Hk : Forall (fun f => flight_ok f = true) kept).
  { subst kept. apply List.Forall_forall. intros f Hin.
    apply filter_In in Hin as [Hin _].
    exact (proj1 (List.Forall_forall _ _) Hall f Hin). }
  destruct (apply_sorting_total filters kept Hk) as [sorted Hsort].
  exists sorted. split.
  - rewrite <- Hkept. eapply apply_sorting_Permutation; eauto.
  - eapply filter_flights_stages; eauto.
Qed.

End FilterTotal.

(** ** From the search to the filter *)

Section SearchThenFilter.
Context {rt : PyRuntime} {fs : FileSystem}.

Lemma transform_segment_ok seg s :
  transform_segment seg = Ok s ->
  provider_segment_ok seg = true ->
  segment_ok s = true
  /\ exists a t, py_item s "departure_airport" = Ok (VDict a)
       /\ dict_lookup "time" a = Some (VStr t).
Proof.
  destruct seg as [| | | | | |d]; try discriminate. simpl.
  intros E Hok. apply andb_true_iff in Hok as [Ha Hd].
  unfold transform_segment in E. cbn [py_get py_item bind] in E.
  unfold dict_item in E.
  destruct (dict_lookup "departure_airport" d) as [[| | | | | |a]|];
    try discriminate Hd.
  cbn [bind py_item] in E. unfold dict_item in E.
  destruct (dict_lookup "time" a) as [[| | | |t| |]|]; try discriminate Hd.
  destruct (dict_get d "airline" (VStr EmptyString)) as [| | | |al| |] eqn:Eal;
    try discriminate Ha.
  inv_bind. split; [reflexivity|].
  eexists _, t. split; reflexivity.
Qed.

Lemma mapM_transform_segment_ok segs out :
  mapM transform_segment segs = Ok out ->
  forallb provider_segment_ok segs = true ->
  forallb segment_ok out = true
  /\ forall s, list_first out = Ok s ->
       exists a t, py_item s "departure_airport" = Ok (VDict a)
         /\ dict_lookup "time" a = Some (VStr t).
Proof.
  revert out; induction segs as [|seg segs IH]; simpl; intros out E Hok;
    inv_bind.
  - split; [reflexivity | discriminate].
  - apply andb_true_iff in Hok as [Hseg Hrest].
    destruct (transform_segment_ok _ _ E0 Hseg) as [Hs Hfirst].
    destruct (IH _ E1 Hrest) as [Hall _].
    split; [simpl; now rewrite Hs, Hall|].
    simpl. now intros s [= <-].
Qed.

(** The transform of such an itinerary is a well-formed flight. *)
Lemma transform_itinerary_ok sp it f :
  transform_itinerary sp it = Ok (Some f) ->
  provider_itinerary_ok it = true ->
  flight_ok f = true.
Proof.
  unfold transform_itinerary. intros E Hok. inv_bind.
  match goal with
  | Hg : py_get it "flights" VNone = Ok _ |- _ =>
      apply py_get_Ok_dict in Hg as (d & -> & ->)
  end.
  simpl in Hok.
  destruct (py_truthy (dict_get d "flights" VNone)) eqn:Ht; simpl in E;
    inv_bind; [|discriminate].
  cbn [py_item] in *. unfold dict_item, dict_get in *.
  destruct (dict_lookup "flights" d) as [fl|] eqn:Efl;
    [|discriminate Ht].
  inv_bind.
  match goal with
  | Hfl : dict_lookup "flights" d = Some ?v |- _ =>
      destruct v as [|b|n|x|s|segs|d0]; simpl in Hok, Ht; try discriminate;
        try (destruct b; discriminate); try (destruct (n =? 0); discriminate);
        try (destruct x; discriminate); try (destruct s; discriminate);
        try (destruct d0; discriminate)
  end.
  match goal with
  | Hi : py_iter (VList segs) = Ok _ |- _ => simpl in Hi; injection Hi as <-
  end.
  match goal with
  | Hm : mapM transform_segment segs = Ok ?out |- _ =>
      destruct (mapM_transform_segment_ok _ _ Hm Hok) as [Hall Hfirst]
  end.
  match goal with
  | H1 : list_first ?out = Ok ?s1, H2 : py_item ?s1 "departure_airport" = Ok ?a,
    H3 : py_item ?a "time" = Ok ?t |- _ =>
      destruct (Hfirst _ H1) as (a' & t' & Ha' & Ht');
      rewrite Ha' in H2; injection H2 as <-;
      cbn [py_item] in H3; unfold dict_item in H3; rewrite Ht' in H3;
      injection H3 as <-
  end.
  repeat match goal with
  | H1 : ?t = Ok ?a, H2 : ?t = Ok ?b |- _ =>
      rewrite H1 in H2; injection H2 as ?; subst
  end.
  simpl. rewrite Hall. reflexivity.
Qed.

Lemma transform_all_ok sp its flights :
  transform_all sp its = Ok flights ->
  Forall (fun it => provider_itinerary_ok it = true) its ->
  Forall (fun f => flight_ok f = true) flights.
Proof.
  intros E Hall. apply List.Forall_forall. intros f Hin.
  destruct (transform_all_In _ _ _ _ E Hin) as (it & Hit & Hf).
  eapply transform_itinerary_ok; [exact Hf|].
  exact (proj1 (List.Forall_forall _ _) Hall it Hit).
Qed.

(** X22: from the search to the filter.  After a successful search on a
    payload whose segments name their airline and their departure time by
    strings, a filter on the identifier the search returned, with criteria
    typed as the docstring says, raises nothing and answers with its
    four-key result, its [total_count] the number of itineraries that were
    not dropped. *)
Theorem filter_after_search env out dir dep arr date ret cur resp dir' its filters :
  search_flights env out dir dep arr date ret cur = (resp, dir') ->
  response_get "status" resp = Some (Json (VStr "success")) ->
  (forall key api,
     SERPAPI_KEY env = Some key ->
     google_search out
       (provider_params key (make_search_params dep arr date ret)) = Ok api ->
     (all <- py_add (dict_get api "best_flights" (VList []))
                    (dict_get api "other_flights" (VList [])) ;;
      py_iter all) = Ok its) ->
  Forall (fun it => provider_itinerary_ok it = true) its ->
  dict_lookup "search_id" filters = Some (VStr (uuid4 out)) ->
  well_typed filters = true ->
  exists sorted,
    filter_flights env dir' filters
    = Ok [("filtered_count", Json (VInt (Z.of_nat (length sorted))));
          ("total_count",
            Json (VInt (Z.of_nat
              (length (List.filter (fun it => negb (dropped it)) its)))));
          ("flights", Json (VList sorted));
          ("storage", Path [TEMP_FLIGHT_SEARCH_DIR env; filter_file filters])].
Proof.
  intros E Hs Hits Hprov Hid Hw.
  destruct (search_flights_success _ _ _ _ _ _ _ _ _ _ E Hs)
    as (key & api & its' & flights & Hkey & Hg & Hits' & Hall & Hsave & ->).
  rewrite (Hits _ _ Hkey Hg) in Hits'. injection Hits' as <-.
  pose proof (transform_all_ok _ _ _ Hall Hprov) as Hok.
  assert (Hfile : filter_file filters = file_name (uuid4 out)).
  { unfold filter_file, dict_get. now rewrite Hid. }
  assert (Hlook : exists doc, dir' !! filter_file filters = Some (JsonFile doc)
                    /\ py_truthy doc = true
                    /\ stored_flights doc = Ok (VList flights))
    by (rewrite Hfile, (lookup_saved _ _ _ _ _ Hsave);
        eexists; repeat split; reflexivity).
  destruct Hlook as (doc & Hlook & Ht & Hfl).
  destruct (filter_flights_total env _ filters doc _ flights
              Hlook Ht Hfl eq_refl Hok Hw) as (sorted & _ & Hres).
  exists sorted. rewrite Hres.
  now rewrite (transform_all_length _ _ _ Hall).
Qed.

End SearchThenFilter.

(** ** The properties at the sample searches *)


(** C3 on the directory of the first search: without
    [TEMP_FLIGHT_SEARCH_DIR] the tool raises; an identifier that was never
    stored is answered by the error result; one of 300 bytes makes
    [exists()] raise; and the stored search is answered with the four
    keys. *)
Lemma filter_result_shape_witness :
  filter_flights_call bare_process [("search_id", VStr "6f1c")]
  = TypeError "expected str, bytes or os.PathLike object, not NoneType"
  /\ filter_flights_call sample_process [("search_id", VStr "0000")]
     = Ok [("status", Json (VStr "error"));
           ("error",
             Json (VStr "No search results found for the provided search ID"))]
  /\ (exists msg,
        filter_flights_call sample_process [("search_id", VStr long_id)]
        = Raise (Exn "OSError" msg))
  /\ filter_flights_call sample_process [("search_id", VStr "6f1c")]
     = Ok [("filtered_count", Json (VInt 1)); ("total_count", Json (VInt 1));
           ("flights", Json (VList [sample_flight]));
           ("storage", Path ["/tmp/flights"; "search_6f1c.json"])].
Proof.
  assert (Hinit : FlightSearchStorage.__init__ sample_process
                  = Ok ("/tmp/flights", sample_dir)) by reflexivity.
  split; [|split; [|split]].
  - exact (proj1 (filter_result_shape bare_process _) _ eq_refl).
  - refine (proj1 (proj1 (proj2 (filter_result_shape sample_process _)
                            _ _ Hinit) _) _); reflexivity.
  - eexists.
    refine (proj2 (proj1 (proj2 (filter_result_shape sample_process _)
                            _ _ Hinit) _) _ _ eq_refl);
      vm_compute; reflexivity.
  - assert (E : exists res,
              filter_flights_call sample_process [("search_id", VStr "6f1c")]
              = Ok res) by (eexists; vm_compute; reflexivity).
    destruct E as [res E]. rewrite E.
    destruct (proj1 (proj2 (proj2 (filter_result_shape sample_process _)
                              _ _ Hinit)) _ res
                (eq_refl : sample_dir !! filter_file [("search_id", VStr "6f1c")]
                           = Some (JsonFile _)) eq_refl E)
      as (flights & items & sorted & Hfl & Hit & Hperm & ->).
    vm_compute in Hfl. injection Hfl as <-.
    vm_compute in Hit. injection Hit as <-.
    vm_compute in Hperm. symmetry in Hperm.
    apply Permutation_length_1_inv in Hperm as ->.
    reflexivity.
Defined.

(** C6 on the stored flight of the first search: it leaves O'Hare at 08:00
    with its first segment and reaches Los Angeles at 13:10 with its
    second. *)
Lemma derived_fields_mirror_segments_witness :
  _transform_flight_data "6f1c" 1000000 sample_payload
    (make_search_params "ORD" "LAX" "2025-06-01" None) = Ok sample_record
  /\ py_item sample_record "flights" = Ok (VList [sample_flight])
  /\ In sample_flight [sample_flight]
  /\ py_item sample_flight "departure"
     = Ok (VDict [("airport", airport "O'Hare" "ORD" "2025-06-01 08:00");
                  ("time", VStr "2025-06-01 08:00")])
  /\ py_item sample_flight "arrival"
     = Ok (VDict [("airport", airport "Los Angeles" "LAX" "2025-06-01 13:10");
                  ("time", VStr "2025-06-01 13:10")])
  /\ exists first rest init last dep arr,
       py_item sample_flight "segments" = Ok (VList (first :: rest))
       /\ first :: rest = init ++ [last]
       /\ py_item sample_flight "departure" = Ok dep
       /\ end_view first "departure_airport" = Ok dep
       /\ py_item sample_flight "arrival" = Ok arr
       /\ end_view last "arrival_airport" = Ok arr.
Proof.
  assert (E : _transform_flight_data "6f1c" 1000000 sample_payload
                (make_search_params "ORD" "LAX" "2025-06-01" None)
              = Ok sample_record) by (vm_compute; reflexivity).
  assert (F : py_item sample_record "flights" = Ok (VList [sample_flight]))
    by reflexivity.
  split; [exact E|]. split; [exact F|]. split; [left; reflexivity|].
  split; [reflexivity|]. split; [reflexivity|].
  exact (derived_fields_mirror_segments _ _ _ _ _ _ _ E F (or_introl eq_refl)).
Defined.

(** C7 on a directory with a document stored at time 0, swept 25 hours
    later: with 24 hours to keep the document is removed, unless the
    directory may not be written to; with 48 hours to keep it stays; the
    file that is not JSON and the entry that cannot be opened stay. *)
Lemma sweep_removes_the_expired_witness :
  let now := 25 * 3600 * 1000000 in
  cleanup_old_searches now 24 aged_dir !! file_name "old" = None
  /\ cleanup_old_searches (fs := read_only) now 24 aged_dir !! file_name "old"
     = aged_dir !! file_name "old"
  /\ cleanup_old_searches now 48 aged_dir !! file_name "old"
     = aged_dir !! file_name "old"
  /\ cleanup_old_searches now 24 aged_dir !! file_name "bad"
     = Some (Corrupt "{")
  /\ cleanup_old_searches now 24 aged_dir !! file_name "dir"
     = aged_dir !! file_name "dir".
Proof.
  cbv zeta.
  assert (Hold : aged_dir !! file_name "old"
                 = Some (JsonFile (VDict [("timestamp", VStr "0");
                                          ("results", VDict [])])))
    by (vm_compute; reflexivity).
  assert (Hiso : fromisoformat "0" = Ok (naive 0)) by (vm_compute; reflexivity).
  split; [|split; [|split; [|split]]].
  - rewrite (proj1 (proj1 (sweep_removes_the_expired
                             (25 * 3600 * 1000000) 24 aged_dir "old")
                      _ "0" 0 Hold eq_refl Hiso)).
    reflexivity.
  - rewrite (proj1 (proj1 (sweep_removes_the_expired (H0 := read_only)
                             (25 * 3600 * 1000000) 24 aged_dir "old")
                      _ "0" 0 Hold eq_refl Hiso)).
    rewrite Hold. reflexivity.
  - rewrite (proj1 (proj1 (sweep_removes_the_expired
                             (25 * 3600 * 1000000) 48 aged_dir "old")
                      _ "0" 0 Hold eq_refl Hiso)).
    rewrite Hold. reflexivity.
  - apply (proj1 (proj2 (proj2 (sweep_removes_the_expired
                                  (25 * 3600 * 1000000) 24 aged_dir "bad")))).
    vm_compute. reflexivity.
  - rewrite (proj1 (proj2 (sweep_removes_the_expired
                             (25 * 3600 * 1000000) 24 aged_dir "dir")) _
               (eq_refl : aged_dir !! file_name "dir" = Some (Locked _))).
    reflexivity.
Defined.


(** C5 on the second search, sorted by price from the highest: United and
    Delta, both at 300, stay in their stored order. *)
Lemma sorting_is_stable_witness :
  filter_flights sample_env fares_dir by_price_descending
  = Ok [("filtered_count", Json (VInt 3)); ("total_count", Json (VInt 3));
        ("flights", Json (VList [fare_UA; fare_DL; fare_AA]));
        ("storage", Path ["/tmp/flights"; "search_9b2e.json"])]
  /\ fares_dir !! filter_file by_price_descending = Some (JsonFile fares_doc)
  /\ (fl <- stored_flights fares_doc ;; py_iter fl)
     = Ok [fare_UA; fare_AA; fare_DL]
  /\ sort_key_of by_price_descending = Some price_key
  /\ same_key price_key fare_UA fare_DL
  /\ precedes fare_UA fare_DL [fare_UA; fare_AA; fare_DL]
  /\ precedes fare_UA fare_DL [fare_UA; fare_DL; fare_AA].
Proof.
  refine ((fun E Hdir Hit Hkey Hsame Hp =>
             conj E (conj Hdir (conj Hit (conj Hkey (conj Hsame (conj Hp _))))))
          _ _ _ _ _ _).
  - eapply (sorting_is_stable sample_env fares_dir by_price_descending price_key
              Floats _ fares_doc _ [fare_UA; fare_AA; fare_DL] _
              fare_UA fare_DL E).
    + reflexivity.
    + exact Hdir.
    + vm_compute. reflexivity.
    + vm_compute. reflexivity.
    + exact Hkey.
    + intros f Hin _. simpl in Hin.
      destruct Hin as [<-|[<-|[<-|[]]]]; eexists; split; vm_compute; reflexivity.
    + exact Hp.
    + vm_compute. reflexivity.
    + vm_compute. reflexivity.
    + exact Hsame.
  - vm_compute. reflexivity.
  - vm_compute. reflexivity.
  - vm_compute. reflexivity.
  - reflexivity.
  - do 2 eexists. split; [vm_compute; reflexivity|].
    split; [vm_compute; reflexivity|]. split; vm_compute; reflexivity.
  - apply precedes_here. right. left. reflexivity.
Defined.

(** C10 on the second search, asked to sort by [stops]: the flights come
    back in their stored order. *)
Lemma unknown_sort_key_ignored_witness :
  dict_lookup "sort_by" by_stops = Some (VStr "stops")
  /\ fares_dir !! filter_file by_stops = Some (JsonFile fares_doc)
  /\ filter_loop by_stops [fare_UA; fare_AA; fare_DL]
     = Ok [fare_UA; fare_AA; fare_DL]
  /\ filter_flights sample_env fares_dir by_stops
     = Ok [("filtered_count", Json (VInt 3)); ("total_count", Json (VInt 3));
           ("flights", Json (VList [fare_UA; fare_AA; fare_DL]));
           ("storage", Path ["/tmp/flights"; "search_9b2e.json"])].
Proof.
  refine ((fun Hsb Hdir Hloop => conj Hsb (conj Hdir (conj Hloop _))) _ _ _).
  - refine (proj2 (proj2
      (unknown_sort_key_ignored sample_env fares_dir by_stops (VStr "stops")
         fares_doc _ [fare_UA; fare_AA; fare_DL] [fare_UA; fare_AA; fare_DL]
         Hsb _ _ _ Hdir _ _ _ Hloop))); try discriminate.
    + reflexivity.
    + vm_compute. reflexivity.
    + vm_compute. reflexivity.
  - reflexivity.
  - vm_compute. reflexivity.
  - vm_compute. reflexivity.
Defined.

(** C4 on the first search with [max_price = 400]: the stored flight, at
    350, is returned. *)
Lemma max_price_filter_witness :
  dict_lookup "max_price" at_most_400 = Some (VInt 400)
  /\ filter_flights sample_env sample_dir at_most_400
     = Ok [("filtered_count", Json (VInt 1)); ("total_count", Json (VInt 1));
           ("flights", Json (VList [sample_flight]));
           ("storage", Path ["/tmp/flights"; "search_6f1c.json"])]
  /\ exists x, flight_price sample_flight = Ok x
       /\ py_gt (VFloat x) (VInt 400) = Ok false.
Proof.
  refine ((fun HP E => conj HP (conj E _)) _ _).
  - destruct (max_price_filter sample_env sample_dir at_most_400 (VInt 400)
                _ [sample_flight] HP E eq_refl)
      as (doc & fl & items & _ & _ & _ & Hout & _).
    destruct (Hout sample_flight (or_introl eq_refl))
      as (_ & x & Hx & Hgt & _).
    exists x. split; assumption.
  - reflexivity.
  - vm_compute. reflexivity.
Defined.

(** * Further properties of the code *)

(** ** The store: file names and what a save touches *)




Lemma prefix_append s t : String.prefix s t = true -> exists r, t = s +:+ r.
Proof.
  revert t. induction s as [|c s IH]; intros t E.
  - exists t. reflexivity.
  - destruct t as [|c' t]; [discriminate|]. simpl in E.
    destruct (ascii_dec c c') as [->|]; [|discriminate].
    destruct (IH _ E) as [r ->]. exists r. reflexivity.
Qed.

Lemma substring_skip s n m t :
  String.substring (String.length s + n) m (s +:+ t) = String.substring n m t.
Proof. induction s as [|c s IH]; [reflexivity|]. rewrite append_cons. exact IH. Qed.

Lemma substring_split n t :
  (n <= String.length t)%nat ->
  t = String.substring 0 n t +:+ String.substring n (String.length t - n) t.
Proof.
  revert t. induction n as [|n IH]; intros t Hn.
  - rewrite Nat.sub_0_r, substring_all. now destruct t.
  - destruct t as [|c t]; [simpl in Hn; lia|]. simpl in Hn.
    cbn [String.substring String.length Nat.sub]. rewrite append_cons.
    f_equal. apply IH. lia.
Qed.

(** X2: the pattern of the sweep, [search_*.json], matches the names
    [save_search_results] writes and no other: every file the sweep opens
    is the document of some identifier, and every saved document is
    opened. *)
Theorem glob_matches_saved_names name :
  glob_match name = true <-> exists s, name = file_name s.
Proof.
  split; [|intros [s ->]; apply glob_match_file_name].
  unfold glob_match. intros E.
  apply andb_true_iff in E as [E Hsuf]. apply andb_true_iff in E as [Hpre Hlen].
  apply prefix_append in Hpre as [r ->].
  apply Nat.leb_le in Hlen. apply String.eqb_eq in Hsuf.
  rewrite length_append in Hlen, Hsuf. cbn [String.length] in Hlen, Hsuf.
  replace (7 + String.length r - 5)%nat
    with (String.length "search_" + (String.length r - 5))%nat in Hsuf
    by (cbn [String.length]; lia).
  rewrite substring_skip in Hsuf.
  exists (String.substring 0 (String.length r - 5) r).
  unfold file_name. change String.append with (fun a b => a +:+ b). cbv beta.
  f_equal. rewrite Hsuf.
  replace (String.substring (String.length r - 5) 5 r)
    with (String.substring (String.length r - 5)
            (String.length r - (String.length r - 5)) r)
    by (f_equal; lia).
  apply substring_split. lia.
Qed.

(** ** The sweep as an operation on the directory *)

Section SweepAlgebra.
Context {rt : PyRuntime} {fs : FileSystem}.
Implicit Types (dir : gmap string file) (name : string).

Lemma after_sweep_keeps ct H name (f : option file) :
  after_sweep ct H name f = None \/ after_sweep ct H name f = f.
Proof.
  destruct f as [f|]; cbn [after_sweep]; [|auto].
  destruct (file_verdict ct H f) as [[]|]; auto.
  destruct (unlink_error name); auto.
Qed.

Lemma after_sweep_idemp ct H name (f : option file) :
  after_sweep ct H name (after_sweep ct H name f) = after_sweep ct H name f.
Proof.
  destruct f as [f|]; cbn [after_sweep]; [|reflexivity].
  destruct (file_verdict ct H f) as [[]|] eqn:E; cbn [after_sweep];
    rewrite ?E; try reflexivity.
  destruct (unlink_error name) eqn:Eu; cbn [after_sweep];
    rewrite ?E, ?Eu; reflexivity.
Qed.

(** An integer below a float stays below it when it decreases. *)
Lemma compare_Z_float_mono a b y :
  a <= b -> compare_Z_float b y = Some Lt -> compare_Z_float a y = Some Lt.
Proof.
  intros Hab. destruct y as [s|s| |s m e]; cbn [compare_Z_float]; try easy.
  - intros [= E]. f_equal. rewrite Z.compare_lt_iff in E |- *. lia.
  - cbv zeta. set (v := if s then Z.neg m else Z.pos m). clearbody v.
    destruct (0 <=? e) eqn:Ee; intros [= E]; f_equal;
      rewrite Z.compare_lt_iff in E |- *.
    + set (w := Z.shiftl v e) in *. clearbody w. lia.
    + apply Z.leb_gt in Ee. rewrite Z.shiftl_mul_pow2 in E |- * by lia.
      assert (0 < 2 ^ (- e)) by (apply Z.pow_pos_nonneg; lia). nia.
Qed.

Lemma above_threshold_mono x H1 H2 :
  H1 <= H2 ->
  cmpop_holds OpGt (num_compare (NFloat x) (NInt (H2 * 3600))) = true ->
  cmpop_holds OpGt (num_compare (NFloat x) (NInt (H1 * 3600))) = true.
Proof.
  intros HH. cbn [num_compare].
  destruct (compare_Z_float (H2 * 3600) x) as [[]|] eqn:E; try discriminate.
  intros _.
  rewrite (compare_Z_float_mono (H1 * 3600) (H2 * 3600) x ltac:(lia) E).
  reflexivity.
Qed.

(** A file that is too old for a threshold is too old for a lower one. *)
Lemma file_verdict_mono ct H1 H2 f :
  H1 <= H2 ->
  file_verdict ct H2 f = Ok true -> file_verdict ct H1 f = Ok true.
Proof.
  intros HH. unfold file_verdict, too_old.
  destruct (open_r f) as [h|]; [|discriminate]. cbn [bind].
  destruct (json_load h) as [data|]; [|discriminate]. cbn [bind].
  destruct (py_item data "timestamp") as [ts|]; [|discriminate]. cbn [bind].
  destruct (datetime_fromisoformat ts) as [ft|]; [|discriminate]. cbn [bind].
  destruct (datetime_sub ct ft) as [age|]; [|discriminate]. cbn [bind].
  intros [= E]. f_equal. now apply above_threshold_mono with H2.
Qed.

End SweepAlgebra.

(** X3: the sweep only deletes.  Every file of the directory after
    [cleanup_old_searches] was there before with the same content: no file
    is created, none is rewritten. *)
Theorem sweep_only_deletes `{PyRuntime} `{FileSystem}
    now hours (dir : gmap string file) :
  cleanup_old_searches now hours dir ⊆ dir.
Proof.
  apply map_subseteq_spec. intros name f. rewrite cleanup_lookup.
  destruct (glob_match name); [|auto].
  destruct (after_sweep_keeps (naive now) hours name (dir !! name)) as [->| ->];
    [discriminate|auto].
Qed.

(** X4: a second sweep at the same time with the same threshold changes
    nothing. *)
Theorem sweep_is_idempotent `{PyRuntime} `{FileSystem}
    now hours (dir : gmap string file) :
  cleanup_old_searches now hours (cleanup_old_searches now hours dir)
  = cleanup_old_searches now hours dir.
Proof.
  apply map_eq. intros name. rewrite !cleanup_lookup.
  destruct (glob_match name); [|reflexivity].
  apply after_sweep_idemp.
Qed.

(** X5: a longer retention keeps more.  What a sweep with
    [max_age_hours = H1] leaves, a sweep at the same time with a threshold
    [H2 >= H1] leaves as well, whatever the thresholds and the ages: the
    comparison of the double with the integer is exact. *)
Theorem longer_retention_keeps_more `{PyRuntime} `{FileSystem} now H1 H2
    (dir : gmap string file) :
  H1 <= H2 ->
  cleanup_old_searches now H1 dir ⊆ cleanup_old_searches now H2 dir.
Proof.
  intros HH. apply map_subseteq_spec. intros name f. rewrite !cleanup_lookup.
  destruct (glob_match name); [|auto].
  destruct (dir !! name) as [g|]; cbn [after_sweep]; [|discriminate].
  destruct (file_verdict (naive now) H2 g) as [[]|] eqn:E2.
  - rewrite (file_verdict_mono _ _ _ _ HH E2).
    destruct (unlink_error name); [auto|discriminate].
  - destruct (file_verdict (naive now) H1 g) as [[]|]; [|auto..].
    destruct (unlink_error name); [auto|discriminate].
  - destruct (file_verdict (naive now) H1 g) as [[]|]; [|auto..].
    destruct (unlink_error name); [auto|discriminate].
Qed.

(** ** The constructors *)

(** X6: both tools build the storage first, outside any [try].  When
    [TEMP_FLIGHT_SEARCH_DIR] is unset both raise the [TypeError] of
    [Path(None)], and when [mkdir] is refused both raise what [mkdir]
    raises: [search_flights] answers with no error result then, and does
    not get to its check of the API key. *)
Theorem tools_need_the_storage `{PyRuntime} `{FileSystem}
    ps out dep arr date ret cur filters :
  (getenv ps "TEMP_FLIGHT_SEARCH_DIR" = None ->
     exists msg,
       search_flights_call ps out dep arr date ret cur
       = Raise (Exn "TypeError" msg)
       /\ filter_flights_call ps filters = Raise (Exn "TypeError" msg))
  /\ (forall path e,
        getenv ps "TEMP_FLIGHT_SEARCH_DIR" = Some path ->
        mkdir_exist_ok path (storage_path ps) = Raise e ->
        search_flights_call ps out dep arr date ret cur = Raise e
        /\ filter_flights_call ps filters = Raise e).
Proof.
  unfold search_flights_call, filter_flights_call,
    FlightBookingServer.__init__, FlightSearchStorage.__init__.
  split.
  - intros ->. eexists. split; reflexivity.
  - intros path e -> ->. split; reflexivity.
Qed.

(** ** The shape of the normalised flights *)

Section Shape.
Context {rt : PyRuntime}.

Lemma mapM_length {A B} (f : A -> result B) l out :
  mapM f l = Ok out -> length out = length l.
Proof.
  revert out. induction l as [|x l IH]; simpl; intros out E; inv_bind.
  - reflexivity.
  - simpl. f_equal. eauto.
Qed.

Lemma mapM_Forall {A B} (f : A -> result B) (P : B -> Prop) l out :
  (forall x y, f x = Ok y -> P y) -> mapM f l = Ok out -> Forall P out.
Proof.
  intros HP. revert out. induction l as [|x l IH]; simpl; intros out E; inv_bind.
  - constructor.
  - constructor; eauto.
Qed.

(** A segment is written with its twelve keys, each airport with three. *)
Lemma transform_segment_keys seg s :
  transform_segment seg = Ok s ->
  dict_keys s = Some segment_keys
  /\ (a <- py_item s "departure_airport" ;; Ok (dict_keys a))
     = Ok (Some ["name"; "id"; "time"])
  /\ (a <- py_item s "arrival_airport" ;; Ok (dict_keys a))
     = Ok (Some ["name"; "id"; "time"]).
Proof.
  unfold transform_segment. intros E. inv_bind. repeat split.
Qed.

(** What the loop appends for an itinerary it does not skip. *)
Lemma transform_itinerary_shape sp it f :
  transform_itinerary sp it = Ok (Some f) ->
  exists raw segments price duration,
    py_item it "flights" = Ok raw
    /\ py_len raw = Ok (Z.of_nat (length segments))
    /\ segments <> []
    /\ Forall (fun s => exists seg, transform_segment seg = Ok s) segments
    /\ dict_keys f = Some flight_keys
    /\ py_item f "price" = Ok (VFloat price)
    /\ py_item f "total_duration" = Ok (VInt duration)
    /\ py_item f "stops" = Ok (VInt (Z.of_nat (length segments) - 1))
    /\ py_item f "segments" = Ok (VList segments).
Proof.
  unfold transform_itinerary. intros E. inv_bind.
  match goal with
  | G : py_get it "flights" VNone = Ok _ |- _ =>
      apply py_get_Ok_dict in G as (d & -> & ->)
  end.
  destruct (py_truthy (dict_get d "flights" VNone)); simpl in E; inv_bind;
    [|discriminate].
  repeat match goal with
  | H1 : ?t = Ok ?a, H2 : ?t = Ok ?b |- _ =>
      rewrite H1 in H2; injection H2 as ->
  end.
  match goal with
  | Hi : py_iter ?raw = Ok ?items, Hm : mapM transform_segment ?items = Ok ?segs,
    Hl : py_len ?raw = Ok ?n |- _ =>
      pose proof (py_len_iter _ _ Hi) as Hraw;
      rewrite Hraw in Hl; injection Hl as <-;
      pose proof (mapM_length _ _ _ Hm) as Hlen;
      pose proof (mapM_Forall transform_segment
                    (fun s => exists seg, transform_segment seg = Ok s)
                    _ _ (fun x y Hxy => ex_intro _ x Hxy) Hm) as Hall;
      exists raw, segs
  end.
  do 2 eexists. split; [eassumption|].
  split; [now rewrite Hlen|].
  split.
  { intros ->.
    match goal with H : list_first [] = Ok _ |- _ => discriminate H end. }
  split; [exact Hall|].
  rewrite Hlen. repeat split.
Qed.

Lemma transform_flights_In uuid now api sp rec flights f :
  _transform_flight_data uuid now api sp = Ok rec ->
  py_item rec "flights" = Ok (VList flights) ->
  In f flights ->
  exists it, transform_itinerary sp it = Ok (Some f).
Proof.
  intros E Hfl Hin.
  apply transform_flight_data_Ok in E as (all & its & fl & _ & _ & Hall & ->).
  cbn in Hfl. injection Hfl as <-.
  destruct (transform_all_In _ _ _ _ Hall Hin) as (it & _ & Hit). eauto.
Qed.

End Shape.

(** X7: [stops] counts the segments.  For every flight of a transformed
    record, [stops] is the length of its own [segments] less one, which is
    not negative, and that length is the [len] of the itinerary's
    [flights]: a [stops] entry of the provider is never read. *)
Theorem stops_count_the_segments `{PyRuntime} uuid now api sp rec flights f :
  _transform_flight_data uuid now api sp = Ok rec ->
  py_item rec "flights" = Ok (VList flights) ->
  In f flights ->
  exists segments it raw,
    py_item f "segments" = Ok (VList segments)
    /\ py_item f "stops" = Ok (VInt (Z.of_nat (length segments) - 1))
    /\ 0 <= Z.of_nat (length segments) - 1
    /\ transform_itinerary sp it = Ok (Some f)
    /\ py_item it "flights" = Ok raw
    /\ py_len raw = Ok (Z.of_nat (length segments)).
Proof.
  intros E Hfl Hin.
  destruct (transform_flights_In _ _ _ _ _ _ _ E Hfl Hin) as [it Hit].
  destruct (transform_itinerary_shape _ _ _ Hit)
    as (raw & segments & price & duration & Hraw & Hlen & Hne & _ & _ & _ & _
        & Hstops & Hsegs).
  exists segments, it, raw. repeat split; try assumption.
  destruct segments; [contradiction|]. cbn [length]. lia.
Qed.

(** X8: one schema.  Every flight of a transformed record is a dict with
    the same ten keys in the same order, its [price] a float and its
    [total_duration] an int, and every segment a dict with the same twelve
    keys whose two airports hold [name], [id] and [time] and nothing else:
    whatever else the provider sent is not carried over. *)
Theorem normalised_flights_have_one_schema `{PyRuntime}
    uuid now api sp rec flights f :
  _transform_flight_data uuid now api sp = Ok rec ->
  py_item rec "flights" = Ok (VList flights) ->
  In f flights ->
  dict_keys f = Some flight_keys
  /\ (exists price, py_item f "price" = Ok (VFloat price))
  /\ (exists duration, py_item f "total_duration" = Ok (VInt duration))
  /\ exists segments,
       py_item f "segments" = Ok (VList segments)
       /\ Forall (fun s =>
             dict_keys s = Some segment_keys
             /\ (a <- py_item s "departure_airport" ;; Ok (dict_keys a))
                = Ok (Some ["name"; "id"; "time"])
             /\ (a <- py_item s "arrival_airport" ;; Ok (dict_keys a))
                = Ok (Some ["name"; "id"; "time"]))
           segments.
Proof.
  intros E Hfl Hin.
  destruct (transform_flights_In _ _ _ _ _ _ _ E Hfl Hin) as [it Hit].
  destruct (transform_itinerary_shape _ _ _ Hit)
    as (raw & segments & price & duration & _ & _ & _ & Hall & Hkeys & Hp & Hd
        & _ & Hsegs).
  split; [assumption|]. split; [eauto|]. split; [eauto|].
  exists segments. split; [assumption|].
  eapply Forall_impl; [exact Hall|].
  intros s [seg Hs]. now apply transform_segment_keys in Hs.
Qed.

(** X9: preferred first.  When the provider's two lists are lists (a list
    that is absent counting as empty), the flights of the record are those
    of [best_flights], in their order, followed by those of
    [other_flights]; each list transforms on its own. *)
Theorem preferred_itineraries_come_first `{PyRuntime}
    uuid now api sp rec best other :
  dict_get api "best_flights" (VList []) = VList best ->
  dict_get api "other_flights" (VList []) = VList other ->
  _transform_flight_data uuid now api sp = Ok rec ->
  exists from_best from_other,
    transform_all sp best = Ok from_best
    /\ transform_all sp other = Ok from_other
    /\ py_item rec "flights" = Ok (VList (from_best ++ from_other)).
Proof.
  intros Hb Ho E.
  apply transform_flight_data_Ok in E as (all & its & fl & Hadd & Hit & Hall & ->).
  rewrite Hb, Ho in Hadd. cbn in Hadd. injection Hadd as <-.
  cbn in Hit. injection Hit as <-.
  rewrite transform_all_app in Hall.
  destruct (transform_all sp best) as [fb|]; cbn [bind] in Hall; [|discriminate].
  destruct (transform_all sp other) as [fo|]; cbn [bind] in Hall; [|discriminate].
  injection Hall as <-. exists fb, fo. auto.
Qed.

(** ** What a search leaves in the store *)

Section SearchOutcome.
Context {rt : PyRuntime} {fs : FileSystem}.
Implicit Types (dir : gmap string file).



End SearchOutcome.


(** ** The filter: what it reads and what it keeps *)

Section FilterReads.
Context {rt : PyRuntime} {fs : FileSystem}.
Implicit Types (dir : gmap string file).

(** The filter reads one file of the directory. *)
Lemma filter_flights_lookup env dir1 dir2 filters :
  dir1 !! filter_file filters = dir2 !! filter_file filters ->
  filter_flights env dir1 filters = filter_flights env dir2 filters.
Proof.
  intros E. unfold filter_flights, get_search_results, path_exists. cbv zeta.
  fold (filter_file filters). now rewrite E.
Qed.

Lemma filter_flights_missing env dir filters :
  dir !! filter_file filters = None ->
  exists_answers (filter_file filters) = true ->
  filter_flights env dir filters = Ok not_found.
Proof.
  intros E Ha. unfold filter_flights.
  now rewrite (get_search_results_missing _ _ E Ha).
Qed.

Lemma filter_flights_corrupt env dir filters text :
  dir !! filter_file filters = Some (Corrupt text) ->
  filter_flights env dir filters = JSONDecodeError.
Proof.
  intros E. unfold filter_flights.
  now rewrite (get_search_results_entry _ _ _ E).
Qed.

Lemma no_criteria_inv filters :
  no_criteria filters = true ->
  dict_has "max_price" filters = false
  /\ dict_has "max_duration" filters = false
  /\ dict_has "max_stops" filters = false
  /\ dict_has "preferred_airlines" filters = false
  /\ dict_has "departure_time_range" filters = false
  /\ dict_has "sort_by" filters = false.
Proof.
  unfold no_criteria. cbn [forallb]. rewrite !andb_true_iff, !negb_true_iff.
  tauto.
Qed.

Lemma keep_flight_no_criteria filters f :
  no_criteria filters = true -> keep_flight filters f = Ok true.
Proof.
  intros Hn. apply no_criteria_inv in Hn as (H1 & H2 & H3 & H4 & H5 & _).
  unfold keep_flight, check_price, check_duration, check_stops,
    check_airlines, check_departure_time.
  now rewrite H1, H2, H3, H4, H5.
Qed.

Lemma filter_loop_no_criteria filters items :
  no_criteria filters = true -> filter_loop filters items = Ok items.
Proof.
  intros Hn. induction items as [|f items IH]; [reflexivity|].
  cbn [filter_loop]. rewrite (keep_flight_no_criteria _ f Hn), IH. reflexivity.
Qed.

Lemma apply_sorting_no_criteria filters items :
  no_criteria filters = true -> apply_sorting filters items = Ok items.
Proof.
  intros Hn. apply no_criteria_inv in Hn as (_ & _ & _ & _ & _ & H6).
  unfold apply_sorting. now rewrite H6.
Qed.

(** Without criteria the filter returns the stored flights as they are,
    whatever they are. *)
Lemma filter_flights_no_criteria env dir filters doc flights items :
  dir !! filter_file filters = Some (JsonFile doc) ->
  py_truthy doc = true ->
  stored_flights doc = Ok flights ->
  py_iter flights = Ok items ->
  no_criteria filters = true ->
  filter_flights env dir filters
  = Ok [("filtered_count", Json (VInt (Z.of_nat (length items))));
        ("total_count", Json (VInt (Z.of_nat (length items))));
        ("flights", Json (VList items));
        ("storage", Path [TEMP_FLIGHT_SEARCH_DIR env; filter_file filters])].
Proof.
  intros Hdir Ht Hfl Hit Hn.
  apply (filter_flights_stages env dir filters doc flights items items items
           Hdir Ht Hfl Hit).
  - now apply filter_loop_no_criteria.
  - now apply apply_sorting_no_criteria.
Qed.

(** The stages behind a result of the filter that holds flights. *)
Lemma filter_flights_flights env dir filters res out :
  filter_flights env dir filters = Ok res ->
  response_get "flights" res = Some (Json (VList out)) ->
  exists doc flights items kept,
    dir !! filter_file filters = Some (JsonFile doc)
    /\ stored_flights doc = Ok flights
    /\ py_iter flights = Ok items
    /\ filter_loop filters items = Ok kept
    /\ apply_sorting filters kept = Ok out.
Proof.
  intros E Hout.
  apply filter_flights_Ok in E
    as [->|(doc & flights & items & kept & sorted & Hd & _ & Hf & Hi & Hk & Hs & ->)];
    [discriminate|].
  cbn in Hout. injection Hout as <-. eauto 10.
Qed.

(** The flights of a result are the stored flights that pass the five
    checks. *)
Lemma filter_output_members env dir filters res out :
  filter_flights env dir filters = Ok res ->
  response_get "flights" res = Some (Json (VList out)) ->
  exists doc flights items,
    dir !! filter_file filters = Some (JsonFile doc)
    /\ stored_flights doc = Ok flights
    /\ py_iter flights = Ok items
    /\ forall f, In f out <-> In f items /\ keep_flight filters f = Ok true.
Proof.
  intros E Hout.
  destruct (filter_flights_flights _ _ _ _ _ E Hout)
    as (doc & flights & items & kept & Hd & Hf & Hi & Hk & Hs).
  exists doc, flights, items. repeat split; try assumption.
  - apply (Permutation_in _ (apply_sorting_Permutation _ _ _ Hs)) in H.
    rewrite (filter_loop_filter _ _ _ Hk) in H. now apply filter_In in H.
  - apply (Permutation_in _ (apply_sorting_Permutation _ _ _ Hs)) in H.
    rewrite (filter_loop_filter _ _ _ Hk) in H. apply filter_In in H as [_ H].
    now apply survives_true.
  - intros [Hin Hkeep].
    apply (Permutation_in _
             (Permutation_sym (apply_sorting_Permutation _ _ _ Hs))).
    rewrite (filter_loop_filter _ _ _ Hk). apply filter_In.
    split; [assumption|now apply survives_true].
Qed.

(** One flight on which a check raises ends the loop. *)
Lemma filter_loop_Raise_In filters items f e :
  In f items -> keep_flight filters f = Raise e ->
  exists e', filter_loop filters items = Raise e'.
Proof.
  induction items as [|x items IH]; simpl; [tauto|].
  intros [->|Hin] E.
  - rewrite E. simpl. eauto.
  - destruct (keep_flight filters x); simpl; [|eauto].
    destruct (IH Hin E) as [e' ->]. simpl. eauto.
Qed.

Lemma py_gt_int a b : py_gt (VInt a) (VInt b) = Ok false <-> a <= b.
Proof.
  cbn. destruct (Z.compare_spec a b); split; intros E;
    try reflexivity; try discriminate; lia.
Qed.

Lemma check_stops_true filters S f :
  dict_lookup "max_stops" filters = Some S ->
  check_stops filters f = Ok true <->
  exists k, py_get f "stops" (VInt 0) = Ok k /\ py_gt k S = Ok false.
Proof.
  intros HS. unfold check_stops, dict_has, dict_item. rewrite HS. split.
  - intros E. inv_bind.
    match goal with
    | G : py_gt _ _ = Ok ?b, N : negb ?b = true |- _ =>
        destruct b; [discriminate N|]
    end.
    eauto.
  - intros (k & -> & Hk). cbn [bind]. now rewrite Hk.
Qed.

Lemma check_duration_true filters D f :
  dict_lookup "max_duration" filters = Some D ->
  check_duration filters f = Ok true <->
  exists d, flight_duration f = Ok d /\ py_gt (VInt d) D = Ok false.
Proof.
  intros HD. unfold check_duration, flight_duration, dict_has, dict_item.
  rewrite HD. split.
  - intros E. inv_bind.
    match goal with
    | G : py_gt _ _ = Ok ?b, N : negb ?b = true |- _ =>
        destruct b; [discriminate N|]
    end.
    match goal with
    | G : py_get f "total_duration" _ = Ok _ |- _ => rewrite G
    end.
    cbn [bind]. eauto.
  - intros (d & -> & Hd). cbn [bind]. now rewrite Hd.
Qed.

End FilterReads.

(** X11: the documents the filter takes for empty.  A stored document
    that is an empty dict is reported as not found; one that has no
    [results] key gives a result with no flights and counts of zero,
    whatever the criteria; one whose [results] has no [flights] key makes
    the filter raise [KeyError]. *)
Theorem stored_document_edge_cases `{PyRuntime} `{FileSystem}
    env (dir : gmap string file) filters d :
  dir !! filter_file filters = Some (JsonFile (VDict d)) ->
  (d = [] -> filter_flights env dir filters = Ok not_found)
  /\ (d <> [] -> dict_lookup "results" d = None ->
      filter_flights env dir filters
      = Ok [("filtered_count", Json (VInt 0));
            ("total_count", Json (VInt 0));
            ("flights", Json (VList []));
            ("storage", Path [TEMP_FLIGHT_SEARCH_DIR env; filter_file filters])])
  /\ (forall r, dict_lookup "results" d = Some (VDict r) ->
      dict_lookup "flights" r = None ->
      filter_flights env dir filters = KeyError "flights").
Proof.
  intros Hdir.
  assert (Hget : get_search_results
                   (py_format (dict_get filters "search_id" VNone)) dir
                 = Ok (Some (VDict d))).
  { now apply get_search_results_stored. }
  unfold filter_flights. rewrite Hget. cbn [bind].
  split; [|split].
  - intros ->. reflexivity.
  - intros Hne Hno. destruct d as [|kv d]; [contradiction|].
    cbn [py_truthy negb]. unfold stored_flights.
    cbn [py_truthy py_contains bind]. unfold dict_has. rewrite Hno.
    cbn [bind py_iter filter_loop py_len length].
    assert (Hs : apply_sorting filters [] = Ok []).
    { unfold apply_sorting, dict_has, dict_item.
      destruct (dict_lookup "sort_by" filters) as [k|]; [|reflexivity].
      cbn [bind].
      repeat (destruct (str_eq k _); [now destruct (str_eq _ "desc")|]).
      reflexivity. }
    rewrite Hs. reflexivity.
  - intros r Hr Hfl. destruct d as [|kv d]; [discriminate Hr|].
    cbn [py_truthy negb]. unfold stored_flights.
    cbn [py_truthy py_contains bind]. unfold dict_has. rewrite Hr.
    cbn [bind py_item]. unfold dict_item at 1. rewrite Hr. cbn [bind py_item].
    unfold dict_item. rewrite Hfl. reflexivity.
Qed.

(** X12: a file that is not JSON stays.  [filter_flights] on its
    identifier raises the decode error, no sweep removes the file, and the
    filter raises again after any sweep. *)
Theorem corrupt_document_stays `{PyRuntime} `{FileSystem}
    env (dir : gmap string file) filters text :
  dir !! filter_file filters = Some (Corrupt text) ->
  filter_flights env dir filters = JSONDecodeError
  /\ forall now hours,
       cleanup_old_searches now hours dir !! filter_file filters
       = Some (Corrupt text)
       /\ filter_flights env (cleanup_old_searches now hours dir) filters
          = JSONDecodeError.
Proof.
  intros E.
  split; [now apply filter_flights_corrupt with text|]. intros now hours.
  assert (Hkept : cleanup_old_searches now hours dir !! filter_file filters
                  = Some (Corrupt text)).
  { rewrite cleanup_lookup. unfold filter_file at 1.
    now rewrite glob_match_file_name, E. }
  split; [exact Hkept|now apply filter_flights_corrupt with text].
Qed.

(** X13: [max_duration].  With an integer [max_duration = D], every
    flight of the result has a duration, [int] of its [total_duration], of
    at most [D]; and every stored flight with such a duration that passes
    the other four checks is in the result. *)
Theorem max_duration_filter `{PyRuntime} `{FileSystem}
    env (dir : gmap string file) filters D res out :
  dict_lookup "max_duration" filters = Some (VInt D) ->
  filter_flights env dir filters = Ok res ->
  response_get "flights" res = Some (Json (VList out)) ->
  exists doc flights items,
    dir !! filter_file filters = Some (JsonFile doc)
    /\ stored_flights doc = Ok flights
    /\ py_iter flights = Ok items
    /\ (forall f, In f out -> exists d, flight_duration f = Ok d /\ d <= D)
    /\ (forall f d, In f items ->
          flight_duration f = Ok d -> d <= D ->
          check_price filters f = Ok true ->
          check_stops filters f = Ok true ->
          check_airlines filters f = Ok true ->
          check_departure_time filters f = Ok true ->
          In f out).
Proof.
  intros HD E Hout.
  destruct (filter_output_members _ _ _ _ _ E Hout)
    as (doc & flights & items & Hd & Hf & Hi & Hmem).
  exists doc, flights, items. repeat split; try assumption.
  - intros f Hin. apply Hmem in Hin as [_ Hkeep].
    apply keep_flight_true in Hkeep as (_ & Hdu & _).
    apply (check_duration_true _ _ _ HD) in Hdu as (d & Hd' & Hgt).
    exists d. split; [assumption|now apply py_gt_int].
  - intros f d Hin Hd' Hle Hp Hs Ha Ht. apply Hmem. split; [assumption|].
    apply keep_flight_true. repeat split; try assumption.
    apply (check_duration_true _ _ _ HD). exists d.
    split; [assumption|now apply py_gt_int].
Qed.

(** X14: a stored flight without [total_duration] breaks a filter on
    [max_duration].  Its duration defaults to [float("inf")], which [int]
    refuses with [OverflowError]; when the flight passes the price check
    the filter raises instead of returning a result. *)
Theorem missing_duration_breaks_the_filter `{PyRuntime} `{FileSystem}
    env (dir : gmap string file) filters doc flights items d :
  dir !! filter_file filters = Some (JsonFile doc) ->
  py_truthy doc = true ->
  stored_flights doc = Ok flights ->
  py_iter flights = Ok items ->
  In (VDict d) items ->
  dict_lookup "total_duration" d = None ->
  dict_has "max_duration" filters = true ->
  check_price filters (VDict d) = Ok true ->
  flight_duration (VDict d)
  = OverflowError "cannot convert float infinity to integer"
  /\ exists e, filter_flights env dir filters = Raise e.
Proof.
  intros Hdir Ht Hf Hi Hin Hno Hmax Hp.
  assert (Hfd : flight_duration (VDict d)
                = OverflowError "cannot convert float infinity to integer").
  { unfold flight_duration. cbn [py_get bind]. unfold dict_get.
    rewrite Hno. reflexivity. }
  split; [exact Hfd|].
  assert (Hdu : check_duration filters (VDict d)
                = OverflowError "cannot convert float infinity to integer").
  { unfold check_duration. rewrite Hmax. fold (flight_duration (VDict d)).
    now rewrite Hfd. }
  assert (Hk : keep_flight filters (VDict d)
               = OverflowError "cannot convert float infinity to integer").
  { unfold keep_flight, and_then. rewrite Hp. cbn [bind]. now rewrite Hdu. }
  destruct (filter_loop_Raise_In _ _ _ _ Hin Hk) as [e He].
  exists e. unfold filter_flights.
  rewrite (get_search_results_stored _ _ _ Hdir). cbn [bind].
  rewrite Ht. cbn [negb]. rewrite Hf. cbn [bind]. rewrite Hi. cbn [bind].
  now rewrite He.
Qed.

(** X15: [max_stops].  With an integer [max_stops = S], no flight of the
    result has an integer [stops] above [S] (a flight without [stops]
    counting as direct); and every stored flight with at most [S] stops
    that passes the other four checks is in the result. *)
Theorem max_stops_filter `{PyRuntime} `{FileSystem}
    env (dir : gmap string file) filters S res out :
  dict_lookup "max_stops" filters = Some (VInt S) ->
  filter_flights env dir filters = Ok res ->
  response_get "flights" res = Some (Json (VList out)) ->
  exists doc flights items,
    dir !! filter_file filters = Some (JsonFile doc)
    /\ stored_flights doc = Ok flights
    /\ py_iter flights = Ok items
    /\ (forall f k, In f out ->
          py_get f "stops" (VInt 0) = Ok (VInt k) -> k <= S)
    /\ (forall f k, In f items ->
          py_get f "stops" (VInt 0) = Ok (VInt k) -> k <= S ->
          check_price filters f = Ok true ->
          check_duration filters f = Ok true ->
          check_airlines filters f = Ok true ->
          check_departure_time filters f = Ok true ->
          In f out).
Proof.
  intros HS E Hout.
  destruct (filter_output_members _ _ _ _ _ E Hout)
    as (doc & flights & items & Hd & Hf & Hi & Hmem).
  exists doc, flights, items. repeat split; try assumption.
  - intros f k Hin Hk. apply Hmem in Hin as [_ Hkeep].
    apply keep_flight_true in Hkeep as (_ & _ & Hst & _).
    apply (check_stops_true _ _ _ HS) in Hst as (k' & Hk' & Hgt).
    rewrite Hk in Hk'. injection Hk' as <-. now apply py_gt_int.
  - intros f k Hin Hk Hle Hp Hdu Ha Ht. apply Hmem. split; [assumption|].
    apply keep_flight_true. repeat split; try assumption.
    apply (check_stops_true _ _ _ HS). exists (VInt k).
    split; [assumption|now apply py_gt_int].
Qed.

(** ** The airlines and the departure window *)

Section Airlines.
Context {rt : PyRuntime}.

Lemma py_eq_str_l a x : py_eq (VStr a) x = true -> x = VStr a.
Proof.
  destruct x; cbn; try discriminate. intros E.
  apply String.eqb_eq in E. now subst.
Qed.

(** Every airline of the set is the airline of a segment. *)
Lemma airline_set_sound segments seen set a :
  airline_set segments seen = Ok set -> In a set ->
  In a seen \/ exists s, In s segments /\ py_item s "airline" = Ok a.
Proof.
  revert seen. induction segments as [|s segments IH]; intros seen E Ha.
  - cbn in E. injection E as <-. left. now apply in_rev.
  - cbn [airline_set] in E.
    destruct (py_item s "airline") as [airline|] eqn:Es; cbn [bind] in E;
      [|discriminate].
    destruct (py_hashable airline); cbn [negb] in E; [|discriminate].
    destruct (existsb (py_eq airline) seen).
    + destruct (IH _ E Ha) as [?|(s' & ? & ?)]; [auto|].
      right. exists s'. split; [now right|assumption].
    + destruct (IH _ E Ha) as [[<-|?]|(s' & ? & ?)]; [|auto|].
      * right. exists s. split; [now left|assumption].
      * right. exists s'. split; [now right|assumption].
Qed.

Lemma airline_set_seen segments seen set a :
  airline_set segments seen = Ok set -> In a seen -> In a set.
Proof.
  revert seen. induction segments as [|s segments IH]; intros seen E Ha.
  - cbn in E. injection E as <-. now apply in_rev in Ha.
  - cbn [airline_set] in E.
    destruct (py_item s "airline") as [airline|]; cbn [bind] in E; [|discriminate].
    destruct (py_hashable airline); cbn [negb] in E; [|discriminate].
    destruct (existsb (py_eq airline) seen); eapply IH; eauto. now right.
Qed.

(** The airline of every segment, a string, is in the set. *)
Lemma airline_set_complete segments seen set s a :
  airline_set segments seen = Ok set ->
  In s segments -> py_item s "airline" = Ok (VStr a) -> In (VStr a) set.
Proof.
  revert seen. induction segments as [|x segments IH]; intros seen E Hs Ha;
    [destruct Hs|].
  cbn [airline_set] in E.
  destruct (py_item x "airline") as [airline|] eqn:Ex; cbn [bind] in E;
    [|discriminate].
  destruct (py_hashable airline); cbn [negb] in E; [|discriminate].
  destruct Hs as [->|Hs].
  - rewrite Ha in Ex. injection Ex as <-.
    destruct (existsb (py_eq (VStr a)) seen) eqn:Eseen.
    + apply existsb_exists in Eseen as (y & Hy & Hey).
      apply py_eq_str_l in Hey as ->. eapply airline_set_seen; eauto.
    + eapply airline_set_seen; eauto. now left.
  - destruct (existsb (py_eq airline) seen); eapply IH; eauto.
Qed.

Lemma any_preferred_list filters prefs airlines :
  dict_lookup "preferred_airlines" filters = Some (VList prefs) ->
  any_preferred filters airlines
  = Ok (existsb (fun a => existsb (py_eq a) prefs) airlines).
Proof.
  intros Hp. induction airlines as [|a airlines IH]; [reflexivity|].
  cbn [any_preferred existsb]. unfold dict_item. rewrite Hp.
  cbn [bind py_contains].
  destruct (existsb (py_eq a) prefs); [reflexivity|exact IH].
Qed.

Lemma check_airlines_true filters prefs f :
  dict_lookup "preferred_airlines" filters = Some (VList prefs) ->
  check_airlines filters f = Ok true ->
  exists segments s a,
    (x <- py_item f "segments" ;; py_iter x) = Ok segments
    /\ In s segments
    /\ py_item s "airline" = Ok a
    /\ existsb (py_eq a) prefs = true.
Proof.
  intros Hp. unfold check_airlines, dict_has. rewrite Hp. intros E.
  destruct (x <- py_item f "segments" ;; py_iter x) as [segments|] eqn:Es;
    cbn [bind] in E; [|discriminate].
  destruct (airline_set segments []) as [set|] eqn:Eset; cbn [bind] in E;
    [|discriminate].
  rewrite (any_preferred_list _ _ _ Hp) in E. injection E as E.
  apply existsb_exists in E as (a & Ha & Hpref).
  destruct (airline_set_sound _ _ _ _ Eset Ha) as [[]|(s & Hs & Hsa)].
  exists segments, s, a. auto.
Qed.

Lemma check_airlines_complete filters prefs f segments s a :
  dict_lookup "preferred_airlines" filters = Some (VList prefs) ->
  py_item f "segments" = Ok (VList segments) ->
  forallb segment_ok segments = true ->
  In s segments ->
  py_item s "airline" = Ok (VStr a) ->
  In (VStr a) prefs ->
  check_airlines filters f = Ok true.
Proof.
  intros Hp Hsegs Hok Hs Ha Hin. unfold check_airlines, dict_has.
  rewrite Hp, Hsegs. cbn [bind py_iter].
  destruct (airline_set_total segments [] Hok) as [set Eset].
  rewrite Eset. cbn [bind]. rewrite (any_preferred_list _ _ _ Hp). f_equal.
  apply existsb_exists. exists (VStr a).
  split; [eapply airline_set_complete; eauto|].
  apply existsb_exists. exists (VStr a). split; [assumption|].
  cbn. apply String.eqb_refl.
Qed.

End Airlines.

(** X16: [preferred_airlines].  With a list of preferred airlines, every
    flight of the result has a segment whose airline equals an entry of the
    list; every stored flight whose segments name their airlines by
    strings, one of them in the list, and that passes the other four
    checks is in the result; and with an empty list the result holds no
    flight. *)
Theorem preferred_airlines_filter `{PyRuntime} `{FileSystem}
    env (dir : gmap string file) filters prefs res out :
  dict_lookup "preferred_airlines" filters = Some (VList prefs) ->
  filter_flights env dir filters = Ok res ->
  response_get "flights" res = Some (Json (VList out)) ->
  exists doc flights items,
    dir !! filter_file filters = Some (JsonFile doc)
    /\ stored_flights doc = Ok flights
    /\ py_iter flights = Ok items
    /\ (forall f, In f out ->
          exists segments s a,
            (x <- py_item f "segments" ;; py_iter x) = Ok segments
            /\ In s segments
            /\ py_item s "airline" = Ok a
            /\ existsb (py_eq a) prefs = true)
    /\ (forall f segments s a, In f items ->
          py_item f "segments" = Ok (VList segments) ->
          forallb segment_ok segments = true ->
          In s segments ->
          py_item s "airline" = Ok (VStr a) ->
          In (VStr a) prefs ->
          check_price filters f = Ok true ->
          check_duration filters f = Ok true ->
          check_stops filters f = Ok true ->
          check_departure_time filters f = Ok true ->
          In f out)
    /\ (prefs = [] -> out = []).
Proof.
  intros Hp E Hout.
  destruct (filter_output_members _ _ _ _ _ E Hout)
    as (doc & flights & items & Hd & Hf & Hi & Hmem).
  assert (Hsound : forall f, In f out ->
            exists segments s a,
              (x <- py_item f "segments" ;; py_iter x) = Ok segments
              /\ In s segments
              /\ py_item s "airline" = Ok a
              /\ existsb (py_eq a) prefs = true).
  { intros f Hin. apply Hmem in Hin as [_ Hkeep].
    apply keep_flight_true in Hkeep as (_ & _ & _ & Ha & _).
    now apply (check_airlines_true _ _ _ Hp). }
  exists doc, flights, items. repeat split; try assumption.
  - intros f segments s a Hin Hsegs Hok Hs Ha Hpref Hpr Hdu Hst Ht.
    apply Hmem. split; [assumption|].
    apply keep_flight_true. repeat split; try assumption.
    eapply check_airlines_complete; eauto.
  - intros ->. destruct out as [|f out]; [reflexivity|].
    destruct (Hsound f (or_introl eq_refl)) as (? & ? & ? & _ & _ & _ & Hex).
    discriminate Hex.
Qed.

(** The order of strings. *)
Lemma string_leb_trans s t u :
  String.leb s t = true -> String.leb t u = true -> String.leb s u = true.
Proof.
  unfold String.leb. intros Hst Htu.
  pose proof (string_compare_not_below_trans u t s) as Ht.
  rewrite (String.compare_antisym t s), (String.compare_antisym u t),
    (String.compare_antisym u s) in Ht.
  destruct (String.compare s t); try discriminate;
    destruct (String.compare t u); try discriminate;
    destruct (String.compare s u); try reflexivity;
    exfalso; apply Ht; cbn; congruence.
Qed.

Lemma py_le_str s t : py_le (VStr s) (VStr t) = Ok (String.leb s t).
Proof. cbn. unfold String.leb. now destruct (String.compare s t). Qed.

Lemma py_le_str_l s v b : py_le (VStr s) v = Ok b -> exists t, v = VStr t.
Proof. destruct v; cbn; try discriminate. eauto. Qed.

Lemma check_departure_time_true `{PyRuntime} filters s e f :
  dict_lookup "departure_time_range" filters = Some (VList [VStr s; VStr e]) ->
  check_departure_time filters f = Ok true <->
  exists t, departure_time_key f = Ok (VStr t)
            /\ String.leb s t = true /\ String.leb t e = true.
Proof.
  intros Hr. unfold check_departure_time, dict_has, dict_item, departure_time_key.
  rewrite Hr. cbn [bind unpack_pair py_iter]. split.
  - intros E.
    destruct (d <- py_item f "departure" ;; py_item d "time") as [t|];
      cbn [bind] in E; [|discriminate].
    apply and_then_true in E as [E1 E2].
    destruct (py_le_str_l _ _ _ E1) as [t' ->].
    rewrite py_le_str in E1, E2. injection E1 as E1. injection E2 as E2.
    exists t'. auto.
  - intros (t & -> & E1 & E2). cbn [bind]. apply and_then_true.
    rewrite !py_le_str, E1, E2. auto.
Qed.

(** X17: [departure_time_range].  With a range of two strings, every
    flight of the result departs at a time, a string, that is between the
    two in the order of strings, bounds included; every stored flight that
    does and passes the other four checks is in the result; and a range
    whose start is after its end leaves no flight. *)
Theorem departure_window_filter `{PyRuntime} `{FileSystem}
    env (dir : gmap string file) filters s e res out :
  dict_lookup "departure_time_range" filters = Some (VList [VStr s; VStr e]) ->
  filter_flights env dir filters = Ok res ->
  response_get "flights" res = Some (Json (VList out)) ->
  exists doc flights items,
    dir !! filter_file filters = Some (JsonFile doc)
    /\ stored_flights doc = Ok flights
    /\ py_iter flights = Ok items
    /\ (forall f, In f out ->
          exists t, departure_time_key f = Ok (VStr t)
                    /\ String.leb s t = true /\ String.leb t e = true)
    /\ (forall f t, In f items ->
          departure_time_key f = Ok (VStr t) ->
          String.leb s t = true -> String.leb t e = true ->
          check_price filters f = Ok true ->
          check_duration filters f = Ok true ->
          check_stops filters f = Ok true ->
          check_airlines filters f = Ok true ->
          In f out)
    /\ (String.leb s e = false -> out = []).
Proof.
  intros Hr E Hout.
  destruct (filter_output_members _ _ _ _ _ E Hout)
    as (doc & flights & items & Hd & Hf & Hi & Hmem).
  assert (Hsound : forall f, In f out ->
            exists t, departure_time_key f = Ok (VStr t)
                      /\ String.leb s t = true /\ String.leb t e = true).
  { intros f Hin. apply Hmem in Hin as [_ Hkeep].
    apply keep_flight_true in Hkeep as (_ & _ & _ & _ & Ht).
    now apply (check_departure_time_true _ _ _ _ Hr). }
  exists doc, flights, items. repeat split; try assumption.
  - intros f t Hin Ht Hlo Hhi Hp Hdu Hst Ha. apply Hmem. split; [assumption|].
    apply keep_flight_true. repeat split; try assumption.
    apply (check_departure_time_true _ _ _ _ Hr). eauto.
  - intros Hse. destruct out as [|f out]; [reflexivity|].
    destruct (Hsound f (or_introl eq_refl)) as (t & _ & Hlo & Hhi).
    rewrite (string_leb_trans _ _ _ Hlo Hhi) in Hse. discriminate.
Qed.

(** ** The order of the sorted result *)

Section SortedOutput.
Context {rt : PyRuntime}.
Implicit Types (dir : gmap string file).

Lemma apply_sorting_ordered filters key (good : value -> Prop) kept out :
  sort_key_of filters = Some key ->
  (forall a b, good a -> good b -> py_lt a b = Ok true -> py_lt b a = Ok false) ->
  (forall a b c, good a -> good b -> good c ->
     py_lt a b = Ok false -> py_lt b c = Ok false -> py_lt a c = Ok false) ->
  (forall f k, In f kept -> key f = Ok k -> good k) ->
  apply_sorting filters kept = Ok out ->
  forall f g, precedes f g out ->
    exists kf kg, key f = Ok kf /\ key g = Ok kg
      /\ (if str_eq (dict_get filters "sort_order" (VStr "asc")) "desc"
          then py_lt kf kg else py_lt kg kf) = Ok false.
Proof.
  intros Hkey Hasym Htrans Hgood E.
  rewrite (apply_sorting_key _ _ _ Hkey) in E.
  exact (list_sort_ordered py_lt good Hasym Htrans key _ kept out Hgood E).
Qed.

End SortedOutput.

(** X19: sorted by duration.  With [sort_by = "duration"] the flights of
    the result stand in the order of their durations, [int] of
    [total_duration] (0 when absent): ascending, or descending with
    [sort_order = "desc"]. *)
Theorem sorted_by_duration `{PyRuntime} `{FileSystem}
    env (dir : gmap string file) filters res out :
  filter_flights env dir filters = Ok res ->
  response_get "flights" res = Some (Json (VList out)) ->
  dict_lookup "sort_by" filters = Some (VStr "duration") ->
  forall f g, precedes f g out ->
    exists df dg,
      duration_key f = Ok (VInt df) /\ duration_key g = Ok (VInt dg)
      /\ if str_eq (dict_get filters "sort_order" (VStr "asc")) "desc"
         then dg <= df else df <= dg.
Proof.
  intros E Hout Hsb f g Hp.
  destruct (filter_flights_flights _ _ _ _ _ E Hout)
    as (doc & flights & items & kept & _ & _ & _ & _ & Hs).
  assert (Hkey : sort_key_of filters = Some duration_key).
  { unfold sort_key_of. now rewrite Hsb. }
  destruct (apply_sorting_ordered filters duration_key
              (fun k => exists n, k = VInt n) kept out Hkey) with (f := f) (g := g)
    as (kf & kg & Hf & Hg & Hord); auto.
  - intros a b [x ->] [y ->]. apply py_lt_int_asym.
  - intros a b c [x ->] [y ->] [z ->]. rewrite !py_lt_int_false. lia.
  - intros x k _ Hk. unfold duration_key in Hk. inv_bind. eauto.
  - assert (Hint : forall x k, duration_key x = Ok k -> exists n, k = VInt n).
    { intros x k Hk. unfold duration_key in Hk. inv_bind. eauto. }
    destruct (Hint _ _ Hf) as [df ->], (Hint _ _ Hg) as [dg ->].
    exists df, dg. split; [assumption|]. split; [assumption|].
    destruct (str_eq _ _); now apply py_lt_int_false in Hord.
Qed.

(** X18: sorted by price.  With [sort_by = "price"] and no NaN among the
    prices of the result, its flights stand in the order of their prices:
    ascending, or descending with [sort_order = "desc"]. *)
Theorem sorted_by_price `{PyRuntime} `{FileSystem}
    env (dir : gmap string file) filters res out :
  filter_flights env dir filters = Ok res ->
  response_get "flights" res = Some (Json (VList out)) ->
  dict_lookup "sort_by" filters = Some (VStr "price") ->
  (forall f x, In f out -> flight_price f = Ok x -> is_nan x = false) ->
  forall f g, precedes f g out ->
    exists pf pg,
      flight_price f = Ok pf /\ flight_price g = Ok pg
      /\ (if str_eq (dict_get filters "sort_order" (VStr "asc")) "desc"
          then py_le (VFloat pg) (VFloat pf)
          else py_le (VFloat pf) (VFloat pg)) = Ok true.
Proof.
  intros E Hout Hsb Hnan f g Hp.
  destruct (filter_flights_flights _ _ _ _ _ E Hout)
    as (doc & flights & items & kept & _ & _ & _ & _ & Hs).
  assert (Hkey : sort_key_of filters = Some price_key).
  { unfold sort_key_of. now rewrite Hsb. }
  assert (Hprice : forall x k, price_key x = Ok k ->
            exists p, k = VFloat p /\ flight_price x = Ok p).
  { intros x k Hk. unfold price_key in Hk. unfold flight_price. inv_bind.
    rewrite E0. cbn [bind]. eauto. }
  pose proof (apply_sorting_Permutation _ _ _ Hs) as Hperm.
  destruct (apply_sorting_ordered filters price_key
              (fun k => exists p, k = VFloat p /\ is_nan p = false)
              kept out Hkey) with (f := f) (g := g)
    as (kf & kg & Hf & Hg & Hord); auto.
  - intros a b (x & -> & _) (y & -> & _). apply py_lt_float_asym.
  - intros a b c (x & -> & Hx) (y & -> & Hy) (z & -> & Hz).
    now apply py_lt_float_not_below_trans.
  - intros x k Hin Hk. destruct (Hprice _ _ Hk) as (p & -> & Hp').
    exists p. split; [reflexivity|]. apply (Hnan x); [|assumption].
    now apply (Permutation_in _ (Permutation_sym Hperm)).
  - destruct (precedes_In _ _ _ Hp) as [Hfin Hgin].
    destruct (Hprice _ _ Hf) as (pf & -> & Hpf).
    destruct (Hprice _ _ Hg) as (pg & -> & Hpg).
    exists pf, pg. split; [assumption|]. split; [assumption|].
    pose proof (Hnan _ _ Hfin Hpf). pose proof (Hnan _ _ Hgin Hpg).
    destruct (str_eq _ _); now apply py_lt_false_le_float.
Qed.

(** X20: sorted by departure time.  With [sort_by = "departure_time"] and
    departure times that are strings, the flights of the result stand in
    the order of those strings: ascending, or descending with
    [sort_order = "desc"]. *)
Theorem sorted_by_departure_time `{PyRuntime} `{FileSystem}
    env (dir : gmap string file) filters res out :
  filter_flights env dir filters = Ok res ->
  response_get "flights" res = Some (Json (VList out)) ->
  dict_lookup "sort_by" filters = Some (VStr "departure_time") ->
  (forall f, In f out -> exists t, departure_time_key f = Ok (VStr t)) ->
  forall f g, precedes f g out ->
    exists tf tg,
      departure_time_key f = Ok (VStr tf) /\ departure_time_key g = Ok (VStr tg)
      /\ (if str_eq (dict_get filters "sort_order" (VStr "asc")) "desc"
          then py_le (VStr tg) (VStr tf)
          else py_le (VStr tf) (VStr tg)) = Ok true.
Proof.
  intros E Hout Hsb Hstr f g Hp.
  destruct (filter_flights_flights _ _ _ _ _ E Hout)
    as (doc & flights & items & kept & _ & _ & _ & _ & Hs).
  assert (Hkey : sort_key_of filters = Some departure_time_key).
  { unfold sort_key_of. now rewrite Hsb. }
  pose proof (apply_sorting_Permutation _ _ _ Hs) as Hperm.
  destruct (apply_sorting_ordered filters departure_time_key
              (fun k => exists t, k = VStr t)
              kept out Hkey) with (f := f) (g := g)
    as (kf & kg & Hf & Hg & Hord); auto.
  - intros a b [x ->] [y ->]. apply py_lt_str_asym.
  - intros a b c [x ->] [y ->] [z ->]. apply py_lt_str_not_below_trans.
  - intros x k Hin Hk.
    destruct (Hstr x) as [t Ht];
      [now apply (Permutation_in _ (Permutation_sym Hperm))|].
    rewrite Ht in Hk. injection Hk as <-. eauto.
  - destruct (precedes_In _ _ _ Hp) as [Hfin Hgin].
    destruct (Hstr _ Hfin) as [tf Htf], (Hstr _ Hgin) as [tg Htg].
    rewrite Htf in Hf. injection Hf as <-. rewrite Htg in Hg. injection Hg as <-.
    exists tf, tg. split; [assumption|]. split; [assumption|].
    destruct (str_eq _ _); now apply py_lt_false_le_str.
Qed.

(** ** A search through its life: stored, filtered, swept *)

(** X21: the unfiltered view of a search.  After a successful search, a
    filter on the identifier it returned that names no criterion returns
    the stored flights in their order, whatever the provider sent, and both
    of its counts are the [flights_count] the search reported. *)
Theorem unfiltered_view_of_a_search `{PyRuntime} `{FileSystem}
    env out (dir : gmap string file) dep arr date ret cur resp dir' filters :
  search_flights env out dir dep arr date ret cur = (resp, dir') ->
  response_get "status" resp = Some (Json (VStr "success")) ->
  dict_lookup "search_id" filters = Some (VStr (uuid4 out)) ->
  no_criteria filters = true ->
  exists flights doc,
    response_get "flights_count" resp
    = Some (Json (VInt (Z.of_nat (length flights))))
    /\ get_search_results (uuid4 out) dir' = Ok (Some doc)
    /\ (r <- py_item doc "results" ;; py_item r "flights") = Ok (VList flights)
    /\ filter_flights env dir' filters
       = Ok [("filtered_count", Json (VInt (Z.of_nat (length flights))));
             ("total_count", Json (VInt (Z.of_nat (length flights))));
             ("flights", Json (VList flights));
             ("storage",
               Path [TEMP_FLIGHT_SEARCH_DIR env; file_name (uuid4 out)])].
Proof.
  intros E Hs Hid Hn.
  destruct (search_flights_success _ _ _ _ _ _ _ _ _ _ E Hs)
    as (key & api & its & flights & _ & _ & _ & _ & Hsave & ->).
  pose proof (lookup_saved _ _ _ _ _ Hsave) as Hlook.
  assert (Hfile : filter_file filters = file_name (uuid4 out)).
  { unfold filter_file, dict_get. now rewrite Hid. }
  exists flights. eexists. split; [reflexivity|].
  split; [exact (get_search_results_stored _ _ _ Hlook)|].
  split; [reflexivity|].
  rewrite <- Hfile.
  eapply filter_flights_no_criteria; eauto.
  - rewrite Hfile. exact Hlook.
  - reflexivity.
  - reflexivity.
  - reflexivity.
Qed.

(** X23: the results of a search expire.  After a successful search saved
    at [now_save], with a clock whose ISO format reads back, a sweep at
    [now] with a threshold of up to 4,772,185 hours makes the filter on
    that identifier report "not found" when the search is older than the
    threshold, to the microsecond, and leaves its answer as it was
    otherwise; it leaves it too when the system refuses to delete the
    file. *)
Theorem search_results_expire `{PyRuntime} `{FileSystem}
    env out (dir : gmap string file) dep arr date ret cur resp dir' now hours
    filters :
  search_flights env out dir dep arr date ret cur = (resp, dir') ->
  response_get "status" resp = Some (Json (VStr "success")) ->
  fromisoformat (isoformat (now_save out)) = Ok (naive (now_save out)) ->
  0 <= hours <= 4772185 ->
  now - now_save out < 2 ^ 62 ->
  dict_lookup "search_id" filters = Some (VStr (uuid4 out)) ->
  filter_flights env (cleanup_old_searches now hours dir') filters
  = if hours * 3600 * 1000000 <? now - now_save out
    then match unlink_error (file_name (uuid4 out)) with
         | None => Ok not_found
         | Some _ => filter_flights env dir' filters
         end
    else filter_flights env dir' filters.
Proof.
  intros E Hs Hiso HH Hage Hid.
  destruct (search_flights_success _ _ _ _ _ _ _ _ _ _ E Hs)
    as (key & api & its & flights & _ & _ & _ & _ & Hsave & _).
  pose proof (lookup_saved _ _ _ _ _ Hsave) as Hsaved.
  apply save_search_results_Ok in Hsave as [Hentry _].
  assert (Hfile : filter_file filters = file_name (uuid4 out)).
  { unfold filter_file, dict_get. now rewrite Hid. }
  assert (Hlook : cleanup_old_searches now hours dir' !! filter_file filters
            = if hours * 3600 * 1000000 <? now - now_save out
              then match unlink_error (file_name (uuid4 out)) with
                   | None => None
                   | Some _ => dir' !! filter_file filters
                   end
              else dir' !! filter_file filters).
  { rewrite cleanup_lookup, Hfile, glob_match_file_name, Hsaved.
    cbn [after_sweep].
    erewrite file_verdict_timestamp; [|reflexivity|exact Hiso].
    rewrite (age_exceeds_exact _ _ _ HH Hage).
    destruct (hours * 3600 * 1000000 <? now - now_save out); [|reflexivity].
    now destruct (unlink_error (file_name (uuid4 out))). }
  destruct (hours * 3600 * 1000000 <? now - now_save out);
    [|now apply filter_flights_lookup].
  destruct (unlink_error (file_name (uuid4 out)));
    [now apply filter_flights_lookup|].
  apply filter_flights_missing; [assumption|].
  unfold exists_answers. now rewrite Hfile, Hentry.
Qed.

(** ** The further properties at the sample searches *)


(** X5: twenty-five hours after the document was stored, what a threshold
    of a day leaves a threshold of two days leaves too. *)
Lemma longer_retention_keeps_more_witness :
  24 <= 48
  /\ cleanup_old_searches (25 * 3600 * 1000000) 24 aged_dir
     ⊆ cleanup_old_searches (25 * 3600 * 1000000) 48 aged_dir.
Proof.
  refine ((fun HH => conj HH _) _).
  - exact (longer_retention_keeps_more _ 24 48 _ HH).
  - lia.
Defined.

(** X6: without [TEMP_FLIGHT_SEARCH_DIR] both tools raise the [TypeError]
    of [Path(None)]; where the directory may not be created both raise the
    [PermissionError] of [mkdir]. *)
Lemma tools_need_the_storage_witness :
  (exists msg,
     search_flights_call bare_process sample_outside
       "ORD" "LAX" "2025-06-01" None "INR"
     = Raise (Exn "TypeError" msg)
     /\ filter_flights_call bare_process [("search_id", VStr "6f1c")]
        = Raise (Exn "TypeError" msg))
  /\ search_flights_call denied_process sample_outside
       "ORD" "LAX" "2025-06-01" None "INR"
     = Raise (Exn "PermissionError"
                "[Errno 13] Permission denied: '/srv/flights'")
  /\ filter_flights_call denied_process [("search_id", VStr "6f1c")]
     = Raise (Exn "PermissionError"
                "[Errno 13] Permission denied: '/srv/flights'").
Proof.
  split.
  - exact (proj1 (tools_need_the_storage bare_process sample_outside
                    "ORD" "LAX" "2025-06-01" None "INR"
                    [("search_id", VStr "6f1c")]) eq_refl).
  - exact (proj2 (tools_need_the_storage denied_process sample_outside
                    "ORD" "LAX" "2025-06-01" None "INR"
                    [("search_id", VStr "6f1c")])
             "/srv/flights" _ eq_refl eq_refl).
Defined.

(** X7 on the third search: the flight through Dallas has two segments and
    one stop. *)
Lemma stops_count_the_segments_witness :
  _transform_flight_data "c3d4" 3000000 routes_payload
    (make_search_params "ORD" "LAX" "2025-06-01" None) = Ok routes_record
  /\ py_item routes_record "flights" = Ok (VList routes_items)
  /\ In route_AA routes_items
  /\ py_item route_AA "stops" = Ok (VInt 1).
Proof.
  refine ((fun E F Hin => conj E (conj F (conj Hin _))) _ _ _).
  - destruct (stops_count_the_segments _ _ _ _ _ _ _ E F Hin)
      as (segments & it & raw & Hsegs & Hstops & _).
    vm_compute in Hsegs. injection Hsegs as <-. exact Hstops.
  - vm_compute. reflexivity.
  - reflexivity.
  - right. left. reflexivity.
Defined.

(** X8 on the third search. *)
Lemma normalised_flights_have_one_schema_witness :
  _transform_flight_data "c3d4" 3000000 routes_payload
    (make_search_params "ORD" "LAX" "2025-06-01" None) = Ok routes_record
  /\ py_item routes_record "flights" = Ok (VList routes_items)
  /\ In route_DL routes_items
  /\ dict_keys route_DL = Some flight_keys.
Proof.
  refine ((fun E F Hin => conj E (conj F (conj Hin _))) _ _ _).
  - exact (proj1 (normalised_flights_have_one_schema _ _ _ _ _ _ _ E F Hin)).
  - vm_compute. reflexivity.
  - reflexivity.
  - right. right. left. reflexivity.
Defined.

(** X9 on the third search: United and American from [best_flights], then
    Delta from [other_flights]. *)
Lemma preferred_itineraries_come_first_witness :
  _transform_flight_data "c3d4" 3000000 routes_payload
    (make_search_params "ORD" "LAX" "2025-06-01" None) = Ok routes_record
  /\ py_item routes_record "flights"
     = Ok (VList ([route_UA; route_AA] ++ [route_DL])).
Proof.
  refine ((fun E => conj E _) _).
  - destruct (preferred_itineraries_come_first "c3d4" 3000000 routes_payload
                (make_search_params "ORD" "LAX" "2025-06-01" None) routes_record
                _ _ eq_refl eq_refl E)
      as (fb & fo & Hb & Ho & Hfl).
    vm_compute in Hb. injection Hb as <-.
    vm_compute in Ho. injection Ho as <-. exact Hfl.
  - vm_compute. reflexivity.
Defined.

(** X11: a document without [results] holds no flight. *)
Lemma stored_document_edge_cases_witness :
  bare_dir !! filter_file [("search_id", VStr "bare"); ("max_stops", VInt 0)]
  = Some (JsonFile (VDict [("timestamp", VStr "0")]))
  /\ filter_flights sample_env bare_dir
       [("search_id", VStr "bare"); ("max_stops", VInt 0)]
     = Ok [("filtered_count", Json (VInt 0));
           ("total_count", Json (VInt 0));
           ("flights", Json (VList []));
           ("storage", Path ["/tmp/flights"; "search_bare.json"])].
Proof.
  refine ((fun Hd => conj Hd _) _).
  - refine (proj1 (proj2 (stored_document_edge_cases sample_env bare_dir
              [("search_id", VStr "bare"); ("max_stops", VInt 0)] _ Hd)) _ _);
      [discriminate|reflexivity].
  - vm_compute. reflexivity.
Defined.

(** X12: the filter on a file that is not JSON. *)
Lemma corrupt_document_stays_witness :
  broken_dir !! filter_file [("search_id", VStr "bad")] = Some (Corrupt "{")
  /\ filter_flights sample_env (cleanup_old_searches 1000000000000 0 broken_dir)
       [("search_id", VStr "bad")]
     = JSONDecodeError.
Proof.
  refine ((fun Hd => conj Hd _) _).
  - exact (proj2 (proj2 (corrupt_document_stays sample_env broken_dir
                           [("search_id", VStr "bad")] "{" Hd)
                    1000000000000 0)).
  - vm_compute. reflexivity.
Defined.

(** X13 on the third search: the flight through Dallas, 310 minutes, is
    over [max_duration = 300]. *)
Lemma max_duration_filter_witness :
  dict_lookup "max_duration" within_300_minutes = Some (VInt 300)
  /\ filter_flights sample_env routes_dir within_300_minutes
     = Ok [("filtered_count", Json (VInt 2)); ("total_count", Json (VInt 3));
           ("flights", Json (VList [route_UA; route_DL]));
           ("storage", Path ["/tmp/flights"; "search_c3d4.json"])]
  /\ forall f, In f [route_UA; route_DL] ->
       exists d, flight_duration f = Ok d /\ d <= 300.
Proof.
  refine ((fun HD E => conj HD (conj E _)) _ _).
  - destruct (max_duration_filter sample_env routes_dir within_300_minutes 300
                _ [route_UA; route_DL] HD E eq_refl)
      as (doc & fl & items & _ & _ & _ & Hout & _).
    exact Hout.
  - reflexivity.
  - vm_compute. reflexivity.
Defined.

(** X14: the flight written without [total_duration]. *)
Lemma missing_duration_breaks_the_filter_witness :
  legacy_dir !! filter_file legacy_filter
  = Some (JsonFile (VDict [("timestamp", VStr (isoformat 0));
                           ("results",
                             VDict [("flights", VList [VDict legacy_flight])])]))
  /\ flight_duration (VDict legacy_flight)
     = OverflowError "cannot convert float infinity to integer"
  /\ exists e, filter_flights sample_env legacy_dir legacy_filter = Raise e.
Proof.
  refine ((fun Hd => conj Hd _) _).
  - refine (missing_duration_breaks_the_filter sample_env legacy_dir legacy_filter
              _ _ [VDict legacy_flight] legacy_flight Hd _ _ _ _ _ _ _);
      try reflexivity.
    left. reflexivity.
  - vm_compute. reflexivity.
Defined.

(** X15 on the third search: the flight through Dallas has one stop. *)
Lemma max_stops_filter_witness :
  dict_lookup "max_stops" nonstop = Some (VInt 0)
  /\ filter_flights sample_env routes_dir nonstop
     = Ok [("filtered_count", Json (VInt 2)); ("total_count", Json (VInt 3));
           ("flights", Json (VList [route_UA; route_DL]));
           ("storage", Path ["/tmp/flights"; "search_c3d4.json"])]
  /\ forall f k, In f [route_UA; route_DL] ->
       py_get f "stops" (VInt 0) = Ok (VInt k) -> k <= 0.
Proof.
  refine ((fun HS E => conj HS (conj E _)) _ _).
  - destruct (max_stops_filter sample_env routes_dir nonstop 0
                _ [route_UA; route_DL] HS E eq_refl)
      as (doc & fl & items & _ & _ & _ & Hout & _).
    exact Hout.
  - reflexivity.
  - vm_compute. reflexivity.
Defined.

(** X16 on the third search: American only. *)
Lemma preferred_airlines_filter_witness :
  dict_lookup "preferred_airlines" on_american = Some (VList [VStr "AA"])
  /\ filter_flights sample_env routes_dir on_american
     = Ok [("filtered_count", Json (VInt 1)); ("total_count", Json (VInt 3));
           ("flights", Json (VList [route_AA]));
           ("storage", Path ["/tmp/flights"; "search_c3d4.json"])]
  /\ exists segments s a,
       (x <- py_item route_AA "segments" ;; py_iter x) = Ok segments
       /\ In s segments
       /\ py_item s "airline" = Ok a
       /\ existsb (py_eq a) [VStr "AA"] = true.
Proof.
  refine ((fun HP E => conj HP (conj E _)) _ _).
  - destruct (preferred_airlines_filter sample_env routes_dir on_american
                [VStr "AA"] _ [route_AA] HP E eq_refl)
      as (doc & fl & items & _ & _ & _ & Hout & _).
    exact (Hout route_AA (or_introl eq_refl)).
  - reflexivity.
  - vm_compute. reflexivity.
Defined.

(** X17 on the third search: between seven and half past eight American
    alone departs. *)
Lemma departure_window_filter_witness :
  dict_lookup "departure_time_range" early_morning
  = Some (VList [VStr "2025-06-01 07:00"; VStr "2025-06-01 08:30"])
  /\ filter_flights sample_env routes_dir early_morning
     = Ok [("filtered_count", Json (VInt 1)); ("total_count", Json (VInt 3));
           ("flights", Json (VList [route_AA]));
           ("storage", Path ["/tmp/flights"; "search_c3d4.json"])]
  /\ exists t, departure_time_key route_AA = Ok (VStr t)
       /\ String.leb "2025-06-01 07:00" t = true
       /\ String.leb t "2025-06-01 08:30" = true.
Proof.
  refine ((fun HR E => conj HR (conj E _)) _ _).
  - destruct (departure_window_filter sample_env routes_dir early_morning
                _ _ _ [route_AA] HR E eq_refl)
      as (doc & fl & items & _ & _ & _ & Hout & _).
    exact (Hout route_AA (or_introl eq_refl)).
  - reflexivity.
  - vm_compute. reflexivity.
Defined.

(** X18 on the third search: American at 250 before United at 300 before
    Delta at 320. *)
Lemma sorted_by_price_witness :
  filter_flights sample_env routes_dir cheapest_first
  = Ok [("filtered_count", Json (VInt 3)); ("total_count", Json (VInt 3));
        ("flights", Json (VList [route_AA; route_UA; route_DL]));
        ("storage", Path ["/tmp/flights"; "search_c3d4.json"])]
  /\ exists pf pg,
       flight_price route_AA = Ok pf /\ flight_price route_DL = Ok pg
       /\ py_le (VFloat pf) (VFloat pg) = Ok true.
Proof.
  refine ((fun E => conj E _) _).
  - refine (sorted_by_price sample_env routes_dir cheapest_first _
              [route_AA; route_UA; route_DL] E eq_refl eq_refl _
              route_AA route_DL _).
    + intros f x Hin Hx. simpl in Hin.
      destruct Hin as [<-|[<-|[<-|[]]]]; vm_compute in Hx;
        injection Hx as <-; reflexivity.
    + apply precedes_here. right. left. reflexivity.
  - vm_compute. reflexivity.
Defined.

(** X19 on the third search: Delta at 255 minutes before United at 260
    before American at 310. *)
Lemma sorted_by_duration_witness :
  filter_flights sample_env routes_dir shortest_first
  = Ok [("filtered_count", Json (VInt 3)); ("total_count", Json (VInt 3));
        ("flights", Json (VList [route_DL; route_UA; route_AA]));
        ("storage", Path ["/tmp/flights"; "search_c3d4.json"])]
  /\ exists df dg,
       duration_key route_DL = Ok (VInt df) /\ duration_key route_AA = Ok (VInt dg)
       /\ df <= dg.
Proof.
  refine ((fun E => conj E _) _).
  - refine (sorted_by_duration sample_env routes_dir shortest_first _
              [route_DL; route_UA; route_AA] E eq_refl eq_refl
              route_DL route_AA _).
    apply precedes_here. right. left. reflexivity.
  - vm_compute. reflexivity.
Defined.

(** X20 on the third search, from the latest: United at nine before
    American at eight before Delta at six. *)
Lemma sorted_by_departure_time_witness :
  filter_flights sample_env routes_dir latest_first
  = Ok [("filtered_count", Json (VInt 3)); ("total_count", Json (VInt 3));
        ("flights", Json (VList [route_UA; route_AA; route_DL]));
        ("storage", Path ["/tmp/flights"; "search_c3d4.json"])]
  /\ exists tf tg,
       departure_time_key route_UA = Ok (VStr tf)
       /\ departure_time_key route_DL = Ok (VStr tg)
       /\ py_le (VStr tg) (VStr tf) = Ok true.
Proof.
  refine ((fun E => conj E _) _).
  - refine (sorted_by_departure_time sample_env routes_dir latest_first _
              [route_UA; route_AA; route_DL] E eq_refl eq_refl _
              route_UA route_DL _).
    + intros f Hin. simpl in Hin.
      destruct Hin as [<-|[<-|[<-|[]]]]; eexists; vm_compute; reflexivity.
    + apply precedes_here. right. left. reflexivity.
  - vm_compute. reflexivity.
Defined.

(** X21 on the third search: the filter without criteria returns its three
    flights. *)
Lemma unfiltered_view_of_a_search_witness :
  search_flights sample_env routes_outside ∅ "ORD" "LAX" "2025-06-01" None "INR"
  = (routes_response, routes_dir)
  /\ response_get "flights_count" routes_response = Some (Json (VInt 3))
  /\ filter_flights sample_env routes_dir (on_routes [])
     = Ok [("filtered_count", Json (VInt 3)); ("total_count", Json (VInt 3));
           ("flights", Json (VList routes_items));
           ("storage", Path ["/tmp/flights"; "search_c3d4.json"])].
Proof.
  refine ((fun E Hc => conj E (conj Hc _)) _ _).
  - destruct (unfiltered_view_of_a_search sample_env routes_outside ∅
                "ORD" "LAX" "2025-06-01" None "INR" _ _ (on_routes [])
                E eq_refl eq_refl eq_refl)
      as (flights & doc & _ & Hget & Hfl & Hres).
    vm_compute in Hget. injection Hget as <-.
    vm_compute in Hfl. injection Hfl as <-. exact Hres.
  - reflexivity.
  - vm_compute. reflexivity.
Defined.

(** X22 on the third search with [max_stops = 0]. *)
Lemma filter_after_search_witness :
  search_flights sample_env routes_outside ∅ "ORD" "LAX" "2025-06-01" None "INR"
  = (routes_response, routes_dir)
  /\ well_typed nonstop = true
  /\ exists sorted,
       filter_flights sample_env routes_dir nonstop
       = Ok [("filtered_count", Json (VInt (Z.of_nat (length sorted))));
             ("total_count", Json (VInt 3));
             ("flights", Json (VList sorted));
             ("storage", Path ["/tmp/flights"; "search_c3d4.json"])].
Proof.
  refine ((fun E Hw => conj E (conj Hw _)) _ _).
  - refine (filter_after_search sample_env routes_outside ∅
              "ORD" "LAX" "2025-06-01" None "INR" _ _
              [itinerary [leg "UA" (airport "O'Hare" "ORD" "2025-06-01 09:00")
                            (airport "Los Angeles" "LAX" "2025-06-01 11:20")]
                 300 260;
               itinerary [ord_dfw; dfw_lax] 250 310;
               itinerary [leg "DL" (airport "O'Hare" "ORD" "2025-06-01 06:00")
                            (airport "Los Angeles" "LAX" "2025-06-01 08:15")]
                 320 255]
              nonstop E eq_refl _ _ eq_refl Hw).
    + intros key api _ Hg. cbn in Hg. injection Hg as <-. reflexivity.
    + repeat constructor.
  - reflexivity.
  - reflexivity.
Defined.

(** X23 on the third search: swept twenty-five hours after it was saved,
    with the threshold of a day, it is not found. *)
Lemma search_results_expire_witness :
  search_flights sample_env routes_outside ∅ "ORD" "LAX" "2025-06-01" None "INR"
  = (routes_response, routes_dir)
  /\ fromisoformat (isoformat 3000001) = Ok (naive 3000001)
  /\ filter_flights sample_env
       (cleanup_old_searches (3000001 + 25 * 3600 * 1000000) 24 routes_dir)
       (on_routes [])
     = Ok not_found.
Proof.
  refine ((fun E Hiso => conj E (conj Hiso _)) _ _).
  - rewrite (search_results_expire sample_env routes_outside ∅
               "ORD" "LAX" "2025-06-01" None "INR" _ _
               (3000001 + 25 * 3600 * 1000000) 24 (on_routes [])
               E eq_refl Hiso);
      [reflexivity|lia|vm_compute; reflexivity|reflexivity].
  - reflexivity.
  - vm_compute. reflexivity.
Defined.
